(** * cryptoAPI: the TTL cache, the LiveCoinWatch gateway and the HTTP handlers

    A shallow embedding of
    - [app/utils/cache.py]            ([SimpleCache]),
    - [app/utils/validators.py]       ([validate_crypto_symbol], ...),
    - [app/services/livecoinwatch.py] ([LiveCoinWatchService]),
    - [app/main.py]                   (the route handlers and the exception
                                       handlers),
    - [app/models.py]                 (the response models),
    followed by the properties of the specification, each one proved or
    refuted on the embedding.

    Modelling conventions.
    - Python values that travel through the cache and the upstream JSON are
      the inductive type [pyval]; a JSON object is an association list in
      document order, looked up by its first binding.
    - Python [float] is IEEE binary64: Rocq's primitive [float].
    - Python [str] is modelled by Rocq's [string] restricted to ASCII: the
      case conversions and [strip] act on the ASCII letters and the ASCII
      white space, other characters are left alone.  What is proved of the
      case conversions of a string that is not ASCII is proved of these
      functions; the laws that tie [lower] to [upper] carry the hypothesis
      that the string is ASCII.
    - [time.time()] readings are integer clock ticks (the unit of [ttl]); the
      clock advances only while a request to the upstream provider is in
      flight and between two operations, never inside straight-line code.
    - Exceptions are values of [exn]; a computation that raises keeps the
      state changes made before the raise.
    - The coroutines are run one at a time, each to completion. *)

From Stdlib Require Import ZArith String Ascii List Floats Lia Bool.
From stdpp Require Import gmap strings pretty.

#[local] Set Warnings "-register-all,-inexact-float".
Local Open Scope string_scope.
Local Open Scope list_scope.
Local Open Scope Z_scope.

(** ** Python values and the string operations the program uses *)

Module Py.

Inductive pyval : Type :=
| PyNone
| PyBool (b : bool)
| PyInt (n : Z)
| PyFloat (f : float)
| PyStr (s : string)
| PyList (l : list pyval)
| PyDict (d : list (string * pyval)).

(** Truth value of an object, as tested by [if cached_data:]. *)
Definition truthy (v : pyval) : bool :=
  match v with
  | PyNone => false
  | PyBool b => b
  | PyInt n => negb (n =? 0)
  | PyFloat f => negb (PrimFloat.eqb f 0%float)
  | PyStr s => negb (String.eqb s "")
  | PyList l => match l with [] => false | _ :: _ => true end
  | PyDict d => match d with [] => false | _ :: _ => true end
  end.

(** The exceptions that occur in the program.  [JSONDecodeError] (raised by
    [response.json()]) and pydantic's [ValidationError] are subclasses of
    [ValueError]; [HTTPException] keeps the exception whose [str] is its
    [detail]; [RequestValidationError] is the exception with which FastAPI
    turns down a request whose parameter is outside the bounds its [Query]
    declares, before the body of the handler runs. *)
Inductive exn : Type :=
| LiveCoinWatchError (msg : string)
| ValueError (msg : string)
| JSONDecodeError
| ValidationError
| AttributeError
| TypeError
| OverflowError
| HTTPException (status_code : Z) (cause : exn)
| RequestValidationError.

(** [isinstance(e, ValueError)] *)
Definition is_ValueError (e : exn) : bool :=
  match e with
  | ValueError _ | JSONDecodeError | ValidationError => true
  | _ => false
  end.

Inductive Result (A : Type) : Type :=
| Ok (a : A)
| Raise (e : exn).
Arguments Ok {A} a.
Arguments Raise {A} e.

Definition rbind {A B : Type} (r : Result A) (k : A -> Result B) : Result B :=
  match r with
  | Ok a => k a
  | Raise e => Raise e
  end.

Definition is_upper (c : ascii) : bool :=
  let n := nat_of_ascii c in (65 <=? n)%nat && (n <=? 90)%nat.

Definition is_lower (c : ascii) : bool :=
  let n := nat_of_ascii c in (97 <=? n)%nat && (n <=? 122)%nat.

Definition is_digit (c : ascii) : bool :=
  let n := nat_of_ascii c in (48 <=? n)%nat && (n <=? 57)%nat.

(** ASCII white space as [str.isspace] sees it: TAB, LF, VT, FF, CR, the
    four separators FS, GS, RS, US and the space. *)
Definition is_space (c : ascii) : bool :=
  let n := nat_of_ascii c in
  ((9 <=? n)%nat && (n <=? 13)%nat) || ((28 <=? n)%nat && (n <=? 32)%nat).

Definition lower_char (c : ascii) : ascii :=
  if is_upper c then ascii_of_nat (nat_of_ascii c + 32) else c.

Definition upper_char (c : ascii) : ascii :=
  if is_lower c then ascii_of_nat (nat_of_ascii c - 32) else c.

Fixpoint map_string (f : ascii -> ascii) (s : string) : string :=
  match s with
  | EmptyString => EmptyString
  | String c s' => String (f c) (map_string f s')
  end.

(** [s.lower()] and [s.upper()] on the ASCII letters.  Python's conversions
    follow the Unicode case mappings; the two agree on the strings of ASCII
    characters ([ascii_only] below), and a law that relates the two conversions to each other is
    stated for such strings only. *)
Definition lower (s : string) : string := map_string lower_char s.
Definition upper (s : string) : string := map_string upper_char s.

Fixpoint lstrip (s : string) : string :=
  match s with
  | EmptyString => EmptyString
  | String c s' => if is_space c then lstrip s' else s
  end.

Fixpoint rstrip (s : string) : string :=
  match s with
  | EmptyString => EmptyString
  | String c s' =>
      match rstrip s' with
      | EmptyString => if is_space c then EmptyString else String c EmptyString
      | r => String c r
      end
  end.

(** [s.strip()] *)
Definition strip (s : string) : string := rstrip (lstrip s).

Fixpoint startswith (p s : string) : bool :=
  match p, s with
  | EmptyString, _ => true
  | String a p', String b s' => Ascii.eqb a b && startswith p' s'
  | String _ _, EmptyString => false
  end.

(** [needle in hay] on strings: [needle] occurs as a substring. *)
Fixpoint str_in (needle hay : string) : bool :=
  startswith needle hay ||
  match hay with
  | EmptyString => false
  | String _ hay' => str_in needle hay'
  end.

Fixpoint forallb_string (p : ascii -> bool) (s : string) : bool :=
  match s with
  | EmptyString => true
  | String c s' => p c && forallb_string p s'
  end.

(** A string of ASCII characters only: the strings on which [lower] and
    [upper] are the conversions of Python. *)
Definition ascii_only (s : string) : Prop :=
  forallb_string (fun c => (nat_of_ascii c <? 128)%nat) s = true.

(** Lookup in a JSON object: the first binding of the key. *)
Fixpoint assoc (key : string) (d : list (string * pyval)) : option pyval :=
  match d with
  | [] => None
  | (k, v) :: d' => if String.eqb key k then Some v else assoc key d'
  end.

(** [obj.get(key, default)]: only a [dict] has the method. *)
Definition get (obj : pyval) (key : string) (default : pyval) : Result pyval :=
  match obj with
  | PyDict d => Ok (match assoc key d with Some v => v | None => default end)
  | _ => Raise AttributeError
  end.

(** [obj.lower()]: only a [str] has the method. *)
Definition lower_of (obj : pyval) : Result string :=
  match obj with
  | PyStr s => Ok (lower s)
  | _ => Raise AttributeError
  end.

(** The sequence a [for] loop walks: the elements of a list, the keys of a
    dict, the characters of a string; other JSON values are not iterable. *)
Definition iter (obj : pyval) : Result (list pyval) :=
  match obj with
  | PyList l => Ok l
  | PyDict d => Ok (map (fun kv => PyStr (fst kv)) d)
  | PyStr s => Ok (map (fun c => PyStr (String c EmptyString)) (list_ascii_of_string s))
  | _ => Raise TypeError
  end.

(** [float(n)] for an [int]: rounding to nearest even, [OverflowError] when
    the integer is out of the range of binary64. *)
Definition float_of_int (n : Z) : Result float :=
  let f := SF2Prim (SpecFloat.binary_normalize FloatOps.prec FloatOps.emax n 0 false) in
  if PrimFloat.is_infinity f then Raise OverflowError else Ok f.

(** [v - c] for a float constant [c]: defined on the numbers ([bool] is a
    subclass of [int]), a [TypeError] on anything else. *)
Definition sub_float (v : pyval) (c : float) : Result float :=
  match v with
  | PyFloat f => Ok (f - c)%float
  | PyInt n => rbind (float_of_int n) (fun f => Ok (f - c)%float)
  | PyBool b => Ok ((if b then 1 else 0) - c)%float
  | _ => Raise TypeError
  end.

End Py.

Export Py.

(** ** [app/config.py]: the settings the program reads *)

Module Config.

Record Settings := {
  lcw_base_url : string;
  cache_ttl_seconds : Z
}.

(** The defaults of the class [Settings]. *)
Definition settings : Settings :=
  {| lcw_base_url := "https://api.livecoinwatch.com"; cache_ttl_seconds := 300 |}.

End Config.

(** ** [app/utils/cache.py]: [SimpleCache] *)

Module Cache.

(** One entry of [self._cache]: the dict with the keys ["value"] and
    ["timestamp"]. *)
Record CacheEntry := {
  value : pyval;
  timestamp : Z
}.

Record SimpleCache := {
  ttl : Z;
  _cache : gmap string CacheEntry
}.

(** [__init__]: [self.ttl = ttl or settings.cache_ttl_seconds]; the [or]
    falls back to the setting for [None] and for [0]. *)
Definition init (ttl : option Z) : SimpleCache :=
  {| ttl := match ttl with
            | Some t => if t =? 0 then Config.cache_ttl_seconds Config.settings else t
            | None => Config.cache_ttl_seconds Config.settings
            end;
     _cache := ∅ |}.

(** [entry] is expired at [now]: [time.time() - entry["timestamp"] > self.ttl]. *)
Definition expired (self : SimpleCache) (now : Z) (entry : CacheEntry) : bool :=
  now - timestamp entry >? ttl self.

(** [get(key)], run when the clock reads [now]: the returned value ([None]
    is Python's [None]) and the cache afterwards. *)
Definition get (now : Z) (self : SimpleCache) (key : string) : option pyval * SimpleCache :=
  match _cache self !! key with
  | None => (None, self)
  | Some entry =>
      if expired self now entry
      then (None, {| ttl := ttl self; _cache := delete key (_cache self) |})
      else (Some (value entry), self)
  end.

(** [set(key, value)], run when the clock reads [now]. *)
Definition set (now : Z) (self : SimpleCache) (key : string) (v : pyval) : SimpleCache :=
  {| ttl := ttl self;
     _cache := <[key := {| value := v; timestamp := now |}]> (_cache self) |}.

(** [clear()] *)
Definition clear (self : SimpleCache) : SimpleCache :=
  {| ttl := ttl self; _cache := ∅ |}.

(** [size()] *)
Definition size (self : SimpleCache) : nat := base.size (_cache self).

(** What a reader sees under [key] at [now]: the value of a live entry. *)
Definition visible (now : Z) (self : SimpleCache) (key : string) : option pyval :=
  fst (get now self key).

End Cache.

(** ** [app/utils/validators.py] *)

Module Validators.

(** A character of the class [[A-Z0-9]]. *)
Definition is_AZ09 (c : ascii) : bool := is_upper c || is_digit c.

(** The string without one final line feed, if it has one: [$] also matches
    just before a line feed that ends the string. *)
Fixpoint chop_newline (s : string) : string :=
  match s with
  | EmptyString => EmptyString
  | String c EmptyString => if Ascii.eqb c "010"%char then EmptyString else s
  | String c s' => String c (chop_newline s')
  end.

(** [re.match(r'^[A-Z0-9]+$', symbol)] finds a match. *)
Definition re_match_AZ09 (symbol : string) : bool :=
  let body := chop_newline symbol in
  negb (String.eqb body "") && forallb_string is_AZ09 body.

Definition validate_crypto_symbol (symbol : string) : Result string :=
  if String.eqb symbol "" then Raise (ValueError "Symbol must be a non-empty string")
  else
    let symbol := upper (strip symbol) in
    if negb (re_match_AZ09 symbol)
    then Raise (ValueError "Symbol must contain only letters and numbers")
    else if (Z.of_nat (String.length symbol) <? 1) || (Z.of_nat (String.length symbol) >? 10)
    then Raise (ValueError "Symbol must be between 1 and 10 characters")
    else Ok symbol.

Definition supported_currencies : list string :=
  ["USD"; "EUR"; "GBP"; "JPY"; "CAD"; "AUD"; "CHF"; "CNY"; "KRW"; "INR"].

(** [sep.join(items)] *)
Fixpoint join (sep : string) (items : list string) : string :=
  match items with
  | [] => ""
  | [x] => x
  | x :: rest => x +:+ sep +:+ join sep rest
  end.

(** The message lists the set of supported currencies; a set has no
    specified iteration order, the order of the source text is used. *)
Definition validate_currency (currency : string) : Result string :=
  if String.eqb currency "" then Raise (ValueError "Currency must be a non-empty string")
  else
    let currency := upper (strip currency) in
    if negb (existsb (String.eqb currency) supported_currencies)
    then Raise (ValueError ("Currency '" +:+ currency +:+ "' not supported. Supported: "
                            +:+ join ", " supported_currencies))
    else Ok currency.

Definition validate_limit (limit : Z) (max_limit : Z) : Result Z :=
  if limit <? 1 then Raise (ValueError "Limit must be at least 1")
  else if limit >? max_limit
  then Raise (ValueError ("Limit cannot exceed " +:+ pretty max_limit))
  else Ok limit.

(** The loop of [validate_crypto_symbols] over the symbols still to check,
    with the list [validated_symbols] built so far; a [ValueError] of
    [validate_crypto_symbol] is raised again with the symbol in front. *)
Fixpoint validate_each (symbols validated_symbols : list string) : Result (list string) :=
  match symbols with
  | [] => Ok validated_symbols
  | symbol :: symbols' =>
      match validate_crypto_symbol symbol with
      | Ok validated => validate_each symbols' (validated_symbols ++ [validated])
      | Raise (ValueError msg) =>
          Raise (ValueError ("Invalid symbol '" +:+ symbol +:+ "': " +:+ msg))
      | Raise e => Raise e
      end
  end.

Definition validate_crypto_symbols (symbols : list string) : Result (list string) :=
  match symbols with
  | [] => Raise (ValueError "Symbols must be a non-empty list")
  | _ :: _ =>
      if Z.of_nat (length symbols) >? 50
      then Raise (ValueError "Cannot request more than 50 symbols at once")
      else validate_each symbols []
  end.

End Validators.

(** ** The upstream provider and the state of the process *)

Module Upstream.

(** [response.content] and what [response.json()] makes of it. *)
Inductive Body : Type :=
| NoContent
| NotJson
| Json (v : pyval).

(** What [client.post] does: it returns a response, or raises
    [httpx.TimeoutException], or raises another [httpx.RequestError] whose
    [str] is [msg]. *)
Inductive Outcome : Type :=
| Response (status_code : Z) (content : Body)
| TimeoutException
| RequestError (msg : string).

(** One POST: the endpoint below the base URL and the [json=] body. *)
Record Request := {
  endpoint : string;
  data : pyval
}.

Record Reply := {
  outcome : Outcome;
  elapsed : Z
}.

(** The provider answers a request knowing the requests sent before it. *)
Definition Provider : Type := list Request -> Request -> Reply.

End Upstream.

(** What the embedding takes from the Python runtime and from pydantic
    without modelling it: how an f-string renders a value that is not a
    string, and how a model field of a given annotation validates a value.
    The two laws are the ones the proofs use: a [str] given to a [str]
    field and a [float] given to a [float] field are kept as they are. *)
Class Library := {
  format_other : pyval -> string;
  as_str : pyval -> option string;
  as_float : pyval -> option float;
  as_opt_float : pyval -> option (option float);
  as_opt_int : pyval -> option (option Z);
  as_str_str : forall s, as_str (PyStr s) = Some s;
  as_float_float : forall f, as_float (PyFloat f) = Some f
}.

(** [f"{v}"] *)
Definition format `{Library} (v : pyval) : string :=
  match v with
  | PyStr s => s
  | _ => format_other v
  end.

(** ** The process state and the monad of the coroutines *)

Module Proc.

Import Upstream.

(** The global [cache], the wall clock, the provider and the requests sent
    to it so far, oldest first. *)
Record World := {
  cache : Cache.SimpleCache;
  clock : Z;
  provider : Provider;
  sent : list Request
}.

Definition M (A : Type) : Type := World -> Result A * World.

Definition ret {A : Type} (a : A) : M A := fun w => (Ok a, w).

Definition raise {A : Type} (e : exn) : M A := fun w => (Raise e, w).

Definition bind {A B : Type} (m : M A) (k : A -> M B) : M B :=
  fun w =>
    match m w with
    | (Ok a, w') => k a w'
    | (Raise e, w') => (Raise e, w')
    end.

(** A pure computation that may raise. *)
Definition lift {A : Type} (r : Result A) : M A := fun w => (r, w).

(** [try: m  except <class> as e: handler e]; [handler] answers [None] for an
    exception outside the class, which then propagates. *)
Definition try_except {A : Type} (m : M A) (handler : exn -> option (M A)) : M A :=
  fun w =>
    match m w with
    | (Ok a, w') => (Ok a, w')
    | (Raise e, w') =>
        match handler e with
        | Some h => h w'
        | None => (Raise e, w')
        end
    end.

(** [cache.get(key)] and [cache.set(key, value)] on the global cache. *)
Definition cache_get (key : string) : M (option pyval) :=
  fun w =>
    let '(r, c) := Cache.get (clock w) (cache w) key in
    (Ok r, {| cache := c; clock := clock w; provider := provider w; sent := sent w |}).

Definition cache_set (key : string) (v : pyval) : M unit :=
  fun w =>
    (Ok tt, {| cache := Cache.set (clock w) (cache w) key v; clock := clock w;
               provider := provider w; sent := sent w |}).

(** [await client.post(url, json=data, ...)]: the request is sent, the
    provider's reply arrives [elapsed] ticks later. *)
Definition post (req : Request) : M Outcome :=
  fun w =>
    let reply := provider w (sent w) req in
    (Ok (outcome reply),
     {| cache := cache w; clock := clock w + elapsed reply;
        provider := provider w; sent := (sent w ++ [req])%list |}).

(** Time passing between two operations. *)
Definition sleep (d : Z) : M unit :=
  fun w =>
    (Ok tt, {| cache := cache w; clock := clock w + d;
               provider := provider w; sent := sent w |}).

End Proc.

Notation "x <- m ;; k" := (Proc.bind m (fun x => k))
  (at level 20, m at level 99, k at level 200, only parsing).
Notation "m ;;; k" := (Proc.bind m (fun _ => k))
  (at level 100, k at level 200, only parsing, right associativity).

(** ** [app/services/livecoinwatch.py]: [LiveCoinWatchService] *)

Module Service.

Import Upstream Proc.

Section WithLibrary.

Context `{Library}.

(** [response.json()] *)
Definition json (content : Body) : Result pyval :=
  match content with
  | Json v => Ok v
  | NoContent | NotJson => Raise JSONDecodeError
  end.

(** The [else] branch of [_make_request] up to [error_msg]:
    [error_data = response.json() if response.content else {}], then
    [error_data.get("error", {}).get("description", "Unknown error")]. *)
Definition error_msg_of (content : Body) : Result pyval :=
  rbind (match content with
         | NoContent => Ok (PyDict [])
         | _ => json content
         end) (fun error_data =>
  rbind (Py.get error_data "error" (PyDict [])) (fun error =>
  Py.get error "description" (PyStr "Unknown error"))).

(** The body of [_make_request] once [client.post] has returned or raised:
    the [if]/[elif] chain on the status code and the two [except] clauses. *)
Definition classify (o : Outcome) : Result pyval :=
  match o with
  | Response status_code content =>
      if status_code =? 200 then json content
      else if status_code =? 401
      then Raise (LiveCoinWatchError "Invalid API key or unauthorized access")
      else if status_code =? 404
      then Raise (LiveCoinWatchError "Endpoint not found")
      else if status_code =? 429
      then Raise (LiveCoinWatchError "Rate limit exceeded")
      else
        rbind (error_msg_of content) (fun error_msg =>
        Raise (LiveCoinWatchError
                 ("API error (" +:+ pretty status_code +:+ "): " +:+ format error_msg)))
  | TimeoutException =>
      Raise (LiveCoinWatchError "Request timeout - API may be unavailable")
  | RequestError msg =>
      Raise (LiveCoinWatchError ("Network error: " +:+ msg))
  end.

Definition _make_request (endpoint : string) (data : pyval) : M pyval :=
  o <- post {| endpoint := endpoint; data := data |} ;;
  lift (classify o).

(** [if cached_data:] on the result of [cache.get]: the value counts as a
    hit when it is there and is truthy. *)
Definition if_truthy (cached_data : option pyval) : option pyval :=
  match cached_data with
  | Some v => if truthy v then Some v else None
  | None => None
  end.

Definition coin_key (symbol currency : string) : string :=
  "coin_" +:+ symbol +:+ "_" +:+ currency.

(** [get_single_coin] from the comment [# Make API request] on: what runs
    when the cache check did not return. *)
Definition get_single_coin_miss (symbol currency : string) : M pyval :=
  let cache_key := coin_key symbol currency in
  let data := PyDict [("currency", PyStr currency); ("code", PyStr symbol);
                      ("meta", PyBool true)] in
  try_except
    (result <- _make_request "coins/single" data ;;
     cache_set cache_key result ;;;
     ret result)
    (fun e =>
       match e with
       | LiveCoinWatchError msg =>
           Some (if str_in "not found" (lower msg)
                 then raise (LiveCoinWatchError
                               ("Cryptocurrency '" +:+ symbol +:+ "' not found"))
                 else raise e)
       | _ => None
       end).

Definition get_single_coin (symbol currency : string) : M pyval :=
  let cache_key := coin_key symbol currency in
  cached_data <- cache_get cache_key ;;
  match if_truthy cached_data with
  | Some v => ret v
  | None => get_single_coin_miss symbol currency
  end.

Definition coins_list_key (currency : string) (limit offset : Z) : string :=
  "coins_list_" +:+ currency +:+ "_" +:+ pretty limit +:+ "_" +:+ pretty offset.

Definition coins_list_data (currency : string) (limit offset : Z) : pyval :=
  PyDict [("currency", PyStr currency); ("sort", PyStr "rank");
          ("order", PyStr "ascending"); ("offset", PyInt offset);
          ("limit", PyInt limit); ("meta", PyBool false)].

Definition get_coins_list_miss (currency : string) (limit offset : Z) : M pyval :=
  let cache_key := coins_list_key currency limit offset in
  result <- _make_request "coins/list" (coins_list_data currency limit offset) ;;
  cache_set cache_key result ;;;
  ret result.

Definition get_coins_list (currency : string) (limit offset : Z) : M pyval :=
  let cache_key := coins_list_key currency limit offset in
  cached_data <- cache_get cache_key ;;
  match if_truthy cached_data with
  | Some v => ret v
  | None => get_coins_list_miss currency limit offset
  end.

(** The test of the loop of [search_coins]; the [or] evaluates the code only
    when the name does not match. *)
Definition coin_matches (query_lower : string) (coin : pyval) : Result bool :=
  rbind (Py.get coin "name" (PyStr "")) (fun name =>
  rbind (lower_of name) (fun name_lower =>
  if str_in query_lower name_lower then Ok true
  else
    rbind (Py.get coin "code" (PyStr "")) (fun code =>
    rbind (lower_of code) (fun code_lower =>
    Ok (str_in query_lower code_lower))))).

(** The [for] loop of [search_coins] over the coins still to visit, with the
    list [matching_coins] built so far; [break] leaves the loop. *)
Fixpoint search_loop (query_lower : string) (limit : Z) (coins matching_coins : list pyval)
  : Result (list pyval) :=
  match coins with
  | [] => Ok matching_coins
  | coin :: coins' =>
      rbind (coin_matches query_lower coin) (fun m =>
      if m then
        let matching_coins := (matching_coins ++ [coin])%list in
        if Z.of_nat (length matching_coins) >=? limit
        then Ok matching_coins
        else search_loop query_lower limit coins' matching_coins
      else search_loop query_lower limit coins' matching_coins)
  end.

Definition search_key (query currency : string) (limit : Z) : string :=
  "search_" +:+ query +:+ "_" +:+ currency +:+ "_" +:+ pretty limit.

(** [search_coins] from the comment [# Get a larger list and filter locally]
    on; [limit=200] and the default [offset=0] are the arguments of the call
    in the source. *)
Definition search_coins_miss (query currency : string) (limit : Z) : M pyval :=
  let cache_key := search_key query currency limit in
  coins_data <- get_coins_list currency 200 0 ;;
  let query_lower := lower query in
  coins <- lift (iter coins_data) ;;
  matching_coins <- lift (search_loop query_lower limit coins []) ;;
  cache_set cache_key (PyList matching_coins) ;;;
  ret (PyList matching_coins).

Definition search_coins (query currency : string) (limit : Z) : M pyval :=
  let cache_key := search_key query currency limit in
  cached_data <- cache_get cache_key ;;
  match if_truthy cached_data with
  | Some v => ret v
  | None => search_coins_miss query currency limit
  end.

Definition market_overview_key (currency : string) : string :=
  "market_overview_" +:+ currency.

Definition get_market_overview_miss (currency : string) : M pyval :=
  let cache_key := market_overview_key currency in
  result <- _make_request "overview" (PyDict [("currency", PyStr currency)]) ;;
  cache_set cache_key result ;;;
  ret result.

Definition get_market_overview (currency : string) : M pyval :=
  let cache_key := market_overview_key currency in
  cached_data <- cache_get cache_key ;;
  match if_truthy cached_data with
  | Some v => ret v
  | None => get_market_overview_miss currency
  end.

End WithLibrary.

End Service.

(** ** [app/models.py] *)

Module Models.

Inductive Currency : Type := USD | EUR | GBP | JPY | CAD | AUD.

(** [currency.value] *)
Definition Currency_value (c : Currency) : string :=
  match c with
  | USD => "USD" | EUR => "EUR" | GBP => "GBP"
  | JPY => "JPY" | CAD => "CAD" | AUD => "AUD"
  end.

Module CryptocurrencyResponse.
Record t := {
  symbol : string;
  name : string;
  price : float;
  percent_change_24h : float;
  volume_24h : float;
  market_cap : option float;
  rank : option Z
}.
End CryptocurrencyResponse.

Module CryptocurrencyListItem.
Record t := {
  symbol : string;
  name : string;
  price : float;
  percent_change_24h : float;
  rank : option Z
}.
End CryptocurrencyListItem.

Module CryptocurrencyListResponse.
Record t := {
  data : list CryptocurrencyListItem.t;
  total_count : Z;
  currency : string
}.
End CryptocurrencyListResponse.

Module MarketOverview.
Record t := {
  total_market_cap : float;
  total_volume_24h : float;
  bitcoin_dominance : option float;
  active_cryptocurrencies : option Z
}.
End MarketOverview.

(** The body of a [JSONResponse] built by an exception handler. *)
Module ErrorResponse.
Record t := {
  error : string;
  message : string;
  status_code : Z
}.
End ErrorResponse.

Section WithLibrary.

Context `{Library}.

(** [CryptocurrencyResponse] built from the unpacked dict [response_data]:
    the keys of [response_data] are the aliases [change_24h], [volume] and [cap] and the field names
    [symbol], [name], [price] and [rank]; every field is validated. *)
Definition new_CryptocurrencyResponse (symbol name price change_24h volume cap rank : pyval)
  : Result CryptocurrencyResponse.t :=
  match as_str symbol, as_str name, as_float price, as_float change_24h,
        as_float volume, as_opt_float cap, as_opt_int rank with
  | Some symbol, Some name, Some price, Some change_24h, Some volume, Some cap, Some rank =>
      Ok {| CryptocurrencyResponse.symbol := symbol;
            CryptocurrencyResponse.name := name;
            CryptocurrencyResponse.price := price;
            CryptocurrencyResponse.percent_change_24h := change_24h;
            CryptocurrencyResponse.volume_24h := volume;
            CryptocurrencyResponse.market_cap := cap;
            CryptocurrencyResponse.rank := rank |}
  | _, _, _, _, _, _, _ => Raise ValidationError
  end.

(** [CryptocurrencyListItem(symbol=..., name=..., price=...,
    percent_change_24h=..., rank=...)] *)
Definition new_CryptocurrencyListItem (symbol name price percent_change_24h rank : pyval)
  : Result CryptocurrencyListItem.t :=
  match as_str symbol, as_str name, as_float price, as_float percent_change_24h,
        as_opt_int rank with
  | Some symbol, Some name, Some price, Some percent_change_24h, Some rank =>
      Ok {| CryptocurrencyListItem.symbol := symbol;
            CryptocurrencyListItem.name := name;
            CryptocurrencyListItem.price := price;
            CryptocurrencyListItem.percent_change_24h := percent_change_24h;
            CryptocurrencyListItem.rank := rank |}
  | _, _, _, _, _ => Raise ValidationError
  end.

(** [MarketOverview(total_market_cap=..., ...)] *)
Definition new_MarketOverview (cap volume btcDominance liquidity : pyval)
  : Result MarketOverview.t :=
  match as_float cap, as_float volume, as_opt_float btcDominance, as_opt_int liquidity with
  | Some cap, Some volume, Some btcDominance, Some liquidity =>
      Ok {| MarketOverview.total_market_cap := cap;
            MarketOverview.total_volume_24h := volume;
            MarketOverview.bitcoin_dominance := btcDominance;
            MarketOverview.active_cryptocurrencies := liquidity |}
  | _, _, _, _ => Raise ValidationError
  end.

End WithLibrary.

End Models.

(** ** [app/main.py]: the route handlers and the exception handlers *)

Module Main.

Import Upstream Proc Models.

Section WithLibrary.

Context `{Library}.

(** [(obj.get("delta", {}).get("day", 1.0) - 1.0) * 100] *)
Definition percent_change (obj : pyval) : Result float :=
  rbind (Py.get obj "delta" (PyDict [])) (fun delta =>
  rbind (Py.get delta "day" (PyFloat 1.0)) (fun day =>
  rbind (sub_float day 1.0) (fun x =>
  Ok (x * 100)%float))).

(** [except ValueError as e: raise HTTPException(status_code=400, detail=str(e))] *)
Definition except_ValueError {A : Type} (e : exn) : option (M A) :=
  if is_ValueError e then Some (raise (HTTPException 400 e)) else None.

(** The dict [response_data] of [get_cryptocurrency], its entries evaluated
    in the order of the source, handed to the model. *)
Definition single_response (data : pyval) (validated_symbol : string)
  : Result CryptocurrencyResponse.t :=
  rbind (Py.get data "symbol" (PyStr validated_symbol)) (fun symbol =>
  rbind (Py.get data "name" (PyStr "")) (fun name =>
  rbind (Py.get data "rate" (PyFloat 0.0)) (fun price =>
  rbind (percent_change data) (fun change_24h =>
  rbind (Py.get data "volume" (PyFloat 0.0)) (fun volume =>
  rbind (Py.get data "cap" PyNone) (fun cap =>
  rbind (Py.get data "rank" PyNone) (fun rank =>
  new_CryptocurrencyResponse symbol name price (PyFloat change_24h) volume cap rank))))))).

Definition get_cryptocurrency (symbol : string) (currency : Currency)
  : M CryptocurrencyResponse.t :=
  try_except
    (validated_symbol <- lift (Validators.validate_crypto_symbol symbol) ;;
     validated_currency <- lift (Validators.validate_currency (Currency_value currency)) ;;
     data <- Service.get_single_coin validated_symbol validated_currency ;;
     lift (single_response data validated_symbol))
    except_ValueError.

(** One turn of the loop that transforms the upstream items. *)
Definition list_item (item : pyval) : Result CryptocurrencyListItem.t :=
  rbind (Py.get item "code" (PyStr "")) (fun symbol =>
  rbind (Py.get item "name" (PyStr "")) (fun name =>
  rbind (Py.get item "rate" (PyFloat 0.0)) (fun price =>
  rbind (percent_change item) (fun percent_change_24h =>
  rbind (Py.get item "rank" PyNone) (fun rank =>
  new_CryptocurrencyListItem symbol name price (PyFloat percent_change_24h) rank))))).

(** The loop [for item in data: ... crypto_items.append(crypto_item)]. *)
Fixpoint transform (data : list pyval) (crypto_items : list CryptocurrencyListItem.t)
  : Result (list CryptocurrencyListItem.t) :=
  match data with
  | [] => Ok crypto_items
  | item :: data' =>
      rbind (list_item item) (fun crypto_item =>
      transform data' (crypto_items ++ [crypto_item])%list)
  end.

(** The tail shared by the two list handlers: transform, then build the
    response with [total_count=len(crypto_items)]. *)
Definition list_response (data : pyval) (validated_currency : string)
  : Result CryptocurrencyListResponse.t :=
  rbind (iter data) (fun items =>
  rbind (transform items []) (fun crypto_items =>
  Ok {| CryptocurrencyListResponse.data := crypto_items;
        CryptocurrencyListResponse.total_count := Z.of_nat (length crypto_items);
        CryptocurrencyListResponse.currency := validated_currency |})).

(** The bounds of the signature of [get_cryptocurrencies]:
    [limit: int = Query(20, ge=1, le=100)] and [offset: int = Query(0, ge=0)]. *)
Definition get_cryptocurrencies_query (limit offset : Z) : bool :=
  (1 <=? limit) && (limit <=? 100) && (0 <=? offset).

(** The route [GET /crypto]: FastAPI checks the declared bounds of the
    parameters and turns the request down, without running the body, when
    one of them fails. *)
Definition get_cryptocurrencies (limit offset : Z) (currency : Currency)
  : M CryptocurrencyListResponse.t :=
  if get_cryptocurrencies_query limit offset then
    try_except
      (validated_limit <- lift (Validators.validate_limit limit 100) ;;
       validated_currency <- lift (Validators.validate_currency (Currency_value currency)) ;;
       data <- Service.get_coins_list validated_currency validated_limit offset ;;
       lift (list_response data validated_currency))
      except_ValueError
  else raise RequestValidationError.

(** The bounds of the signature of [search_cryptocurrencies]:
    [query: str = Query(..., min_length=1)] and
    [limit: int = Query(10, ge=1, le=50)]. *)
Definition search_cryptocurrencies_query (query : string) (limit : Z) : bool :=
  (1 <=? String.length query)%nat && (1 <=? limit) && (limit <=? 50).

(** The route [GET /search], its parameters checked in the same way. *)
Definition search_cryptocurrencies (query : string) (limit : Z) (currency : Currency)
  : M CryptocurrencyListResponse.t :=
  if search_cryptocurrencies_query query limit then
    try_except
      (validated_limit <- lift (Validators.validate_limit limit 50) ;;
       validated_currency <- lift (Validators.validate_currency (Currency_value currency)) ;;
       data <- Service.search_coins query validated_currency validated_limit ;;
       lift (list_response data validated_currency))
      except_ValueError
  else raise RequestValidationError.

Definition market_overview_response (data : pyval) : Result MarketOverview.t :=
  rbind (Py.get data "cap" (PyFloat 0.0)) (fun cap =>
  rbind (Py.get data "volume" (PyFloat 0.0)) (fun volume =>
  rbind (Py.get data "btcDominance" PyNone) (fun btcDominance =>
  rbind (Py.get data "liquidity" PyNone) (fun liquidity =>
  new_MarketOverview cap volume btcDominance liquidity)))).

Definition get_market_overview (currency : Currency) : M MarketOverview.t :=
  try_except
    (validated_currency <- lift (Validators.validate_currency (Currency_value currency)) ;;
     data <- Service.get_market_overview validated_currency ;;
     lift (market_overview_response data))
    except_ValueError.

End WithLibrary.

(** [livecoinwatch_exception_handler], for an exception whose [str] is [msg]. *)
Definition livecoinwatch_exception_handler (msg : string) : ErrorResponse.t :=
  let status_code :=
    if str_in "not found" (lower msg) then 404
    else if str_in "unauthorized" (lower msg) then 401
    else if str_in "rate limit" (lower msg) then 429
    else 502 in
  {| ErrorResponse.error := "API Error";
     ErrorResponse.message := msg;
     ErrorResponse.status_code := status_code |}.

(** [validation_exception_handler] *)
Definition validation_exception_handler (msg : string) : ErrorResponse.t :=
  {| ErrorResponse.error := "Validation Error";
     ErrorResponse.message := msg;
     ErrorResponse.status_code := 400 |}.

(** The status code of the HTTP response the application sends for the
    outcome of a route handler: 200 for a returned model, the status of an
    [HTTPException], the status chosen by the handler registered for the
    exception's class (the handler for [ValueError] also serves its
    subclasses, with status 400; FastAPI's own handler for
    [RequestValidationError] answers 422), and 500 for an exception no
    handler is registered for. *)
Definition http_status {A : Type} (r : Result A) : Z :=
  match r with
  | Ok _ => 200
  | Raise (HTTPException status_code _) => status_code
  | Raise RequestValidationError => 422
  | Raise (LiveCoinWatchError msg) =>
      ErrorResponse.status_code (livecoinwatch_exception_handler msg)
  | Raise (ValueError msg) =>
      ErrorResponse.status_code (validation_exception_handler msg)
  | Raise JSONDecodeError | Raise ValidationError => 400
  | Raise _ => 500
  end.

End Main.

(** ** A concrete library and concrete worlds, to run the model *)

Module Run.

Import Upstream Proc.

(** A field accepts a value that already has its type, a float field also
    an [int]; the rendering of a value that is not a string is a fixed
    placeholder. *)
#[export] Instance strict : Library := {|
  format_other := fun _ => "<object>";
  as_str := fun v => match v with PyStr s => Some s | _ => None end;
  as_float := fun v =>
    match v with
    | PyFloat f => Some f
    | PyInt n => match float_of_int n with Ok f => Some f | Raise _ => None end
    | _ => None
    end;
  as_opt_float := fun v =>
    match v with
    | PyNone => Some None
    | PyFloat f => Some (Some f)
    | PyInt n => match float_of_int n with Ok f => Some (Some f) | Raise _ => None end
    | _ => None
    end;
  as_opt_int := fun v =>
    match v with
    | PyNone => Some None
    | PyInt n => Some (Some n)
    | _ => None
    end;
  as_str_str := fun _ => eq_refl;
  as_float_float := fun _ => eq_refl
|}.

(** A provider that gives every request the same reply. *)
Definition always (o : Outcome) (d : Z) : Provider :=
  fun _ _ => {| outcome := o; elapsed := d |}.

(** The process just started at clock [t0], the cache built by
    [SimpleCache()]. *)
Definition boot (p : Provider) (t0 : Z) : World :=
  {| cache := Cache.init None; clock := t0; provider := p; sent := [] |}.

(** The payload of the end-to-end scenario of the specification. *)
Definition btc : pyval :=
  PyDict [("code", PyStr "BTC"); ("name", PyStr "Bitcoin"); ("rate", PyFloat 45000.5);
          ("volume", PyFloat 2.5e10); ("cap", PyFloat 8.5e11); ("rank", PyInt 1);
          ("delta", PyDict [("day", PyFloat 0.975)])].

(** A single-coin payload that carries a [symbol] field of its own. *)
Definition xbt : pyval :=
  PyDict [("symbol", PyStr "XBT"); ("name", PyStr "Bitcoin"); ("rate", PyFloat 45000.5);
          ("volume", PyFloat 2.5e10); ("delta", PyDict [("day", PyFloat 0.975)])].

(** A listing entry with a name and a code. *)
Definition coin (name code : string) (rank : Z) : pyval :=
  PyDict [("name", PyStr name); ("code", PyStr code); ("rate", PyFloat 1.0);
          ("rank", PyInt rank); ("delta", PyDict [("day", PyFloat 1.0)])].

(** A listing of 200 entries in which exactly the entries at the positions
    5, 40 and 150 have a name that contains "bit". *)
Definition listing200 : list pyval :=
  map (fun i : nat =>
         if (i =? 5)%nat || (i =? 40)%nat || (i =? 150)%nat
         then coin ("Bitcoin " +:+ pretty i) ("B" +:+ pretty i) (Z.of_nat i)
         else coin ("Other " +:+ pretty i) ("X" +:+ pretty i) (Z.of_nat i))
      (seq 0 200).

(** The body of a 500 response whose description reads "Resource not found". *)
Definition missing_resource : Body :=
  Json (PyDict [("error", PyDict [("description", PyStr "Resource not found")])]).

(** The process at clock 1000 with an entry for BTC/USD stored at clock 0,
    expired since clock 300, and a provider that answers 500 with no body. *)
Definition stale : World :=
  {| cache := Cache.set 0 (Cache.init None) (Service.coin_key "BTC" "USD") btc;
     clock := 1000;
     provider := always (Response 500 NoContent) 1;
     sent := [] |}.

End Run.

(** ** The vocabulary of the specification *)

Module Spec.

Import Upstream Proc.

(** [normalize(S)]: the symbol trimmed of surrounding white space and
    uppercased. *)
Definition normalize (S : string) : string := upper (strip S).

(** The text of a field of a listing entry, empty when the entry has no such
    field. *)
Definition text_of (coin : pyval) (key : string) : string :=
  match coin with
  | PyDict d => match assoc key d with Some (PyStr s) => s | _ => "" end
  | _ => ""
  end.

(** An entry matches a query: the lowercased query is a substring of the
    lowercased name or of the lowercased code. *)
Definition entry_matches (query : string) (coin : pyval) : bool :=
  str_in (lower query) (lower (text_of coin "name"))
  || str_in (lower query) (lower (text_of coin "code")).

(** A field of a JSON object that is absent or holds a string. *)
Definition text_field (d : list (string * pyval)) (key : string) : Prop :=
  assoc key d = None \/ exists s, assoc key d = Some (PyStr s).

(** A listing entry as the provider documents it: a JSON object whose
    [name] and [code], when present, are strings. *)
Definition entry (coin : pyval) : Prop :=
  exists d, coin = PyDict d /\ text_field d "name" /\ text_field d "code".

(** The cache [after] holds nothing that [before] did not hold: every key
    has the entry it had, or has lost an entry that was expired at [now]. *)
Definition only_evicts (now : Z) (before after : Cache.SimpleCache) : Prop :=
  Cache.ttl after = Cache.ttl before /\
  forall key,
    Cache._cache after !! key = Cache._cache before !! key \/
    (Cache._cache after !! key = None /\
     exists e, Cache._cache before !! key = Some e /\ Cache.expired before now e = true).

(** The three phrases the exception handler looks for. *)
Definition keywords : list string := ["not found"; "unauthorized"; "rate limit"].

(** A message that contains none of them, in any letter case. *)
Definition plain (msg : string) : Prop :=
  Forall (fun kw => str_in kw (lower msg) = false) keywords.

(** The request [get_coins_list] sends for a currency, a limit and an offset. *)
Definition listing_request (currency : string) (limit offset : Z) : Request :=
  {| endpoint := "coins/list"; data := Service.coins_list_data currency limit offset |}.

(** The key holds a live entry in the world: present and not expired at the
    world's clock. *)
Definition live (w : World) (key : string) (v : pyval) : Prop :=
  exists e, Cache._cache (cache w) !! key = Some e /\
            Cache.expired (cache w) (clock w) e = false /\
            Cache.value e = v.

(** Every key reads the same in [after] as in [before], at every time from
    [now] on. *)
Definition same_reads (now : Z) (before after : Cache.SimpleCache) : Prop :=
  forall key later, now <= later ->
    Cache.visible later after key = Cache.visible later before key.

(** The four operations of the gateway with their parameters. *)
Inductive operation : Type :=
| SingleCoin (symbol currency : string)
| CoinsList (currency : string) (limit offset : Z)
| SearchCoins (query currency : string) (limit : Z)
| MarketOverview (currency : string).

Definition run `{Library} (op : operation) : M pyval :=
  match op with
  | SingleCoin symbol currency => Service.get_single_coin symbol currency
  | CoinsList currency limit offset => Service.get_coins_list currency limit offset
  | SearchCoins query currency limit => Service.search_coins query currency limit
  | MarketOverview currency => Service.get_market_overview currency
  end.

(** The operation past its cache check. *)
Definition miss `{Library} (op : operation) : M pyval :=
  match op with
  | SingleCoin symbol currency => Service.get_single_coin_miss symbol currency
  | CoinsList currency limit offset => Service.get_coins_list_miss currency limit offset
  | SearchCoins query currency limit => Service.search_coins_miss query currency limit
  | MarketOverview currency => Service.get_market_overview_miss currency
  end.

(** The cache key of an operation. *)
Definition key_of (op : operation) : string :=
  match op with
  | SingleCoin symbol currency => Service.coin_key symbol currency
  | CoinsList currency limit offset => Service.coins_list_key currency limit offset
  | SearchCoins query currency limit => Service.search_key query currency limit
  | MarketOverview currency => Service.market_overview_key currency
  end.

(** The keys an operation looks up in the cache: its own key and, for a
    search, the key of the listing it filters. *)
Definition keys_read (op : operation) : list string :=
  match op with
  | SearchCoins query currency limit =>
      [Service.search_key query currency limit; Service.coins_list_key currency 200 0]
  | _ => [key_of op]
  end.

(** Nothing has been written between [before] and [after]: every key holds
    the entry it held, except that a key of [keys] may have lost an entry
    that was expired at [now]. *)
Definition evicts (keys : list string) (now : Z) (before after : Cache.SimpleCache) : Prop :=
  Cache.ttl after = Cache.ttl before /\
  forall key,
    Cache._cache after !! key = Cache._cache before !! key \/
    (In key keys /\ Cache._cache after !! key = None /\
     exists e, Cache._cache before !! key = Some e /\ Cache.expired before now e = true).

End Spec.

(** ** The requests of the operations *)

Module Requests.

Import Upstream Proc Spec.

(** The request an operation sends when it asks the provider; a search asks
    for the listing of 200 entries. *)
Definition request_of (op : operation) : Request :=
  match op with
  | SingleCoin symbol currency =>
      {| endpoint := "coins/single";
         data := PyDict [("currency", PyStr currency); ("code", PyStr symbol);
                         ("meta", PyBool true)] |}
  | CoinsList currency limit offset => listing_request currency limit offset
  | SearchCoins query currency limit => listing_request currency 200 0
  | MarketOverview currency =>
      {| endpoint := "overview"; data := PyDict [("currency", PyStr currency)] |}
  end.

(** The operations that hand the provider's payload over as it is: all but
    the search. *)
Definition direct (op : operation) : bool :=
  match op with
  | SearchCoins _ _ _ => false
  | _ => true
  end.

(** The world once the provider has answered [req]. *)
Definition answered (w : World) (req : Request) : World :=
  {| cache := cache w;
     clock := clock w + elapsed (provider w (sent w) req);
     provider := provider w;
     sent := sent w ++ [req] |}.

(** A symbol as [validate_crypto_symbol] returns it: 1 to 10 characters,
    each an uppercase letter or a digit. *)
Definition well_formed_symbol (symbol : string) : Prop :=
  forallb_string Validators.is_AZ09 symbol = true /\
  (1 <= String.length symbol <= 10)%nat.

(** The exception with which an operation lets an exception of its request
    out: the [except] clause of [get_single_coin] replaces a domain error
    whose message mentions "not found"; the other operations have none. *)
Definition surfaced (op : operation) (e : exn) : exn :=
  match op, e with
  | SingleCoin symbol _, LiveCoinWatchError msg =>
      if str_in "not found" (lower msg)
      then LiveCoinWatchError ("Cryptocurrency '" +:+ symbol +:+ "' not found")
      else e
  | _, _ => e
  end.

(** A string without the separator of the cache keys. *)
Definition underscore_free (s : string) : Prop :=
  forallb_string (fun c => negb (Ascii.eqb c "_"%char)) s = true.

(** The parameters of an operation can be read back from its key: where a
    text parameter is followed by the currency, the currency has no
    underscore. *)
Definition separable (op : operation) : Prop :=
  match op with
  | SingleCoin _ currency => underscore_free currency
  | SearchCoins _ currency _ => underscore_free currency
  | CoinsList _ _ _ | MarketOverview _ => True
  end.

(** An exception raised by the code below the [except] clauses of the
    routes: anything but an [HTTPException]. *)
Definition internal (e : exn) : Prop :=
  match e with
  | HTTPException _ _ => False
  | _ => True
  end.

(** The status codes with which the application answers. *)
Definition statuses : list Z := [200; 400; 401; 404; 422; 429; 500; 502].

(** The value of a field of a JSON object, or the default the code gives. *)
Definition field (d : list (string * pyval)) (key : string) (default : pyval) : pyval :=
  match assoc key d with
  | Some v => v
  | None => default
  end.

(** An item of a list response is the projection of a listing entry: the
    code as symbol, the name, the rate as price, the day-over-day ratio as
    percent change, the rank, each validated for its field. *)
Definition projects `{Library} (item : pyval) (crypto_item : Models.CryptocurrencyListItem.t)
  : Prop :=
  exists d change,
    item = PyDict d /\
    as_str (field d "code" (PyStr "")) = Some (Models.CryptocurrencyListItem.symbol crypto_item) /\
    as_str (field d "name" (PyStr "")) = Some (Models.CryptocurrencyListItem.name crypto_item) /\
    as_float (field d "rate" (PyFloat 0.0))
      = Some (Models.CryptocurrencyListItem.price crypto_item) /\
    Main.percent_change item = Ok change /\
    Models.CryptocurrencyListItem.percent_change_24h crypto_item = change /\
    as_opt_int (field d "rank" PyNone) = Some (Models.CryptocurrencyListItem.rank crypto_item).

End Requests.

(** * Properties *)

(** ** The cache *)

Module CacheFacts.

Import Cache.

Lemma get_absent now self key :
  _cache self !! key = None -> get now self key = (None, self).
Proof. intros Hk. unfold get. now rewrite Hk. Qed.

Lemma get_live now self key entry :
  _cache self !! key = Some entry -> now - timestamp entry <= ttl self ->
  get now self key = (Some (value entry), self).
Proof.
  intros Hk Hle. unfold get, expired. rewrite Hk.
  destruct (Z.gtb_spec (now - timestamp entry) (ttl self)) as [Hgt | _]; [lia | reflexivity].
Qed.

Lemma get_expired now self key entry :
  _cache self !! key = Some entry -> ~ now - timestamp entry <= ttl self ->
  get now self key = (None, {| ttl := ttl self; _cache := delete key (_cache self) |}).
Proof.
  intros Hk Hgt. unfold get, expired. rewrite Hk.
  destruct (Z.gtb_spec (now - timestamp entry) (ttl self)) as [_ | Hle]; [reflexivity | lia].
Qed.

Lemma expired_iff self now entry :
  expired self now entry = true <-> ttl self < now - timestamp entry.
Proof. unfold expired. rewrite Z.gtb_ltb, Z.ltb_lt. reflexivity. Qed.

(** C1: [get] returns the stored value of a present entry with
    [now - inserted_at <= ttl]; for a present but expired entry it deletes
    the entry and returns absent; for a key with no entry it returns absent
    and leaves the cache as it was. *)
Theorem get_spec (now : Z) (self : SimpleCache) (key : string) :
  (forall entry, _cache self !! key = Some entry ->
     now - timestamp entry <= ttl self ->
     get now self key = (Some (value entry), self)) /\
  (forall entry, _cache self !! key = Some entry ->
     ~ now - timestamp entry <= ttl self ->
     fst (get now self key) = None /\
     _cache (snd (get now self key)) = delete key (_cache self) /\
     _cache (snd (get now self key)) !! key = None /\
     ttl (snd (get now self key)) = ttl self) /\
  (_cache self !! key = None -> get now self key = (None, self)).
Proof.
  split; [| split].
  - intros entry Hk Hle. now apply get_live.
  - intros entry Hk Hgt. rewrite (get_expired _ _ _ _ Hk Hgt). cbn.
    repeat split. apply lookup_delete_eq.
  - apply get_absent.
Qed.

(** C1 at concrete caches: an entry stored at tick 100 with [ttl = 300] is
    returned at tick 400, deleted at tick 401, and a key never stored is
    absent. *)
Lemma get_spec_witness :
  let c := set 100 (init None) "k" (PyInt 7) in
  get 400 c "k" = (Some (PyInt 7), c) /\
  (fst (get 401 c "k") = None /\ _cache (snd (get 401 c "k")) !! "k" = None) /\
  get 400 c "other" = (None, c).
Proof.
  intros c.
  destruct (get_spec 400 c "k") as [Hlive _].
  destruct (get_spec 401 c "k") as [_ [Hdead _]].
  destruct (get_spec 400 c "other") as [_ [_ Hmiss]].
  split; [| split].
  - apply (Hlive {| value := PyInt 7; timestamp := 100 |}); [reflexivity | vm_compute; discriminate].
  - destruct (Hdead {| value := PyInt 7; timestamp := 100 |}) as [H1 [_ [H3 _]]];
      [reflexivity | vm_compute; intros Hle; apply Hle; reflexivity | ].
    split; assumption.
  - apply Hmiss. reflexivity.
Defined.

(** C7: [set] stores the value under the key with the current timestamp,
    whatever the key held before, and touches no other key; the new entry
    is read back exactly while [later - now <= ttl], so a [set] on a key that
    already had an entry restarts that entry's expiry clock at the new
    insertion time. *)
Theorem set_spec (now : Z) (self : SimpleCache) (key : string) (v : pyval) :
  _cache (set now self key v) !! key = Some {| value := v; timestamp := now |} /\
  (forall k, k <> key -> _cache (set now self key v) !! k = _cache self !! k) /\
  ttl (set now self key v) = ttl self /\
  (forall later, later - now <= ttl self ->
     get later (set now self key v) key = (Some v, set now self key v)) /\
  (forall later, ~ later - now <= ttl self ->
     fst (get later (set now self key v) key) = None).
Proof.
  assert (Hk : _cache (set now self key v) !! key = Some {| value := v; timestamp := now |})
    by apply lookup_insert_eq.
  repeat split.
  - exact Hk.
  - intros k Hne. cbn. now apply lookup_insert_ne.
  - intros later Hle. now apply (get_live _ _ _ _ Hk).
  - intros later Hgt. now rewrite (get_expired _ _ _ _ Hk Hgt).
Qed.

(** C7 at a concrete cache: the entry stored at tick 0 would be expired at
    tick 500; overwritten at tick 400 it is read back at tick 500, with the
    new value. *)
Lemma set_spec_witness :
  let c := set 0 (init None) "k" (PyInt 1) in
  fst (get 500 c "k") = None /\
  get 500 (set 400 c "k" (PyInt 2)) "k" = (Some (PyInt 2), set 400 c "k" (PyInt 2)) /\
  _cache (set 400 c "k" (PyInt 2)) !! "j" = _cache c !! "j".
Proof.
  intros c.
  destruct (set_spec 0 (init None) "k" (PyInt 1)) as [_ [_ [_ [_ Hold]]]].
  destruct (set_spec 400 c "k" (PyInt 2)) as [_ [Hother [_ [Hnew _]]]].
  split; [| split].
  - apply Hold. vm_compute. intros Hle. apply Hle. reflexivity.
  - apply Hnew. vm_compute. discriminate.
  - apply Hother. discriminate.
Defined.

End CacheFacts.

(** ** The gateway: what an operation does to the cache *)

Module GatewayFacts.

Import Upstream Proc Service Spec.

Lemma evicts_refl keys now c : evicts keys now c c.
Proof. split; [reflexivity | intros key; now left]. Qed.

Lemma evicts_trans keys now a b c :
  evicts keys now a b -> evicts keys now b c -> evicts keys now a c.
Proof.
  intros [Hab Hkab] [Hbc Hkbc]. split; [congruence |].
  intros key. destruct (Hkbc key) as [Heq | [Hin [Hnone [e [He Hexp]]]]].
  - rewrite Heq. apply Hkab.
  - right. split; [exact Hin |]. split; [exact Hnone |].
    destruct (Hkab key) as [Heq | [_ [Hnone' _]]]; [| congruence].
    exists e. split; [congruence |].
    unfold Cache.expired in *. now rewrite <- Hab.
Qed.

Lemma evicts_mono keys keys' now a b :
  (forall key, In key keys -> In key keys') -> evicts keys now a b -> evicts keys' now a b.
Proof.
  intros Hincl [Httl Hkeys]. split; [exact Httl |]. intros key.
  destruct (Hkeys key) as [Heq | [Hin Hgone]]; [now left | right].
  split; [now apply Hincl | exact Hgone].
Qed.

(** A read touches its own key only, and only to drop an expired entry. *)
Lemma get_evicts now self key :
  evicts [key] now self (snd (Cache.get now self key)).
Proof.
  unfold Cache.get.
  destruct (Cache._cache self !! key) as [e |] eqn:Hk; [| apply evicts_refl].
  destruct (Cache.expired self now e) eqn:Hexp; [| apply evicts_refl].
  split; [reflexivity |]. intros k. cbn.
  destruct (decide (k = key)) as [-> | Hne].
  - right. split; [now left |]. split; [apply lookup_delete_eq | now exists e].
  - left. now apply lookup_delete_ne.
Qed.

Lemma evicts_only_evicts keys now before after :
  evicts keys now before after -> only_evicts now before after.
Proof.
  intros [Httl Hkeys]. split; [exact Httl |]. intros key.
  destruct (Hkeys key) as [Heq | [_ Hgone]]; [now left | now right].
Qed.

(** What is there afterwards was there before. *)
Lemma evicts_writes_nothing keys now before after key e :
  evicts keys now before after ->
  Cache._cache after !! key = Some e -> Cache._cache before !! key = Some e.
Proof.
  intros [_ Hkeys] Hafter. destruct (Hkeys key) as [Heq | [_ [Hnone _]]]; congruence.
Qed.

(** With no expired entry under the keys, nothing has changed at all. *)
Lemma evicts_nothing keys now before after :
  evicts keys now before after ->
  (forall key e, In key keys -> Cache._cache before !! key = Some e ->
                 Cache.expired before now e = false) ->
  after = before.
Proof.
  intros [Httl Hkeys] Hlive.
  destruct before as [ttl0 m0], after as [ttl1 m1]. cbn in *. subst ttl1. f_equal.
  apply map_eq. intros key.
  destruct (Hkeys key) as [Heq | [Hin [_ [e [He Hexp]]]]]; [exact Heq |].
  specialize (Hlive key e Hin He). congruence.
Qed.

Lemma only_evicts_same_reads now before after :
  only_evicts now before after -> same_reads now before after.
Proof.
  intros [Httl Hkeys] key later Hlater. unfold Cache.visible, Cache.get.
  destruct (Hkeys key) as [Heq | [Hnone [e [He Hexp]]]].
  - rewrite Heq. destruct (Cache._cache before !! key) as [e |]; [| reflexivity].
    unfold Cache.expired. rewrite Httl.
    now destruct (later - Cache.timestamp e >? Cache.ttl before).
  - rewrite Hnone, He. cbn.
    apply CacheFacts.expired_iff in Hexp.
    assert (Hexp' : Cache.expired before later e = true)
      by (apply CacheFacts.expired_iff; lia).
    now rewrite Hexp'.
Qed.

Section WithLibrary.

Context `{Library}.

(** The cache check that opens every operation: it returns what
    [Cache.get] returns and changes nothing but the cache. *)
Lemma cache_get_run key w :
  cache_get key w =
  (Ok (fst (Cache.get (clock w) (cache w) key)),
   {| cache := snd (Cache.get (clock w) (cache w) key); clock := clock w;
      provider := provider w; sent := sent w |}).
Proof. unfold cache_get. now destruct (Cache.get (clock w) (cache w) key). Qed.

(** A request to the provider does not touch the cache. *)
Lemma make_request_run endpoint data w :
  _make_request endpoint data w =
  (classify (outcome (provider w (sent w) {| endpoint := endpoint; data := data |})),
   {| cache := cache w;
      clock := clock w + elapsed (provider w (sent w) {| endpoint := endpoint; data := data |});
      provider := provider w;
      sent := sent w ++ [{| endpoint := endpoint; data := data |}] |}).
Proof. reflexivity. Qed.

(** The loop of [search_coins] and the iteration of the listing raise no
    [LiveCoinWatchError]: an entry that is no object or a field that is no
    string is an [AttributeError], a listing that is no sequence a
    [TypeError]. *)
Lemma lower_of_raises v e : lower_of v = Raise e -> e = AttributeError.
Proof. destruct v; cbn; congruence. Qed.

Lemma coin_matches_raises query_lower coin e :
  coin_matches query_lower coin = Raise e -> e = AttributeError.
Proof.
  unfold coin_matches. destruct coin; cbn; try congruence.
  destruct (lower_of _) as [name_lower |] eqn:Hname; cbn.
  - destruct (str_in query_lower name_lower); [now intros |].
    match goal with
    | |- context [rbind (lower_of ?code)] =>
        destruct (lower_of code) as [code_lower |] eqn:Hcode; cbn; [now intros |]
    end.
    intros [= <-]. now apply lower_of_raises in Hcode.
  - intros [= <-]. now apply lower_of_raises in Hname.
Qed.

Lemma search_loop_raises query_lower limit coins matching_coins e :
  search_loop query_lower limit coins matching_coins = Raise e -> e = AttributeError.
Proof.
  revert matching_coins. induction coins as [| coin coins IH]; intros acc; cbn; [now intros |].
  destruct (coin_matches query_lower coin) as [m |] eqn:Hm; cbn.
  - destruct m; [| apply IH].
    destruct (Z.of_nat (length (acc ++ [coin])) >=? limit); [now intros | apply IH].
  - intros [= <-]. now apply coin_matches_raises in Hm.
Qed.

Lemma iter_raises v e : iter v = Raise e -> e = TypeError.
Proof. destruct v; cbn; congruence. Qed.

(** *** Failures write nothing *)

Lemma get_single_coin_miss_raises symbol currency w e w' :
  get_single_coin_miss symbol currency w = (Raise e, w') -> cache w' = cache w.
Proof.
  unfold get_single_coin_miss, try_except, bind, cache_set, ret, lift, raise.
  rewrite make_request_run.
  destruct (classify _) as [result | e0]; cbn; [now intros |].
  destruct e0; try (intros [= <- <-]; reflexivity).
  destruct (str_in "not found" (lower msg)); intros [= <- <-]; reflexivity.
Qed.

Lemma get_coins_list_miss_raises currency limit offset w e w' :
  get_coins_list_miss currency limit offset w = (Raise e, w') -> cache w' = cache w.
Proof.
  unfold get_coins_list_miss, bind, cache_set, ret, lift.
  rewrite make_request_run.
  destruct (classify _) as [result | e0]; cbn; [now intros |].
  intros [= <- <-]; reflexivity.
Qed.

Lemma get_market_overview_miss_raises currency w e w' :
  get_market_overview_miss currency w = (Raise e, w') -> cache w' = cache w.
Proof.
  unfold get_market_overview_miss, bind, cache_set, ret, lift.
  rewrite make_request_run.
  destruct (classify _) as [result | e0]; cbn; [now intros |].
  intros [= <- <-]; reflexivity.
Qed.

Lemma get_single_coin_raises symbol currency w e w' :
  get_single_coin symbol currency w = (Raise e, w') ->
  evicts [coin_key symbol currency] (clock w) (cache w) (cache w').
Proof.
  unfold get_single_coin, bind. rewrite cache_get_run.
  destruct (if_truthy _); [now intros |].
  intros Hm. apply get_single_coin_miss_raises in Hm. rewrite Hm. cbn.
  apply get_evicts.
Qed.

Lemma get_coins_list_raises currency limit offset w e w' :
  get_coins_list currency limit offset w = (Raise e, w') ->
  evicts [coins_list_key currency limit offset] (clock w) (cache w) (cache w').
Proof.
  unfold get_coins_list, bind. rewrite cache_get_run.
  destruct (if_truthy _); [now intros |].
  intros Hm. apply get_coins_list_miss_raises in Hm. rewrite Hm. cbn.
  apply get_evicts.
Qed.

Lemma get_market_overview_raises currency w e w' :
  get_market_overview currency w = (Raise e, w') ->
  evicts [market_overview_key currency] (clock w) (cache w) (cache w').
Proof.
  unfold get_market_overview, bind. rewrite cache_get_run.
  destruct (if_truthy _); [now intros |].
  intros Hm. apply get_market_overview_miss_raises in Hm. rewrite Hm. cbn.
  apply get_evicts.
Qed.

(** In [search_coins] the listing may have been fetched and cached before
    the loop raises; a failure of the upstream call is another matter: it
    comes out of [get_coins_list], before anything is stored. *)
Lemma search_coins_miss_raises query currency limit w msg w' :
  search_coins_miss query currency limit w = (Raise (LiveCoinWatchError msg), w') ->
  evicts [coins_list_key currency 200 0] (clock w) (cache w) (cache w').
Proof.
  unfold search_coins_miss, bind, lift, cache_set, ret.
  destruct (get_coins_list currency 200 0 w) as [[coins_data | e] w1] eqn:Hlist.
  - destruct (iter coins_data) as [coins | e] eqn:Hiter.
    + destruct (search_loop (lower query) limit coins []) as [found | e] eqn:Hloop;
        [now intros |].
      apply search_loop_raises in Hloop. subst e. now intros.
    + apply iter_raises in Hiter. subst e. now intros.
  - intros [= -> <-]. now apply get_coins_list_raises in Hlist.
Qed.

Lemma search_coins_raises query currency limit w msg w' :
  search_coins query currency limit w = (Raise (LiveCoinWatchError msg), w') ->
  evicts [search_key query currency limit; coins_list_key currency 200 0]
    (clock w) (cache w) (cache w').
Proof.
  unfold search_coins, bind. rewrite cache_get_run.
  destruct (if_truthy _); [now intros |].
  intros Hm. apply search_coins_miss_raises in Hm. cbn in Hm.
  eapply evicts_trans.
  - eapply evicts_mono; [| apply get_evicts]. intros key [<- | []]. now left.
  - eapply evicts_mono; [| exact Hm]. intros key [<- | []]. right. now left.
Qed.

(** C6: when an operation fails with a domain error, nothing has been
    written to the cache: every entry it holds afterwards it held before,
    unchanged; every key holds the entry it held, except that a key the
    operation reads may have lost an entry that was already expired (the
    read that opens the operation drops it); so every key reads the same
    after the failed call as before it, now and at any later time, which is
    what a subsequent call sees; and when no key the operation reads holds
    an expired entry, the cache is the very same. *)
Theorem failure_writes_nothing (op : operation) (w w' : World) (msg : string) :
  run op w = (Raise (LiveCoinWatchError msg), w') ->
  (forall key e,
     Cache._cache (cache w') !! key = Some e -> Cache._cache (cache w) !! key = Some e) /\
  evicts (keys_read op) (clock w) (cache w) (cache w') /\
  same_reads (clock w) (cache w) (cache w') /\
  ((forall key e, In key (keys_read op) -> Cache._cache (cache w) !! key = Some e ->
                  Cache.expired (cache w) (clock w) e = false) ->
   cache w' = cache w).
Proof.
  intros Hrun.
  assert (Hev : evicts (keys_read op) (clock w) (cache w) (cache w')).
  { destruct op; cbn in Hrun.
    - now apply get_single_coin_raises in Hrun.
    - now apply get_coins_list_raises in Hrun.
    - now apply search_coins_raises in Hrun.
    - now apply get_market_overview_raises in Hrun. }
  split; [| split; [exact Hev | split]].
  - intros key e. now apply (evicts_writes_nothing _ _ _ _ _ _ Hev).
  - now apply only_evicts_same_reads, (evicts_only_evicts (keys_read op)).
  - now apply evicts_nothing.
Qed.

(** *** Hits and misses *)

Lemma get_Some now self key v :
  fst (Cache.get now self key) = Some v ->
  snd (Cache.get now self key) = self /\
  exists e, Cache._cache self !! key = Some e /\
            Cache.expired self now e = false /\ Cache.value e = v.
Proof.
  unfold Cache.get. destruct (Cache._cache self !! key) as [e |]; [| now intros].
  destruct (Cache.expired self now e) eqn:Hexp; cbn; [now intros |].
  intros [= <-]. split; [reflexivity | now exists e].
Qed.

Lemma get_of_live w key v :
  live w key v -> Cache.get (clock w) (cache w) key = (Some v, cache w).
Proof.
  intros [e [Hk [Hexp <-]]]. unfold Cache.get. now rewrite Hk, Hexp.
Qed.

Lemma world_eta (w : World) :
  {| cache := cache w; clock := clock w; provider := provider w; sent := sent w |} = w.
Proof. now destruct w. Qed.

(** Every operation opens with the same check. *)
Lemma run_check op w :
  run op w =
  match if_truthy (fst (Cache.get (clock w) (cache w) (key_of op))) with
  | Some v =>
      (Ok v, {| cache := snd (Cache.get (clock w) (cache w) (key_of op)); clock := clock w;
                provider := provider w; sent := sent w |})
  | None =>
      miss op {| cache := snd (Cache.get (clock w) (cache w) (key_of op)); clock := clock w;
                 provider := provider w; sent := sent w |}
  end.
Proof.
  destruct op; cbn;
    unfold get_single_coin, get_coins_list, search_coins, get_market_overview, bind;
    rewrite cache_get_run; now destruct (if_truthy _).
Qed.

(** A live truthy entry is a hit: the operation returns it and changes
    nothing, in particular it sends nothing. *)
Lemma hit_returns op w v :
  live w (key_of op) v -> truthy v = true -> run op w = (Ok v, w).
Proof.
  intros Hlive Htrue. rewrite run_check, (get_of_live _ _ _ Hlive). cbn.
  now rewrite Htrue, world_eta.
Qed.

(** A live falsy entry is a miss: the operation goes on as if the key held
    nothing. *)
Lemma falsy_misses op w v :
  live w (key_of op) v -> truthy v = false -> run op w = miss op w.
Proof.
  intros Hlive Hfalse. rewrite run_check, (get_of_live _ _ _ Hlive). cbn.
  now rewrite Hfalse, world_eta.
Qed.

(** What [get_coins_list] sends: nothing on a hit, its one request on a miss. *)
Lemma get_coins_list_sent currency limit offset w :
  sent (snd (get_coins_list currency limit offset w)) =
  match if_truthy (Cache.visible (clock w) (cache w)
                     (coins_list_key currency limit offset)) with
  | Some _ => sent w
  | None => sent w ++ [listing_request currency limit offset]
  end.
Proof.
  unfold get_coins_list, bind, Cache.visible. rewrite cache_get_run.
  destruct (if_truthy _); [reflexivity |].
  unfold get_coins_list_miss, bind, cache_set, ret, lift. rewrite make_request_run.
  now destruct (classify _).
Qed.

(** The filtering of [search_coins] sends nothing of its own. *)
Lemma search_coins_miss_sent query currency limit w :
  sent (snd (search_coins_miss query currency limit w)) =
  sent (snd (get_coins_list currency 200 0 w)).
Proof.
  unfold search_coins_miss, bind, lift, cache_set, ret.
  destruct (get_coins_list currency 200 0 w) as [[coins_data | e] w1]; [| reflexivity].
  destruct (iter coins_data) as [coins | e]; [| reflexivity].
  now destruct (search_loop (lower query) limit coins []).
Qed.

(** C9, as amended: a cached value that is falsy is treated as a miss by
    every operation; a search that matched nothing therefore never hits its
    cached empty list, and every later identical search within the TTL runs
    the listing lookup [get_coins_list(currency, 200)] and the filter again.
    That lookup has a cache of its own: the upstream listing call is sent
    again exactly when the listing key holds no live truthy value, and is
    not sent when it does. *)
Theorem falsy_cached_value_is_a_miss (op : operation) (w : World) (v : pyval) :
  live w (key_of op) v -> truthy v = false ->
  run op w = miss op w /\
  forall query currency limit, op = SearchCoins query currency limit ->
    (forall l, live w (coins_list_key currency 200 0) l -> truthy l = true ->
       sent (snd (run op w)) = sent w) /\
    (if_truthy (Cache.visible (clock w) (cache w) (coins_list_key currency 200 0)) = None ->
       sent (snd (run op w)) = sent w ++ [listing_request currency 200 0]).
Proof.
  intros Hlive Hfalse.
  pose proof (falsy_misses op w v Hlive Hfalse) as Hmiss.
  split; [exact Hmiss |].
  intros query currency limit ->. rewrite Hmiss. cbn.
  rewrite search_coins_miss_sent, get_coins_list_sent. split.
  - intros l Hl Htrue. unfold Cache.visible.
    rewrite (get_of_live _ _ _ Hl). cbn. now rewrite Htrue.
  - intros Hnone. now rewrite Hnone.
Qed.

(** *** Search *)

Lemma text_field_lower d key :
  text_field d key ->
  lower_of (match assoc key d with Some v => v | None => PyStr "" end)
  = Ok (lower (text_of (PyDict d) key)).
Proof. intros [Hnone | [s Hs]]; cbn; [now rewrite Hnone | now rewrite Hs]. Qed.

(** On an entry of the listing the test of the loop is the match of the
    specification. *)
Lemma coin_matches_entry query coin :
  entry coin -> coin_matches (lower query) coin = Ok (entry_matches query coin).
Proof.
  intros [d [-> [Hname Hcode]]]. unfold coin_matches, entry_matches. cbn [Py.get rbind].
  rewrite (text_field_lower _ _ Hname). cbn [rbind].
  destruct (str_in (lower query) (lower (text_of (PyDict d) "name"))); [reflexivity |].
  rewrite (text_field_lower _ _ Hcode). reflexivity.
Qed.

(** The loop, started with [matching_coins] shorter than the limit, appends
    the matches in listing order until the limit is reached. *)
Lemma search_loop_spec query limit coins matching_coins :
  Forall entry coins ->
  Z.of_nat (length matching_coins) < limit ->
  search_loop (lower query) limit coins matching_coins =
  Ok (matching_coins ++
      take (Z.to_nat limit - length matching_coins) (List.filter (entry_matches query) coins)).
Proof.
  intros Hall. revert matching_coins.
  induction Hall as [| coin coins Hcoin _ IH]; intros acc Hlen; cbn [search_loop List.filter].
  - now rewrite take_nil, app_nil_r.
  - rewrite (coin_matches_entry _ _ Hcoin). cbn [rbind].
    destruct (entry_matches query coin); [| now apply IH].
    assert (Hacc : length (acc ++ [coin]) = S (length acc))
      by (rewrite length_app; cbn; lia).
    destruct (Z.geb_spec (Z.of_nat (length (acc ++ [coin]))) limit) as [Hfull | Hroom].
    + replace (Z.to_nat limit - length acc)%nat with 1%nat by lia. reflexivity.
    + rewrite IH by lia. rewrite Hacc.
      replace (Z.to_nat limit - length acc)%nat with (S (Z.to_nat limit - S (length acc)))
        by lia.
      cbn [take]. now rewrite <- app_assoc.
Qed.

(** The key of a search is not the key of a listing. *)
Lemma search_key_not_coins_list_key query currency limit currency' limit' offset' :
  search_key query currency limit <> coins_list_key currency' limit' offset'.
Proof. unfold search_key, coins_list_key. cbv beta iota delta [String.append]. discriminate. Qed.

(** A read of one key does not change what another key reads. *)
Lemma get_after_get now self key key' :
  key <> key' ->
  fst (Cache.get now (snd (Cache.get now self key)) key') = fst (Cache.get now self key').
Proof.
  intros Hne. unfold Cache.get at 2.
  destruct (Cache._cache self !! key) as [e |]; [| reflexivity].
  destruct (Cache.expired self now e); [| reflexivity].
  unfold Cache.get, Cache.expired. cbn. rewrite lookup_delete_ne by exact Hne.
  destruct (Cache._cache self !! key') as [e' |]; [| reflexivity].
  now destruct (now - Cache.timestamp e' >? Cache.ttl self).
Qed.

(** What [get_coins_list] returns and sends depends on the cache only
    through what its own key reads. *)
Lemma get_coins_list_frame currency limit offset w w0 :
  clock w0 = clock w -> provider w0 = provider w -> sent w0 = sent w ->
  fst (Cache.get (clock w) (cache w0) (coins_list_key currency limit offset))
    = fst (Cache.get (clock w) (cache w) (coins_list_key currency limit offset)) ->
  fst (get_coins_list currency limit offset w0) = fst (get_coins_list currency limit offset w) /\
  sent (snd (get_coins_list currency limit offset w0))
    = sent (snd (get_coins_list currency limit offset w)).
Proof.
  intros Hclock Hprovider Hsent Hread.
  unfold get_coins_list, bind. rewrite !cache_get_run, Hclock, Hread.
  destruct (if_truthy _); cbn [fst snd sent]; [now split |].
  unfold get_coins_list_miss, bind, cache_set, ret, lift. rewrite !make_request_run.
  cbn [sent provider]. rewrite Hprovider, Hsent.
  now destruct (classify _).
Qed.

Lemma search_coins_run query currency limit w :
  if_truthy (Cache.visible (clock w) (cache w) (search_key query currency limit)) = None ->
  search_coins query currency limit w =
  search_coins_miss query currency limit
    (snd (cache_get (search_key query currency limit) w)).
Proof.
  intros Hmiss. unfold search_coins, bind. rewrite cache_get_run.
  unfold Cache.visible in Hmiss. now rewrite Hmiss.
Qed.

(** The loop looks no further than the match that fills the limit: on a
    listing that splits into the entries [seen] and a [rest] that is empty
    or comes after that match, it returns the first matches whatever [rest]
    holds. *)
Lemma search_loop_prefix query limit seen rest matching_coins :
  Forall entry seen ->
  Z.of_nat (length matching_coins) < limit ->
  rest = [] \/
  limit <= Z.of_nat (length matching_coins
                     + length (List.filter (entry_matches query) seen)) ->
  search_loop (lower query) limit (seen ++ rest) matching_coins =
  Ok (matching_coins ++
      take (Z.to_nat limit - length matching_coins)
        (List.filter (entry_matches query) (seen ++ rest))).
Proof.
  intros Hall. revert matching_coins.
  induction Hall as [| coin coins Hcoin _ IH]; intros acc Hlen Hrest.
  - destruct Hrest as [-> | Hfull]; [| cbn in Hfull; lia].
    cbn. now rewrite take_nil, app_nil_r.
  - change ((coin :: coins) ++ rest) with (coin :: (coins ++ rest)).
    cbn [search_loop List.filter]. cbn [List.filter] in Hrest.
    rewrite (coin_matches_entry _ _ Hcoin). cbn [rbind].
    destruct (entry_matches query coin); [| now apply IH].
    assert (Hacc : length (acc ++ [coin]) = S (length acc))
      by (rewrite length_app; cbn; lia).
    destruct (Z.geb_spec (Z.of_nat (length (acc ++ [coin]))) limit) as [Hfull | Hroom].
    + replace (Z.to_nat limit - length acc)%nat with 1%nat by lia. reflexivity.
    + rewrite IH; [| lia | destruct Hrest as [-> | Hrest]; [now left | right; cbn in Hrest; lia]].
      rewrite Hacc.
      replace (Z.to_nat limit - length acc)%nat with (S (Z.to_nat limit - S (length acc)))
        by lia.
      cbn [take]. now rewrite <- app_assoc.
Qed.

(** C4, as amended: for a limit of at least 1, a search that finds no hit
    under its own key takes the listing from
    [get_coins_list(currency, limit=200)], so it sends at most the listing
    request for 200 entries from offset 0, and it returns the first [limit]
    entries, in listing order, whose lowercased name or code contains the
    lowercased query: no more than [limit], and none past the [limit]-th
    match.  The loop stops at that match: the listing is [seen ++ rest],
    where [seen] are entries and [rest] is empty or comes after the
    [limit]-th match, and what [rest] holds, an entry or not, does not
    matter. *)
Theorem search_returns_first_matches
    (query currency : string) (limit : Z) (w : World) (seen rest : list pyval) :
  1 <= limit ->
  if_truthy (Cache.visible (clock w) (cache w) (search_key query currency limit)) = None ->
  fst (get_coins_list currency 200 0 w) = Ok (PyList (seen ++ rest)) ->
  Forall entry seen ->
  rest = [] \/ (Z.to_nat limit <= length (List.filter (entry_matches query) seen))%nat ->
  fst (search_coins query currency limit w)
    = Ok (PyList (take (Z.to_nat limit) (List.filter (entry_matches query) (seen ++ rest)))) /\
  take (Z.to_nat limit) (List.filter (entry_matches query) (seen ++ rest))
    = take (Z.to_nat limit) (List.filter (entry_matches query) seen) /\
  (sent (snd (search_coins query currency limit w)) = sent w \/
   sent (snd (search_coins query currency limit w))
     = sent w ++ [listing_request currency 200 0]) /\
  (length (take (Z.to_nat limit) (List.filter (entry_matches query) (seen ++ rest)))
     <= Z.to_nat limit)%nat.
Proof.
  intros Hlimit Hmiss Hlist Hall Hrest.
  pose proof (search_coins_run query currency limit w Hmiss) as Hrun.
  destruct (get_coins_list_frame currency 200 0 w
              (snd (cache_get (search_key query currency limit) w)))
    as [Hfst Hsent]; try (rewrite cache_get_run; reflexivity).
  { rewrite cache_get_run. cbn [snd cache]. apply get_after_get.
    apply search_key_not_coins_list_key. }
  rewrite Hlist in Hfst.
  split; [| split; [| split]].
  - rewrite Hrun. unfold search_coins_miss, bind, lift, cache_set, ret.
    destruct (get_coins_list currency 200 0
                (snd (cache_get (search_key query currency limit) w))) as [r w1].
    cbn [fst] in Hfst. rewrite Hfst. cbn [iter].
    rewrite (search_loop_prefix query limit seen rest [] Hall);
      [| cbn; lia | destruct Hrest as [-> | Hrest]; [now left | right; cbn; lia]].
    cbn. now rewrite Nat.sub_0_r.
  - destruct Hrest as [-> | Hrest]; [now rewrite app_nil_r |].
    rewrite List.filter_app. now apply take_app_le.
  - rewrite Hrun, search_coins_miss_sent, Hsent, get_coins_list_sent.
    match goal with
    | |- context [if_truthy ?cached] => destruct (if_truthy cached); [now left | now right]
    end.
  - rewrite length_take. lia.
Qed.

(** *** Repeated calls *)

Lemma live_after_set w key v :
  0 <= Cache.ttl (cache w) ->
  live (snd (cache_set key v w)) key v.
Proof.
  intros Httl. exists {| Cache.value := v; Cache.timestamp := clock w |}. cbn.
  split; [apply lookup_insert_eq | split; [| reflexivity]].
  unfold Cache.expired. cbn. rewrite Z.sub_diag.
  destruct (Z.gtb_spec 0 (Cache.ttl (cache w))); [lia | reflexivity].
Qed.

Lemma get_ttl now self key : Cache.ttl (snd (Cache.get now self key)) = Cache.ttl self.
Proof.
  unfold Cache.get. destruct (Cache._cache self !! key) as [e |]; [| reflexivity].
  now destruct (Cache.expired self now e).
Qed.

Lemma get_coins_list_ttl currency limit offset w :
  Cache.ttl (cache (snd (get_coins_list currency limit offset w))) = Cache.ttl (cache w).
Proof.
  unfold get_coins_list, bind. rewrite cache_get_run.
  destruct (if_truthy _); [cbn; apply get_ttl |].
  unfold get_coins_list_miss, bind, cache_set, ret, lift. rewrite make_request_run.
  destruct (classify _); cbn; apply get_ttl.
Qed.

(** An operation that returns has its result under its key, live, provided
    the TTL is not negative. *)
Lemma miss_caches op w v w1 :
  0 <= Cache.ttl (cache w) ->
  miss op w = (Ok v, w1) -> live w1 (key_of op) v.
Proof.
  intros Httl. destruct op; unfold miss, key_of.
  - unfold get_single_coin_miss, try_except, bind, ret, lift, raise.
    rewrite make_request_run.
    destruct (classify _) as [result | e]; cbn.
    + intros [= <- <-]. now apply (live_after_set {| cache := cache w |}).
    + destruct e; try now intros.
      now destruct (str_in "not found" (lower msg)).
  - unfold get_coins_list_miss, bind, ret, lift. rewrite make_request_run.
    destruct (classify _) as [result | e]; cbn; [| now intros].
    intros [= <- <-]. now apply (live_after_set {| cache := cache w |}).
  - unfold search_coins_miss, bind, ret, lift.
    pose proof (get_coins_list_ttl currency 200 0 w) as Httl1.
    destruct (get_coins_list currency 200 0 w) as [[coins_data | e] w0]; [| now intros].
    destruct (iter coins_data) as [coins | e]; [| now intros].
    destruct (search_loop (lower query) limit coins []) as [found | e]; [| now intros].
    intros [= <- <-]. apply live_after_set. cbn in Httl1. lia.
  - unfold get_market_overview_miss, bind, ret, lift. rewrite make_request_run.
    destruct (classify _) as [result | e]; cbn; [| now intros].
    intros [= <- <-]. now apply (live_after_set {| cache := cache w |}).
Qed.

Lemma success_caches op w v w1 :
  0 <= Cache.ttl (cache w) ->
  run op w = (Ok v, w1) -> live w1 (key_of op) v.
Proof.
  intros Httl. rewrite run_check.
  destruct (if_truthy (fst (Cache.get (clock w) (cache w) (key_of op)))) as [v' |] eqn:Hhit.
  - intros [= <- <-]. unfold if_truthy in Hhit.
    destruct (fst (Cache.get (clock w) (cache w) (key_of op))) as [v0 |] eqn:Hget;
      [| discriminate].
    destruct (truthy v0); [| discriminate]. injection Hhit as <-.
    apply get_Some in Hget. destruct Hget as [Hsame Hlive].
    unfold live. cbn. now rewrite Hsame.
  - apply miss_caches. cbn. rewrite get_ttl. exact Httl.
Qed.

(** What holds of the idempotence of the cache: an operation that returned
    a truthy value returns the same value, and sends nothing, when it is
    called again with the same parameters [d] ticks later, as long as the
    entry under its key has not expired by then. *)
Lemma repeat_within_ttl_hits op w v w1 d :
  0 <= Cache.ttl (cache w) ->
  run op w = (Ok v, w1) -> truthy v = true ->
  (forall e, Cache._cache (cache w1) !! key_of op = Some e ->
             clock w1 + d - Cache.timestamp e <= Cache.ttl (cache w1)) ->
  run op (snd (sleep d w1)) = (Ok v, snd (sleep d w1)) /\
  sent (snd (sleep d w1)) = sent w1.
Proof.
  intros Httl Hrun Htrue Hwindow. split; [| reflexivity].
  apply hit_returns; [| exact Htrue].
  destruct (success_caches _ _ _ _ Httl Hrun) as [e [Hk [_ Hv]]].
  exists e. cbn. split; [exact Hk | split; [| exact Hv]].
  specialize (Hwindow e Hk). unfold Cache.expired.
  destruct (Z.gtb_spec (clock w1 + d - Cache.timestamp e) (Cache.ttl (cache w1)));
    [lia | reflexivity].
Qed.

End WithLibrary.

Import Run.

(** C9 at a concrete world: after a search for "zzz" in a listing that
    holds only Bitcoin, the search key holds a live empty list and the
    listing key a live listing; the same search again is a miss that sends
    nothing. *)
Lemma falsy_cached_value_is_a_miss_witness :
  let op := SearchCoins "zzz" "USD" 10 in
  let w1 := snd (run op (boot (always (Response 200 (Json (PyList [btc]))) 1) 1000)) in
  run op w1 = miss op w1 /\ sent (snd (run op w1)) = sent w1.
Proof.
  intros op w1.
  assert (Hsearch : live w1 (key_of op) (PyList [])).
  { exists {| Cache.value := PyList []; Cache.timestamp := 1001 |}.
    repeat split; vm_compute; reflexivity. }
  assert (Hlist : live w1 (coins_list_key "USD" 200 0) (PyList [btc])).
  { exists {| Cache.value := PyList [btc]; Cache.timestamp := 1001 |}.
    repeat split; vm_compute; reflexivity. }
  destruct (falsy_cached_value_is_a_miss op w1 (PyList []) Hsearch eq_refl) as [Hmiss Hsent].
  split; [exact Hmiss |].
  destruct (Hsent "zzz" "USD" 10 eq_refl) as [Hhit _].
  exact (Hhit (PyList [btc]) Hlist eq_refl).
Defined.

(** C9 as stated fails: the second of two identical searches that match
    nothing, 1 tick apart, does not send the listing request again. *)
Lemma empty_search_again_sends_nothing :
  let op := SearchCoins "zzz" "USD" 10 in
  let w0 := boot (always (Response 200 (Json (PyList [btc]))) 1) 1000 in
  let w1 := snd (run op w0) in
  let w2 := snd (run op w1) in
  fst (run op w0) = Ok (PyList []) /\
  fst (run op w1) = Ok (PyList []) /\
  clock w2 - clock w0 <= Cache.ttl (cache w0) /\
  sent w1 = [listing_request "USD" 200 0] /\
  sent w2 = sent w1.
Proof.
  cbv zeta. repeat split; vm_compute; try reflexivity. discriminate.
Qed.

Lemma entry_coin name code rank : entry (coin name code rank).
Proof.
  exists [("name", PyStr name); ("code", PyStr code); ("rate", PyFloat 1.0);
          ("rank", PyInt rank); ("delta", PyDict [("day", PyFloat 1.0)])].
  split; [reflexivity |]. split; right; eexists; reflexivity.
Qed.

Lemma listing200_entries : Forall entry listing200.
Proof.
  unfold listing200. apply Forall_map, Forall_forall. intros i _. cbn.
  destruct (_ || _); apply entry_coin.
Qed.

(** C4 on the scenario of the specification: in a listing of 200 entries
    whose entries 5, 40 and 150 match, a search with [limit=2] returns the
    entries 5 and 40, in that order, and sends the one listing request.  And
    on a listing whose third element is not an entry at all: a search with
    [limit=2] that has its two matches before it returns them. *)
Lemma search_returns_first_matches_witness :
  let w := boot (always (Response 200 (Json (PyList listing200))) 1) 1000 in
  let broken := [coin "Bitcoin" "BTC" 1; coin "Bitcoin Cash" "BCH" 2; PyNone] in
  let w2 := boot (always (Response 200 (Json (PyList broken))) 1) 1000 in
  (fst (search_coins "BIT" "USD" 2 w)
     = Ok (PyList [coin "Bitcoin 5" "B5" 5; coin "Bitcoin 40" "B40" 40]) /\
   List.filter (entry_matches "BIT") listing200
     = [coin "Bitcoin 5" "B5" 5; coin "Bitcoin 40" "B40" 40; coin "Bitcoin 150" "B150" 150] /\
   sent (snd (search_coins "BIT" "USD" 2 w)) = [listing_request "USD" 200 0]) /\
  fst (search_coins "bit" "USD" 2 w2)
    = Ok (PyList [coin "Bitcoin" "BTC" 1; coin "Bitcoin Cash" "BCH" 2]).
Proof.
  intros w broken w2. split.
  - destruct (search_returns_first_matches "BIT" "USD" 2 w listing200 [])
      as [Hres [_ [Hsent _]]].
    + lia.
    + reflexivity.
    + vm_compute. reflexivity.
    + exact listing200_entries.
    + now left.
    + split; [| split].
      * rewrite Hres. vm_compute. reflexivity.
      * vm_compute. reflexivity.
      * vm_compute. reflexivity.
  - destruct (search_returns_first_matches "bit" "USD" 2 w2
                [coin "Bitcoin" "BTC" 1; coin "Bitcoin Cash" "BCH" 2] [PyNone])
      as [Hres _].
    + lia.
    + reflexivity.
    + vm_compute. reflexivity.
    + repeat constructor; apply entry_coin.
    + right. vm_compute. lia.
    + rewrite Hres. vm_compute. reflexivity.
Defined.

(** C4 as stated fails for a limit below 1: the loop tests the limit only
    after it has appended a match, so a search with [limit=0] in the
    listing of the specification does not stop with no match collected, it
    returns the first match. *)
Lemma search_below_one_returns_a_match :
  let w := boot (always (Response 200 (Json (PyList listing200))) 1) 1000 in
  fst (search_coins "bit" "USD" 0 w) = Ok (PyList [coin "Bitcoin 5" "B5" 5]) /\
  fst (search_coins "bit" "USD" 0 w)
    <> Ok (PyList (take (Z.to_nat 0) (List.filter (entry_matches "bit") listing200))).
Proof.
  cbv zeta. split; [vm_compute; reflexivity |].
  vm_compute. discriminate.
Qed.

(** C2 fails on the code: the listing of USD at offset 100000 is empty; two
    identical calls 1 tick apart both reach the provider. *)
Lemma empty_listing_is_fetched_twice :
  let op := CoinsList "USD" 20 100000 in
  let w0 := boot (always (Response 200 (Json (PyList []))) 1) 1000 in
  let w1 := snd (run op w0) in
  let w2 := snd (run op w1) in
  fst (run op w0) = Ok (PyList []) /\
  fst (run op w1) = Ok (PyList []) /\
  clock w2 - clock w0 <= Cache.ttl (cache w0) /\
  sent w1 = [listing_request "USD" 20 100000] /\
  sent w2 = [listing_request "USD" 20 100000; listing_request "USD" 20 100000].
Proof.
  cbv zeta. repeat split; vm_compute; try reflexivity. discriminate.
Qed.

(** The same two calls on a listing that is not empty: the second is served
    from the cache. *)
Lemma repeat_within_ttl_hits_witness :
  let op := CoinsList "USD" 20 0 in
  let w0 := boot (always (Response 200 (Json (PyList [btc]))) 1) 1000 in
  let w1 := snd (run op w0) in
  run op (snd (sleep 299 w1)) = (Ok (PyList [btc]), snd (sleep 299 w1)) /\
  sent (snd (sleep 299 w1)) = sent w1.
Proof.
  intros op w0 w1.
  apply (repeat_within_ttl_hits op w0 (PyList [btc]) w1 299).
  - vm_compute. discriminate.
  - reflexivity.
  - reflexivity.
  - intros e He. vm_compute in He. injection He as <-. vm_compute. discriminate.
Defined.

(** C6 at two concrete worlds.  The provider answers 429 to a lookup of
    BTC/USD in a cache that holds a live listing: the cache is the same
    after the failure.  The provider answers 500 to a lookup of BTC/USD in
    a cache whose entry for BTC/USD has expired: the read drops the entry,
    nothing is written, and every key reads as before. *)
Lemma failure_writes_nothing_witness :
  let w := {| cache := Cache.set 990 (Cache.init None) "coins_list_USD_20_0" (PyList [Run.btc]);
              clock := 1000;
              provider := Run.always (Response 429 NoContent) 1;
              sent := [] |} in
  let w' := snd (run (SingleCoin "BTC" "USD") w) in
  let s' := snd (run (SingleCoin "BTC" "USD") Run.stale) in
  (fst (run (SingleCoin "BTC" "USD") w) = Raise (LiveCoinWatchError "Rate limit exceeded") /\
   cache w' = cache w) /\
  (fst (run (SingleCoin "BTC" "USD") Run.stale)
     = Raise (LiveCoinWatchError "API error (500): Unknown error") /\
   Cache.size (cache Run.stale) = 1%nat /\
   Cache.size (cache s') = 0%nat /\
   evicts [coin_key "BTC" "USD"] 1000 (cache Run.stale) (cache s') /\
   same_reads 1000 (cache Run.stale) (cache s')).
Proof.
  intros w w' s'. split.
  - split; [reflexivity |].
    destruct (failure_writes_nothing (SingleCoin "BTC" "USD") w w' "Rate limit exceeded"
                eq_refl) as [_ [_ [_ Hsame]]].
    apply Hsame. intros key e [<- | []] He. vm_compute in He. discriminate.
  - split; [reflexivity |]. split; [reflexivity |]. split; [reflexivity |].
    destruct (failure_writes_nothing (SingleCoin "BTC" "USD") Run.stale s'
                "API error (500): Unknown error" eq_refl) as [_ [Hev [Hreads _]]].
    split; [exact Hev | exact Hreads].
Defined.

End GatewayFacts.

(** ** The route handlers *)

Module MainFacts.

Import Upstream Proc Models Main Spec.

Lemma validate_currency_value (c : Currency) :
  Validators.validate_currency (Currency_value c) = Ok (Currency_value c).
Proof. now destruct c. Qed.

Lemma validate_crypto_symbol_Ok symbol validated_symbol :
  Validators.validate_crypto_symbol symbol = Ok validated_symbol ->
  validated_symbol = normalize symbol.
Proof.
  unfold Validators.validate_crypto_symbol, normalize.
  destruct (String.eqb symbol ""); [now intros |].
  destruct (negb _); [now intros |].
  destruct (_ || _); [now intros |].
  now intros [= <-].
Qed.

Lemma validate_limit_Ok limit max_limit validated_limit :
  Validators.validate_limit limit max_limit = Ok validated_limit ->
  validated_limit = limit /\ 1 <= limit <= max_limit.
Proof.
  unfold Validators.validate_limit.
  destruct (Z.ltb_spec limit 1); [now intros |].
  destruct (Z.gtb_spec limit max_limit); [now intros |].
  intros [= <-]. lia.
Qed.

Section WithLibrary.

Context `{Library}.

(** A [try] block that returns is not touched by its [except] clause. *)
Lemma except_ValueError_Ok {A : Type} (m : M A) w (a : A) w' :
  try_except m except_ValueError w = (Ok a, w') -> m w = (Ok a, w').
Proof.
  unfold try_except, except_ValueError, raise.
  destruct (m w) as [[a0 | e] w0]; [now intros |].
  now destruct (is_ValueError e).
Qed.

(** The handler of the single-asset route returns a response only through
    the gateway and the model. *)
Lemma get_cryptocurrency_Ok symbol currency w resp w' :
  get_cryptocurrency symbol currency w = (Ok resp, w') ->
  Validators.validate_crypto_symbol symbol = Ok (normalize symbol) /\
  exists data,
    Service.get_single_coin (normalize symbol) (Currency_value currency) w = (Ok data, w') /\
    single_response data (normalize symbol) = Ok resp.
Proof.
  intros Hrun. apply except_ValueError_Ok in Hrun. revert Hrun.
  unfold bind, lift. rewrite validate_currency_value.
  destruct (Validators.validate_crypto_symbol symbol) as [vs |] eqn:Hvs; [| now intros].
  apply validate_crypto_symbol_Ok in Hvs. subst vs.
  destruct (Service.get_single_coin _ _ w) as [[data | e] w0]; [| now intros].
  destruct (single_response data (normalize symbol)) as [r |] eqn:Hresp; [| now intros].
  intros [= <- <-]. split; [reflexivity |]. now exists data.
Qed.

Lemma new_CryptocurrencyResponse_Ok symbol name price change_24h volume cap rank resp :
  new_CryptocurrencyResponse symbol name price (PyFloat change_24h) volume cap rank = Ok resp ->
  as_str symbol = Some (CryptocurrencyResponse.symbol resp) /\
  CryptocurrencyResponse.percent_change_24h resp = change_24h.
Proof.
  unfold new_CryptocurrencyResponse. rewrite as_float_float.
  destruct (as_str symbol); [| now intros].
  destruct (as_str name); [| now intros].
  destruct (as_float price); [| now intros].
  destruct (as_float volume); [| now intros].
  destruct (as_opt_float cap); [| now intros].
  destruct (as_opt_int rank); [| now intros].
  now intros [= <-].
Qed.

(** What a response of the single-asset route says about the payload it was
    built from. *)
Lemma single_response_Ok data validated_symbol resp :
  single_response data validated_symbol = Ok resp ->
  exists payload change,
    data = PyDict payload /\
    percent_change data = Ok change /\
    CryptocurrencyResponse.percent_change_24h resp = change /\
    as_str (match assoc "symbol" payload with
            | Some v => v
            | None => PyStr validated_symbol
            end) = Some (CryptocurrencyResponse.symbol resp).
Proof.
  unfold single_response. destruct data as [| | | | | | payload]; try now intros.
  cbn [Py.get rbind].
  destruct (percent_change (PyDict payload)) as [change |]; [| now intros].
  cbn [rbind]. intros Hnew. apply new_CryptocurrencyResponse_Ok in Hnew.
  destruct Hnew as [Hsym Hchange]. now exists payload, change.
Qed.

(** The percent change of a payload is made of its [delta.day] by the
    subtraction and the multiplication of the source. *)
Lemma percent_change_of_day payload delta day :
  assoc "delta" payload = Some (PyDict delta) ->
  assoc "day" delta = Some day ->
  percent_change (PyDict payload)
    = rbind (sub_float day 1.0) (fun x => Ok (x * 100)%float).
Proof. intros Hdelta Hday. unfold percent_change. cbn. rewrite Hdelta. cbn. now rewrite Hday. Qed.

(** C3: when the payload the gateway hands to the single-asset route has a
    [delta.day] field, the response's [percent_change_24h] is
    [(d - 1.0) * 100] computed in binary64, where [d] is the field as Python's
    arithmetic takes it: the field itself when the JSON carries a real, the
    float [float(n)] of a JSON integer [n], and 1.0 or 0.0 for [true] or
    [false]; the field is one of these, since no response is built from
    another value.  For [d = 0.975] the result is within [1e-9] of [-2.5]. *)
Theorem percent_change_24h_of_delta_day
    (symbol : string) (currency : Currency) (w w' : World)
    (resp : CryptocurrencyResponse.t)
    (payload delta : list (string * pyval)) (day : pyval) :
  get_cryptocurrency symbol currency w = (Ok resp, w') ->
  Service.get_single_coin (normalize symbol) (Currency_value currency) w
    = (Ok (PyDict payload), w') ->
  assoc "delta" payload = Some (PyDict delta) ->
  assoc "day" delta = Some day ->
  (forall d, day = PyFloat d ->
     CryptocurrencyResponse.percent_change_24h resp = ((d - 1.0) * 100)%float) /\
  (forall n, day = PyInt n ->
     exists d, float_of_int n = Ok d /\
       CryptocurrencyResponse.percent_change_24h resp = ((d - 1.0) * 100)%float) /\
  (forall b, day = PyBool b ->
     CryptocurrencyResponse.percent_change_24h resp
       = (((if b then 1 else 0) - 1.0) * 100)%float) /\
  ((exists d, day = PyFloat d) \/ (exists n, day = PyInt n) \/ (exists b, day = PyBool b)) /\
  (day = PyFloat 0.975 ->
   PrimFloat.ltb (abs (CryptocurrencyResponse.percent_change_24h resp - (-2.5))) 1e-9 = true).
Proof.
  intros Hrun Hdata Hdelta Hday.
  apply get_cryptocurrency_Ok in Hrun. destruct Hrun as [_ [data [Hdata' Hresp]]].
  rewrite Hdata in Hdata'. injection Hdata' as <-.
  apply single_response_Ok in Hresp.
  destruct Hresp as [payload' [change [Heq [Hchange [Hfield _]]]]].
  rewrite (percent_change_of_day _ _ _ Hdelta Hday) in Hchange.
  rewrite Hfield. clear Hfield Heq Hdata Hdelta Hday.
  destruct day as [| b | n | d | | |]; cbn [sub_float rbind] in Hchange;
    try discriminate Hchange.
  - injection Hchange as <-.
    split; [intros d [=] |]. split; [intros n [=] |]. split; [now intros b' [= <-] |].
    split; [right; right; now exists b |]. intros [=].
  - destruct (float_of_int n) as [f |] eqn:Hf; cbn [rbind] in Hchange;
      [| discriminate Hchange].
    injection Hchange as <-.
    split; [intros d [=] |].
    split; [intros n' [= <-]; exists f; now rewrite Hf |].
    split; [intros b [=] |].
    split; [right; left; now exists n |]. intros [=].
  - injection Hchange as <-.
    split; [now intros d' [= <-] |]. split; [intros n [=] |]. split; [intros b [=] |].
    split; [left; now exists d |].
    intros [= ->]. vm_compute. reflexivity.
Qed.

(** C8, as amended: the [symbol] of a single-asset response is the payload's
    own [symbol] field when the payload has one, and [normalize(S)] only
    when it has none. *)
Theorem symbol_of_single_response
    (symbol : string) (currency : Currency) (w w' : World)
    (resp : CryptocurrencyResponse.t) :
  get_cryptocurrency symbol currency w = (Ok resp, w') ->
  Validators.validate_crypto_symbol symbol = Ok (normalize symbol) /\
  exists payload,
    Service.get_single_coin (normalize symbol) (Currency_value currency) w
      = (Ok (PyDict payload), w') /\
    (assoc "symbol" payload = None ->
     CryptocurrencyResponse.symbol resp = normalize symbol) /\
    (forall s, assoc "symbol" payload = Some (PyStr s) ->
     CryptocurrencyResponse.symbol resp = s) /\
    (forall v, assoc "symbol" payload = Some v ->
     as_str v = Some (CryptocurrencyResponse.symbol resp)).
Proof.
  intros Hrun. apply get_cryptocurrency_Ok in Hrun.
  destruct Hrun as [Hvalid [data [Hdata Hresp]]]. split; [exact Hvalid |].
  apply single_response_Ok in Hresp.
  destruct Hresp as [payload [change [-> [_ [_ Hsym]]]]].
  exists payload. split; [exact Hdata |]. repeat split.
  - intros Hnone. rewrite Hnone, as_str_str in Hsym. now injection Hsym.
  - intros s Hs. rewrite Hs, as_str_str in Hsym. now injection Hsym.
  - intros v Hv. now rewrite Hv in Hsym.
Qed.

(** *** The list responses *)

Lemma transform_length data crypto_items result :
  transform data crypto_items = Ok result ->
  length result = (length crypto_items + length data)%nat.
Proof.
  revert crypto_items. induction data as [| item data IH]; intros acc; cbn [transform].
  - intros [= <-]. cbn. lia.
  - destruct (list_item item) as [crypto_item |]; [| now intros].
    cbn [rbind]. intros Hrest. apply IH in Hrest.
    rewrite Hrest, length_app. cbn. lia.
Qed.

Lemma list_response_Ok data validated_currency resp :
  list_response data validated_currency = Ok resp ->
  CryptocurrencyListResponse.total_count resp
    = Z.of_nat (length (CryptocurrencyListResponse.data resp)) /\
  exists items,
    iter data = Ok items /\
    length (CryptocurrencyListResponse.data resp) = length items.
Proof.
  unfold list_response. destruct (iter data) as [items |]; [| now intros].
  cbn [rbind]. destruct (transform items []) as [crypto_items |] eqn:Htr; [| now intros].
  intros [= <-]. cbn. split; [reflexivity |].
  exists items. split; [reflexivity |]. now apply transform_length in Htr.
Qed.

Lemma get_cryptocurrencies_Ok limit offset currency w resp w' :
  get_cryptocurrencies limit offset currency w = (Ok resp, w') ->
  exists data,
    Service.get_coins_list (Currency_value currency) limit offset w = (Ok data, w') /\
    list_response data (Currency_value currency) = Ok resp.
Proof.
  unfold get_cryptocurrencies.
  destruct (get_cryptocurrencies_query limit offset); [| now intros].
  intros Hrun. apply except_ValueError_Ok in Hrun. revert Hrun.
  unfold bind, lift. rewrite validate_currency_value.
  destruct (Validators.validate_limit limit 100) as [vl |] eqn:Hvl; [| now intros].
  apply validate_limit_Ok in Hvl. destruct Hvl as [-> _].
  destruct (Service.get_coins_list _ _ _ w) as [[data | e] w0]; [| now intros].
  destruct (list_response data _) as [r |] eqn:Hresp; [| now intros].
  intros [= <- <-]. now exists data.
Qed.

Lemma search_cryptocurrencies_Ok query limit currency w resp w' :
  search_cryptocurrencies query limit currency w = (Ok resp, w') ->
  exists data,
    Service.search_coins query (Currency_value currency) limit w = (Ok data, w') /\
    list_response data (Currency_value currency) = Ok resp.
Proof.
  unfold search_cryptocurrencies.
  destruct (search_cryptocurrencies_query query limit); [| now intros].
  intros Hrun. apply except_ValueError_Ok in Hrun. revert Hrun.
  unfold bind, lift. rewrite validate_currency_value.
  destruct (Validators.validate_limit limit 50) as [vl |] eqn:Hvl; [| now intros].
  apply validate_limit_Ok in Hvl. destruct Hvl as [-> _].
  destruct (Service.search_coins _ _ _ w) as [[data | e] w0]; [| now intros].
  destruct (list_response data _) as [r |] eqn:Hresp; [| now intros].
  intros [= <- <-]. now exists data.
Qed.

(** C10: in every response of the list route and of the search route,
    [total_count] is the number of elements of the [data] array of that
    response, which is the number of entries the gateway returned for this
    page or this search. *)
Theorem total_count_is_length_of_data (currency : Currency) (limit : Z) (w w' : World)
    (resp : CryptocurrencyListResponse.t) :
  (forall offset,
     get_cryptocurrencies limit offset currency w = (Ok resp, w') ->
     CryptocurrencyListResponse.total_count resp
       = Z.of_nat (length (CryptocurrencyListResponse.data resp)) /\
     exists page items,
       Service.get_coins_list (Currency_value currency) limit offset w = (Ok page, w') /\
       iter page = Ok items /\
       length (CryptocurrencyListResponse.data resp) = length items) /\
  (forall query,
     search_cryptocurrencies query limit currency w = (Ok resp, w') ->
     CryptocurrencyListResponse.total_count resp
       = Z.of_nat (length (CryptocurrencyListResponse.data resp)) /\
     exists found items,
       Service.search_coins query (Currency_value currency) limit w = (Ok found, w') /\
       iter found = Ok items /\
       length (CryptocurrencyListResponse.data resp) = length items).
Proof.
  split.
  - intros offset Hrun. apply get_cryptocurrencies_Ok in Hrun.
    destruct Hrun as [data [Hdata Hresp]]. apply list_response_Ok in Hresp.
    destruct Hresp as [Hcount [items [Hiter Hlen]]].
    split; [exact Hcount |]. now exists data, items.
  - intros query Hrun. apply search_cryptocurrencies_Ok in Hrun.
    destruct Hrun as [data [Hdata Hresp]]. apply list_response_Ok in Hresp.
    destruct Hresp as [Hcount [items [Hiter Hlen]]].
    split; [exact Hcount |]. now exists data, items.
Qed.

(** *** Upstream failures and their HTTP status *)

Lemma lower_app a b : lower (a +:+ b) = lower a +:+ lower b.
Proof.
  unfold lower. induction a as [| c a IH]; [reflexivity |].
  change (String c a +:+ b) with (String c (a +:+ b)). cbn [map_string]. now rewrite IH.
Qed.

(** None of the three phrases can begin inside the prefix of the message of
    an upstream error and end in the description. *)
Lemma api_error_500_plain msg : plain msg -> plain ("API error (500): " +:+ msg).
Proof.
  unfold plain, keywords. intros Hplain.
  inversion Hplain as [| ? ? Hnf Hrest]; subst.
  inversion Hrest as [| ? ? Hun Hrest']; subst.
  inversion Hrest' as [| ? ? Hrl _]; subst.
  rewrite lower_app.
  change (lower "API error (500): ") with "api error (500): ".
  cbv beta iota delta [String.append].
  repeat constructor; cbn; assumption.
Qed.

Lemma plain_status msg :
  plain msg -> ErrorResponse.status_code (livecoinwatch_exception_handler msg) = 502.
Proof.
  unfold plain, keywords, livecoinwatch_exception_handler. intros Hplain.
  inversion Hplain as [| ? ? Hnf Hrest]; subst.
  inversion Hrest as [| ? ? Hun Hrest']; subst.
  inversion Hrest' as [| ? ? Hrl _]; subst.
  cbn. now rewrite Hnf, Hun, Hrl.
Qed.

(** C5, as amended: an upstream 429 surfaces as the rate-limit error, which
    the exception handler maps to HTTP 429; an upstream 401 maps to HTTP
    401; an upstream 500 maps to HTTP 502 when it has no body, and when its
    body is a JSON object whose [error] member is absent or is itself a JSON
    object, provided the description (the [description] member of [error],
    "Unknown error" when there is none), rendered as text, contains none of
    the phrases "not found", "unauthorized" and "rate limit" in any letter
    case. *)
Theorem upstream_status_mapping
    (endpoint : string) (data : pyval) (w : World) (status_code : Z) (content : Body) :
  outcome (provider w (sent w) {| endpoint := endpoint; data := data |})
    = Response status_code content ->
  (status_code = 429 ->
   fst (Service._make_request endpoint data w)
     = Raise (LiveCoinWatchError "Rate limit exceeded") /\
   http_status (fst (Service._make_request endpoint data w)) = 429) /\
  (status_code = 401 ->
   fst (Service._make_request endpoint data w)
     = Raise (LiveCoinWatchError "Invalid API key or unauthorized access") /\
   http_status (fst (Service._make_request endpoint data w)) = 401) /\
  (status_code = 500 ->
   forall (body error : list (string * pyval)) (description : pyval),
     content = Json (PyDict body) ->
     assoc "error" body = Some (PyDict error) \/ (assoc "error" body = None /\ error = []) ->
     match assoc "description" error with
     | Some v => description = v
     | None => description = PyStr "Unknown error"
     end ->
     plain (format description) ->
     fst (Service._make_request endpoint data w)
       = Raise (LiveCoinWatchError ("API error (500): " +:+ format description)) /\
     http_status (fst (Service._make_request endpoint data w)) = 502) /\
  (status_code = 500 -> content = NoContent ->
   fst (Service._make_request endpoint data w)
     = Raise (LiveCoinWatchError "API error (500): Unknown error") /\
   http_status (fst (Service._make_request endpoint data w)) = 502).
Proof.
  intros Hreply. rewrite GatewayFacts.make_request_run, Hreply. cbn [fst].
  assert (H500 : forall error_msg,
             Service.error_msg_of content = Ok error_msg -> plain (format error_msg) ->
             Service.classify (Response 500 content)
               = Raise (LiveCoinWatchError ("API error (500): " +:+ format error_msg)) /\
             http_status (Service.classify (Response 500 content)) = 502).
  { intros error_msg Hmsg Hplain. unfold Service.classify.
    cbn [Z.eqb Pos.eqb]. rewrite Hmsg. cbn [rbind]. split; [reflexivity |].
    cbn [http_status]. apply plain_status. now apply api_error_500_plain. }
  split; [| split; [| split]].
  - intros ->. split; reflexivity.
  - intros ->. split; reflexivity.
  - intros -> body error description -> Herror Hdescription. apply H500.
    unfold Service.error_msg_of, Service.json. cbn [rbind Py.get].
    destruct Herror as [-> | [-> ->]]; cbn [rbind Py.get assoc] in *.
    + destruct (assoc "description" error); now subst.
    + now subst.
  - intros -> ->. apply (H500 (PyStr "Unknown error")); [reflexivity |].
    repeat constructor.
Qed.

(** The same mapping seen from the list route: the handler adds nothing to
    a domain error of the gateway, so the status of the HTTP response is the
    one the exception handler chooses. *)
Lemma list_route_status limit offset currency w status_code content :
  1 <= limit <= 100 -> 0 <= offset ->
  Service.if_truthy
    (Cache.visible (clock w) (cache w)
       (Service.coins_list_key (Currency_value currency) limit offset)) = None ->
  outcome (provider w (sent w) (listing_request (Currency_value currency) limit offset))
    = Response status_code content ->
  (status_code = 429 ->
   http_status (fst (get_cryptocurrencies limit offset currency w)) = 429) /\
  (status_code = 401 ->
   http_status (fst (get_cryptocurrencies limit offset currency w)) = 401) /\
  (status_code = 500 ->
   forall error_msg,
     Service.error_msg_of content = Ok error_msg -> plain (format error_msg) ->
     http_status (fst (get_cryptocurrencies limit offset currency w)) = 502).
Proof.
  intros Hlimit Hoffset Hmiss Hreply.
  assert (Hrun : forall msg,
             Service.classify (Response status_code content)
               = Raise (LiveCoinWatchError msg) ->
             fst (get_cryptocurrencies limit offset currency w)
               = Raise (LiveCoinWatchError msg)).
  { intros msg Hclass.
    unfold get_cryptocurrencies, get_cryptocurrencies_query.
    replace (1 <=? limit) with true by (symmetry; apply Z.leb_le; lia).
    replace (limit <=? 100) with true by (symmetry; apply Z.leb_le; lia).
    replace (0 <=? offset) with true by (symmetry; apply Z.leb_le; lia).
    cbn [andb].
    unfold try_except, bind, lift.
    rewrite validate_currency_value.
    unfold Validators.validate_limit.
    destruct (Z.ltb_spec limit 1); [lia |].
    destruct (Z.gtb_spec limit 100); [lia |].
    unfold Service.get_coins_list, bind. rewrite GatewayFacts.cache_get_run.
    unfold Cache.visible in Hmiss. rewrite Hmiss.
    unfold Service.get_coins_list_miss, bind, lift.
    rewrite GatewayFacts.make_request_run. cbn [sent provider].
    unfold listing_request in Hreply. rewrite Hreply, Hclass. reflexivity. }
  split; [| split].
  - intros ->. now rewrite (Hrun "Rate limit exceeded").
  - intros ->. now rewrite (Hrun "Invalid API key or unauthorized access").
  - intros -> error_msg Hmsg Hplain.
    rewrite (Hrun ("API error (500): " +:+ format error_msg)).
    + cbn [http_status]. apply plain_status. now apply api_error_500_plain.
    + unfold Service.classify. cbn [Z.eqb Pos.eqb]. now rewrite Hmsg.
Qed.

End WithLibrary.

Import Run.

(** A 500 whose body is not JSON does not reach the exception handler of
    the domain errors at all: [response.json()] raises a [ValueError], which
    the [except] clause of the route turns into HTTP 400. *)
Lemma html_500_is_400 :
  let w := boot (always (Response 500 NotJson) 1) 1000 in
  fst (get_cryptocurrencies 20 0 USD w) = Raise (HTTPException 400 JSONDecodeError) /\
  http_status (fst (get_cryptocurrencies 20 0 USD w)) = 400.
Proof. cbv zeta. split; vm_compute; reflexivity. Qed.

(** C5 at concrete replies: 429 and 401 without a body, a 500 whose
    description reads "Internal server error", a 500 whose body is an object
    without an [error] member, and a 500 without a body. *)
Lemma upstream_status_mapping_witness :
  let reply status_code content := boot (always (Response status_code content) 1) 1000 in
  let oops := Json (PyDict [("error", PyDict [("description", PyStr "Internal server error")])]) in
  let bare := Json (PyDict [("status", PyInt 500)]) in
  http_status (fst (Service._make_request "coins/list" PyNone (reply 429 NoContent))) = 429 /\
  http_status (fst (Service._make_request "coins/list" PyNone (reply 401 NoContent))) = 401 /\
  http_status (fst (Service._make_request "coins/list" PyNone (reply 500 oops))) = 502 /\
  http_status (fst (Service._make_request "coins/list" PyNone (reply 500 bare))) = 502 /\
  http_status (fst (Service._make_request "coins/list" PyNone (reply 500 NoContent))) = 502.
Proof.
  intros reply oops bare.
  destruct (upstream_status_mapping "coins/list" PyNone (reply 429 NoContent) 429 NoContent
              eq_refl) as [H429 _].
  destruct (upstream_status_mapping "coins/list" PyNone (reply 401 NoContent) 401 NoContent
              eq_refl) as [_ [H401 _]].
  destruct (upstream_status_mapping "coins/list" PyNone (reply 500 oops) 500 oops
              eq_refl) as [_ [_ [H500 _]]].
  destruct (upstream_status_mapping "coins/list" PyNone (reply 500 bare) 500 bare
              eq_refl) as [_ [_ [Hnone _]]].
  destruct (upstream_status_mapping "coins/list" PyNone (reply 500 NoContent) 500 NoContent
              eq_refl) as [_ [_ [_ Hbare]]].
  split; [| split; [| split; [| split]]].
  - exact (proj2 (H429 eq_refl)).
  - exact (proj2 (H401 eq_refl)).
  - refine (proj2 (H500 eq_refl
                     [("error", PyDict [("description", PyStr "Internal server error")])]
                     [("description", PyStr "Internal server error")]
                     (PyStr "Internal server error") eq_refl (or_introl eq_refl) eq_refl _)).
    repeat constructor.
  - refine (proj2 (Hnone eq_refl [("status", PyInt 500)] [] (PyStr "Unknown error")
                     eq_refl (or_intror (conj eq_refl eq_refl)) eq_refl _)).
    repeat constructor.
  - exact (proj2 (Hbare eq_refl eq_refl)).
Defined.

(** C5 as stated fails: an upstream 500 whose description reads "Resource
    not found" comes out of the list route as HTTP 404. *)
Lemma not_found_500_is_404 :
  let w := boot (always (Response 500 missing_resource) 1) 1000 in
  fst (Service._make_request "coins/list" (Service.coins_list_data "USD" 20 0) w)
    = Raise (LiveCoinWatchError "API error (500): Resource not found") /\
  fst (get_cryptocurrencies 20 0 USD w)
    = Raise (LiveCoinWatchError "API error (500): Resource not found") /\
  http_status (fst (get_cryptocurrencies 20 0 USD w)) = 404 /\
  http_status (fst (get_cryptocurrencies 20 0 USD w)) <> 502.
Proof.
  cbv zeta. repeat split; try (vm_compute; reflexivity).
  vm_compute. discriminate.
Qed.

(** C3 on the end-to-end scenario of the specification, and on a payload
    whose ratio is the JSON integer 2: the price has doubled, the change is
    100 percent. *)
Lemma percent_change_24h_of_delta_day_witness :
  let doubled := PyDict [("name", PyStr "Bitcoin"); ("rate", PyFloat 45000.5);
                         ("delta", PyDict [("day", PyInt 2)])] in
  let w := boot (always (Response 200 (Json btc)) 1) 1000 in
  let w2 := boot (always (Response 200 (Json doubled)) 1) 1000 in
  (exists resp,
     fst (get_cryptocurrency "BTC" USD w) = Ok resp /\
     CryptocurrencyResponse.percent_change_24h resp = ((0.975 - 1.0) * 100)%float /\
     PrimFloat.ltb (abs (CryptocurrencyResponse.percent_change_24h resp - (-2.5))) 1e-9 = true) /\
  (exists resp,
     fst (get_cryptocurrency "BTC" USD w2) = Ok resp /\
     CryptocurrencyResponse.percent_change_24h resp = 100%float).
Proof.
  intros doubled w w2. split.
  - destruct (get_cryptocurrency "BTC" USD w) as [[resp | e] w'] eqn:Hrun;
      [| vm_compute in Hrun; discriminate].
    exists resp. split; [reflexivity |].
    destruct (percent_change_24h_of_delta_day "BTC" USD w w' resp
                [("code", PyStr "BTC"); ("name", PyStr "Bitcoin"); ("rate", PyFloat 45000.5);
                 ("volume", PyFloat 2.5e10); ("cap", PyFloat 8.5e11); ("rank", PyInt 1);
                 ("delta", PyDict [("day", PyFloat 0.975)])]
                [("day", PyFloat 0.975)] (PyFloat 0.975) Hrun)
      as [Hfloat [_ [_ [_ Hnear]]]];
      [vm_compute in Hrun; injection Hrun as _ <-; vm_compute; reflexivity
      | reflexivity | reflexivity |].
    split; [exact (Hfloat 0.975%float eq_refl) | exact (Hnear eq_refl)].
  - destruct (get_cryptocurrency "BTC" USD w2) as [[resp | e] w'] eqn:Hrun;
      [| vm_compute in Hrun; discriminate].
    exists resp. split; [reflexivity |].
    destruct (percent_change_24h_of_delta_day "BTC" USD w2 w' resp
                [("name", PyStr "Bitcoin"); ("rate", PyFloat 45000.5);
                 ("delta", PyDict [("day", PyInt 2)])]
                [("day", PyInt 2)] (PyInt 2) Hrun)
      as [_ [Hint _]];
      [vm_compute in Hrun; injection Hrun as _ <-; vm_compute; reflexivity
      | reflexivity | reflexivity |].
    destruct (Hint 2 eq_refl) as [d [Hd Hpct]].
    vm_compute in Hd. injection Hd as <-. rewrite Hpct. vm_compute. reflexivity.
Defined.

(** C8 as stated fails: for the valid symbol "btc", a payload that says
    [symbol = "XBT"] gives a response whose symbol is "XBT", not "BTC". *)
Lemma upstream_symbol_wins :
  let w := boot (always (Response 200 (Json xbt)) 1) 1000 in
  Validators.validate_crypto_symbol "btc" = Ok "BTC" /\
  normalize "btc" = "BTC" /\
  exists resp,
    fst (get_cryptocurrency "btc" USD w) = Ok resp /\
    CryptocurrencyResponse.symbol resp = "XBT" /\
    CryptocurrencyResponse.symbol resp <> normalize "btc".
Proof.
  cbv zeta. split; [reflexivity | split; [reflexivity |]].
  eexists. split; [vm_compute; reflexivity |]. split; [reflexivity |].
  vm_compute. discriminate.
Qed.

(** C8 as amended, on the payload of the specification, which has no
    [symbol] field: the response carries the normalized symbol. *)
Lemma symbol_of_single_response_witness :
  let w := boot (always (Response 200 (Json btc)) 1) 1000 in
  exists resp,
    fst (get_cryptocurrency " btc" USD w) = Ok resp /\
    CryptocurrencyResponse.symbol resp = "BTC".
Proof.
  intros w.
  destruct (get_cryptocurrency " btc" USD w) as [[resp | e] w'] eqn:Hrun;
    [| vm_compute in Hrun; discriminate].
  exists resp. split; [reflexivity |].
  destruct (symbol_of_single_response " btc" USD w w' resp Hrun)
    as [_ [payload [Hdata [Hnone _]]]].
  vm_compute in Hdata. injection Hdata as <- _.
  exact (Hnone eq_refl).
Defined.

(** C10 on a page of one entry. *)
Lemma total_count_is_length_of_data_witness :
  let w := boot (always (Response 200 (Json (PyList [btc]))) 1) 1000 in
  exists resp,
    fst (get_cryptocurrencies 20 0 USD w) = Ok resp /\
    CryptocurrencyListResponse.total_count resp = 1 /\
    length (CryptocurrencyListResponse.data resp) = 1%nat.
Proof.
  intros w.
  destruct (get_cryptocurrencies 20 0 USD w) as [[resp | e] w'] eqn:Hrun;
    [| vm_compute in Hrun; discriminate].
  exists resp. split; [reflexivity |].
  destruct (total_count_is_length_of_data USD 20 w w' resp) as [Hlist _].
  destruct (Hlist 0 Hrun) as [Hcount [page [items [Hpage [Hiter Hlen]]]]].
  vm_compute in Hpage. injection Hpage as <- _.
  injection Hiter as <-. cbn in Hlen. rewrite Hcount, Hlen. split; reflexivity.
Defined.

End MainFacts.

(** ** More on the cache: [clear], [size] and repeated reads *)

Module CacheMore.

Import Cache.

(** X1: after [clear] the cache holds nothing: its size is 0 and every key
    reads absent, at any time, without changing the cache again; the TTL is
    the one it had. *)
Theorem clear_forgets_everything (self : SimpleCache) (now : Z) (key : string) :
  size (clear self) = 0%nat /\
  get now (clear self) key = (None, clear self) /\
  ttl (clear self) = ttl self.
Proof.
  split; [| split; [| reflexivity]].
  - unfold size, clear. cbn. apply map_size_empty.
  - apply CacheFacts.get_absent. cbn. apply lookup_empty.
Qed.

(** X2: [size] counts the entries stored, expired or not: the passing of
    time alone never changes it; a read changes it only when it finds an
    expired entry, which it removes, so the size goes down by exactly one. *)
Theorem size_counts_expired_entries (self : SimpleCache) (now : Z) (key : string) :
  (forall entry, _cache self !! key = Some entry -> expired self now entry = true ->
     S (size (snd (get now self key))) = size self) /\
  (forall entry, _cache self !! key = Some entry -> expired self now entry = false ->
     size (snd (get now self key)) = size self) /\
  (_cache self !! key = None -> size (snd (get now self key)) = size self).
Proof.
  unfold get, size. split; [| split].
  - intros entry Hk Hexp. rewrite Hk, Hexp. cbn.
    rewrite map_size_delete_Some by now exists entry.
    assert (base.size (_cache self) <> 0%nat); [| lia].
    intros Hz. apply map_size_empty_inv in Hz. rewrite Hz, lookup_empty in Hk. discriminate.
  - intros entry Hk Hexp. now rewrite Hk, Hexp.
  - intros Hk. now rewrite Hk.
Qed.

Lemma size_counts_expired_entries_witness :
  let c := set 0 (set 0 (init None) "a" (PyInt 1)) "b" (PyInt 2) in
  size c = 2%nat /\
  S (size (snd (get 1000 c "a"))) = size c /\
  size (snd (get 10 c "a")) = size c /\
  size (snd (get 1000 c "z")) = size c.
Proof.
  intros c.
  destruct (size_counts_expired_entries c 1000 "a") as [Hdead _].
  destruct (size_counts_expired_entries c 10 "a") as [_ [Hlive _]].
  destruct (size_counts_expired_entries c 1000 "z") as [_ [_ Hmiss]].
  split; [reflexivity |]. split; [| split].
  - apply (Hdead {| value := PyInt 1; timestamp := 0 |}); reflexivity.
  - apply (Hlive {| value := PyInt 1; timestamp := 0 |}); reflexivity.
  - apply Hmiss. reflexivity.
Defined.

(** X3: [set] adds one to the size when the key is new and leaves the size
    as it is when it overwrites, whether the old entry was expired or not. *)
Theorem set_size (self : SimpleCache) (now : Z) (key : string) (v : pyval) :
  (_cache self !! key = None -> size (set now self key v) = S (size self)) /\
  (forall entry, _cache self !! key = Some entry -> size (set now self key v) = size self).
Proof.
  unfold size, set. cbn. split.
  - intros Hk. now apply map_size_insert_None.
  - intros entry Hk. apply map_size_insert_Some. now exists entry.
Qed.

Lemma set_size_witness :
  let c := set 0 (init None) "a" (PyInt 1) in
  size (set 5 c "b" (PyInt 2)) = S (size c) /\
  size (set 5000 c "a" (PyInt 3)) = size c.
Proof.
  intros c.
  destruct (set_size c 5 "b" (PyInt 2)) as [Hnew _].
  destruct (set_size c 5000 "a" (PyInt 3)) as [_ Hold].
  split.
  - apply Hnew. reflexivity.
  - apply (Hold {| value := PyInt 1; timestamp := 0 |}). reflexivity.
Defined.

(** X4: a read settles its key: a second read of the same key at the same
    time returns what the first returned and changes nothing any more; and
    a read never touches another key. *)
Theorem get_settles (self : SimpleCache) (now : Z) (key : string) :
  get now (snd (get now self key)) key = (fst (get now self key), snd (get now self key)) /\
  (forall key', key' <> key -> _cache (snd (get now self key)) !! key' = _cache self !! key').
Proof.
  unfold get. destruct (_cache self !! key) as [e |] eqn:Hk.
  - destruct (expired self now e) eqn:Hexp; cbn.
    + split; [| intros key' Hne; now apply lookup_delete_ne].
      now rewrite lookup_delete_eq.
    + split; [| reflexivity]. now rewrite Hk, Hexp.
  - cbn. split; [| reflexivity]. now rewrite Hk.
Qed.

Lemma get_settles_witness :
  let c := set 0 (set 0 (init None) "a" (PyInt 1)) "b" (PyInt 2) in
  _cache (snd (get 1000 c "a")) !! "b" = _cache c !! "b".
Proof.
  intros c. destruct (get_settles c 1000 "a") as [_ Hother].
  apply Hother. discriminate.
Defined.

(** X5: [SimpleCache(ttl)] starts empty; a TTL of 0 cannot be chosen, the
    [or] replaces it, like a missing argument, by the configured default of
    300, so a value stored in such a cache is still read 300 ticks later;
    any other TTL, negative ones included, is taken as given, and with a
    negative TTL a stored value is never read back. *)
Theorem init_ttl (t : Z) (now later : Z) (key : string) (v : pyval) :
  size (init (Some t)) = 0%nat /\
  ttl (init None) = 300 /\
  ttl (init (Some 0)) = 300 /\
  (t <> 0 -> ttl (init (Some t)) = t) /\
  (later - now <= 300 ->
   fst (get later (set now (init (Some 0)) key v) key) = Some v) /\
  (t < 0 -> now <= later ->
   fst (get later (set now (init (Some t)) key v) key) = None).
Proof.
  split; [reflexivity |]. split; [reflexivity |]. split; [reflexivity |].
  split; [| split].
  - intros Hne. unfold init. cbn. destruct (Z.eqb_spec t 0); [contradiction | reflexivity].
  - intros Hle.
    rewrite (CacheFacts.get_live later _ key {| value := v; timestamp := now |});
      [reflexivity | apply lookup_insert_eq | cbn; lia].
  - intros Hneg Hle.
    rewrite (CacheFacts.get_expired later _ key {| value := v; timestamp := now |});
      [reflexivity | apply lookup_insert_eq |].
    cbn. destruct (Z.eqb_spec t 0); lia.
Qed.

Lemma init_ttl_witness :
  ttl (init (Some 60)) = 60 /\
  fst (get 300 (set 0 (init (Some 0)) "k" (PyInt 1)) "k") = Some (PyInt 1) /\
  fst (get 7 (set 7 (init (Some (-1))) "k" (PyInt 1)) "k") = None.
Proof.
  destruct (init_ttl 60 0 300 "k" (PyInt 1)) as [_ [_ [_ [Hgiven [Hzero _]]]]].
  destruct (init_ttl (-1) 7 7 "k" (PyInt 1)) as [_ [_ [_ [_ [_ Hneg]]]]].
  split; [apply Hgiven; discriminate |].
  split; [apply Hzero; vm_compute; discriminate |].
  apply Hneg; [reflexivity | vm_compute; discriminate].
Defined.

End CacheMore.

(** ** The validators *)

Module ValidatorFacts.

Import Validators Spec Requests.

(** Case analysis on a character: the 256 of them. *)
Ltac each_char c :=
  destruct c as [[] [] [] [] [] [] [] []]; vm_compute; try reflexivity; try discriminate.

Lemma AZ09_upper c : is_AZ09 c = true -> upper_char c = c.
Proof. each_char c. Qed.

Lemma AZ09_not_space c : is_AZ09 c = true -> is_space c = false.
Proof. each_char c. Qed.

Lemma AZ09_not_newline c : is_AZ09 c = true -> Ascii.eqb c "010"%char = false.
Proof. each_char c. Qed.

Lemma upper_upper_char c : upper_char (upper_char c) = upper_char c.
Proof. each_char c. Qed.

Lemma upper_lower_char c : upper_char (lower_char c) = upper_char c.
Proof. each_char c. Qed.

Lemma space_upper_char c : is_space (upper_char c) = is_space c.
Proof. each_char c. Qed.

Lemma space_lower_char c : is_space (lower_char c) = is_space c.
Proof. each_char c. Qed.

Lemma not_space_upper_not_newline c :
  is_space c = false -> Ascii.eqb (upper_char c) "010"%char = false.
Proof. each_char c. Qed.

Lemma map_string_length f s : String.length (map_string f s) = String.length s.
Proof. induction s as [| c s IH]; cbn; [reflexivity | now rewrite IH]. Qed.

Lemma map_string_empty f s : map_string f s = "" <-> s = "".
Proof. destruct s; cbn; split; congruence. Qed.

(** Trimming and a letter-case conversion commute: the conversions move no
    character into or out of the white space. *)
Lemma lstrip_map f s :
  (forall c, is_space (f c) = is_space c) ->
  lstrip (map_string f s) = map_string f (lstrip s).
Proof.
  intros Hf. induction s as [| c s IH]; cbn; [reflexivity |].
  rewrite Hf. now destruct (is_space c).
Qed.

Lemma rstrip_map f s :
  (forall c, is_space (f c) = is_space c) ->
  rstrip (map_string f s) = map_string f (rstrip s).
Proof.
  intros Hf. induction s as [| c s IH]; cbn; [reflexivity |].
  rewrite IH, Hf. destruct (rstrip s); cbn; [now destruct (is_space c) | reflexivity].
Qed.

Lemma strip_map f s :
  (forall c, is_space (f c) = is_space c) ->
  strip (map_string f s) = map_string f (strip s).
Proof. intros Hf. unfold strip. now rewrite lstrip_map, rstrip_map. Qed.

Lemma map_string_compose f g h s :
  (forall c, f (g c) = h c) -> map_string f (map_string g s) = map_string h s.
Proof. intros Hfg. induction s as [| c s IH]; cbn; [reflexivity | now rewrite Hfg, IH]. Qed.

(** A string of uppercase letters and digits is its own normal form. *)
Lemma AZ09_lstrip s : forallb_string is_AZ09 s = true -> lstrip s = s.
Proof.
  destruct s as [| c s]; cbn; [reflexivity |].
  intros Hall. apply andb_prop in Hall. destruct Hall as [Hc _].
  now rewrite (AZ09_not_space c Hc).
Qed.

Lemma AZ09_rstrip s : forallb_string is_AZ09 s = true -> rstrip s = s.
Proof.
  induction s as [| c s IH]; cbn; [reflexivity |].
  intros Hall. apply andb_prop in Hall. destruct Hall as [Hc Hs].
  rewrite (IH Hs). destruct s; [| reflexivity].
  now rewrite (AZ09_not_space c Hc).
Qed.

Lemma AZ09_upper_string s : forallb_string is_AZ09 s = true -> upper s = s.
Proof.
  unfold upper. induction s as [| c s IH]; cbn; [reflexivity |].
  intros Hall. apply andb_prop in Hall. destruct Hall as [Hc Hs].
  now rewrite (AZ09_upper c Hc), (IH Hs).
Qed.

Lemma AZ09_chop_newline s : forallb_string is_AZ09 s = true -> chop_newline s = s.
Proof.
  induction s as [| c s IH]; [reflexivity |].
  intros Hall. cbn in Hall. apply andb_prop in Hall. destruct Hall as [Hc Hs].
  cbn [chop_newline]. destruct s as [| c' s'].
  - now rewrite (AZ09_not_newline c Hc).
  - now rewrite (IH Hs).
Qed.

Lemma AZ09_normalize s : forallb_string is_AZ09 s = true -> normalize s = s.
Proof.
  intros Hall. unfold normalize, strip.
  now rewrite (AZ09_lstrip s Hall), (AZ09_rstrip s Hall), (AZ09_upper_string s Hall).
Qed.

(** A trimmed string does not end in a line feed, uppercased or not. *)
Lemma chop_newline_upper_rstrip s :
  chop_newline (upper (rstrip s)) = upper (rstrip s).
Proof.
  unfold upper. induction s as [| c s IH]; [reflexivity |].
  cbn [rstrip]. destruct (rstrip s) as [| a r] eqn:Hr.
  - destruct (is_space c) eqn:Hc; [reflexivity |].
    cbn. now rewrite (not_space_upper_not_newline c Hc).
  - cbn [map_string] in *.
    change (chop_newline
              (String (upper_char c) (String (upper_char a) (map_string upper_char r))))
      with (String (upper_char c)
              (chop_newline (String (upper_char a) (map_string upper_char r)))).
    now rewrite IH.
Qed.

(** The two directions of the validation of a symbol. *)
Lemma validate_crypto_symbol_shape symbol validated :
  validate_crypto_symbol symbol = Ok validated ->
  validated = normalize symbol /\ well_formed_symbol validated.
Proof.
  unfold validate_crypto_symbol, well_formed_symbol, normalize, re_match_AZ09, strip.
  destruct (String.eqb symbol ""); [now intros |].
  rewrite chop_newline_upper_rstrip.
  destruct (String.eqb (upper (rstrip (lstrip symbol))) ""); [now intros |].
  cbn [negb andb].
  destruct (forallb_string is_AZ09 (upper (rstrip (lstrip symbol)))) eqn:Hall;
    [| now intros].
  cbn [negb].
  destruct (Z.ltb_spec (Z.of_nat (String.length (upper (rstrip (lstrip symbol))))) 1);
    [now intros |].
  destruct (Z.gtb_spec (Z.of_nat (String.length (upper (rstrip (lstrip symbol))))) 10);
    [now intros |].
  cbn [orb]. intros [= <-]. split; [reflexivity |]. split; [exact Hall | lia].
Qed.

Lemma validate_crypto_symbol_accepts symbol :
  well_formed_symbol (normalize symbol) ->
  validate_crypto_symbol symbol = Ok (normalize symbol).
Proof.
  intros [Hall Hlen].
  unfold validate_crypto_symbol, re_match_AZ09.
  change (upper (strip symbol)) with (normalize symbol).
  destruct (String.eqb_spec symbol "") as [-> | _]; [cbn in Hlen; lia |].
  rewrite (AZ09_chop_newline _ Hall), Hall.
  destruct (String.eqb_spec (normalize symbol) "") as [Hempty | _];
    [rewrite Hempty in Hlen; cbn in Hlen; lia |].
  cbn [negb andb].
  destruct (Z.ltb_spec (Z.of_nat (String.length (normalize symbol))) 1); [lia |].
  destruct (Z.gtb_spec (Z.of_nat (String.length (normalize symbol))) 10); [lia |].
  reflexivity.
Qed.

Lemma validate_crypto_symbol_raises symbol e :
  validate_crypto_symbol symbol = Raise e -> exists msg, e = ValueError msg.
Proof.
  unfold validate_crypto_symbol.
  destruct (String.eqb symbol ""); [intros [= <-]; eauto |].
  destruct (negb _); [intros [= <-]; eauto |].
  destruct (_ || _); [intros [= <-]; eauto | now intros].
Qed.

(** X6: [validate_crypto_symbol] accepts a symbol exactly when, trimmed and
    uppercased, it is 1 to 10 characters long and made of letters and
    digits only, and then it returns that normal form; every other symbol
    is rejected with a [ValueError]. *)
Theorem validate_crypto_symbol_spec (symbol : string) :
  (forall validated,
     validate_crypto_symbol symbol = Ok validated <->
     validated = normalize symbol /\ well_formed_symbol validated) /\
  (~ well_formed_symbol (normalize symbol) ->
   exists msg, validate_crypto_symbol symbol = Raise (ValueError msg)).
Proof.
  split.
  - intros validated. split; [apply validate_crypto_symbol_shape |].
    intros [-> Hwf]. now apply validate_crypto_symbol_accepts.
  - intros Hbad. destruct (validate_crypto_symbol symbol) as [validated | e] eqn:Hv.
    + apply validate_crypto_symbol_shape in Hv. destruct Hv as [-> Hwf]. contradiction.
    + apply validate_crypto_symbol_raises in Hv. destruct Hv as [msg ->]. now exists msg.
Qed.

Lemma validate_crypto_symbol_spec_witness :
  validate_crypto_symbol "  eth " = Ok "ETH" /\
  exists msg, validate_crypto_symbol "TOOLONGSYMBOL123" = Raise (ValueError msg).
Proof.
  destruct (validate_crypto_symbol_spec "  eth ") as [Hiff _].
  destruct (validate_crypto_symbol_spec "TOOLONGSYMBOL123") as [_ Hbad].
  split.
  - apply Hiff. split; [reflexivity |]. split; [reflexivity | cbn; lia].
  - apply Hbad. intros [_ Hlen]. vm_compute in Hlen. lia.
Defined.

(** X7: validation is idempotent, and on a symbol of ASCII characters it is
    blind to letter case: a validated symbol validates to itself, and an
    ASCII symbol validates like its lowercase and its uppercase forms. *)
Theorem validate_crypto_symbol_stable (symbol : string) :
  (forall validated,
     validate_crypto_symbol symbol = Ok validated ->
     validate_crypto_symbol validated = Ok validated) /\
  (ascii_only symbol ->
   validate_crypto_symbol (lower symbol) = validate_crypto_symbol symbol /\
   validate_crypto_symbol (upper symbol) = validate_crypto_symbol symbol).
Proof.
  split; [| intros _; split].
  - intros validated Hv. apply validate_crypto_symbol_shape in Hv.
    destruct Hv as [_ Hwf]. pose proof Hwf as [Hall _].
    rewrite <- (AZ09_normalize validated Hall) at 2.
    apply validate_crypto_symbol_accepts. now rewrite (AZ09_normalize validated Hall).
  - unfold validate_crypto_symbol.
    assert (Hn : upper (strip (lower symbol)) = upper (strip symbol)).
    { unfold lower, upper. rewrite (strip_map _ _ space_lower_char).
      apply map_string_compose, upper_lower_char. }
    rewrite Hn. destruct symbol; reflexivity.
  - unfold validate_crypto_symbol.
    assert (Hn : upper (strip (upper symbol)) = upper (strip symbol)).
    { unfold upper. rewrite (strip_map _ _ space_upper_char).
      apply map_string_compose, upper_upper_char. }
    rewrite Hn. destruct symbol; reflexivity.
Qed.

Lemma validate_crypto_symbol_stable_witness :
  validate_crypto_symbol "BTC" = Ok "BTC" /\
  validate_crypto_symbol (lower " Btc") = validate_crypto_symbol " Btc".
Proof.
  destruct (validate_crypto_symbol_stable " Btc") as [Hidem Hcase].
  split; [apply Hidem; reflexivity | exact (proj1 (Hcase eq_refl))].
Defined.

(** X8: [validate_currency] accepts a code exactly when, trimmed and
    uppercased, it is one of the ten supported currencies, and returns that
    form; anything else is a [ValueError]. The six currencies of the enum
    [Currency] of the models are all among the ten. *)
Theorem validate_currency_spec (currency : string) :
  (forall validated,
     validate_currency currency = Ok validated <->
     validated = upper (strip currency) /\ In validated supported_currencies) /\
  (~ In (upper (strip currency)) supported_currencies ->
   exists msg, validate_currency currency = Raise (ValueError msg)) /\
  (forall c : Models.Currency, In (Models.Currency_value c) supported_currencies).
Proof.
  assert (Hin : forall c, existsb (String.eqb c) supported_currencies = true <->
                          In c supported_currencies).
  { intros c. rewrite existsb_exists. split.
    - intros [x [Hx Heq]]. apply String.eqb_eq in Heq. now subst.
    - intros Hc. exists c. split; [exact Hc | apply String.eqb_refl]. }
  split; [| split].
  - intros validated. unfold validate_currency.
    destruct (String.eqb_spec currency "") as [-> | _].
    + split; [now intros |]. intros [-> Hc]. vm_compute in Hc. intuition discriminate.
    + destruct (existsb _ supported_currencies) eqn:Hex; cbn [negb].
      * apply Hin in Hex. split; [now intros [= <-] | now intros [-> _]].
      * split; [now intros |]. intros [-> Hc]. apply Hin in Hc. congruence.
  - intros Hbad. unfold validate_currency.
    destruct (String.eqb currency ""); [eauto |].
    destruct (existsb _ supported_currencies) eqn:Hex; cbn [negb]; [| eauto].
    apply Hin in Hex. contradiction.
  - intros c. destruct c; vm_compute; tauto.
Qed.

Lemma validate_currency_spec_witness :
  validate_currency " eur" = Ok "EUR" /\
  exists msg, validate_currency "XYZ" = Raise (ValueError msg).
Proof.
  destruct (validate_currency_spec " eur") as [Hiff _].
  destruct (validate_currency_spec "XYZ") as [_ [Hbad _]].
  split.
  - apply Hiff. split; [reflexivity | vm_compute; tauto].
  - apply Hbad. vm_compute. intuition discriminate.
Defined.

(** [validate_limit] returns the limit itself exactly when it lies between
    1 and the maximum, and raises a [ValueError] otherwise. *)
Lemma validate_limit_bounds (limit max_limit : Z) :
  (forall validated,
     validate_limit limit max_limit = Ok validated <->
     validated = limit /\ 1 <= limit <= max_limit) /\
  (~ 1 <= limit <= max_limit ->
   exists msg, validate_limit limit max_limit = Raise (ValueError msg)).
Proof.
  unfold validate_limit.
  destruct (Z.ltb_spec limit 1); [| destruct (Z.gtb_spec limit max_limit)].
  - split; [intros v; split; [now intros | intros [_ ?]; lia] | eauto].
  - split; [intros v; split; [now intros | intros [_ ?]; lia] | eauto].
  - split; [| intros ?; lia].
    intros v. split; [intros [= <-]; split; [reflexivity | lia] | now intros [-> _]].
Qed.

(** The loop over the symbols. *)
Lemma validate_each_accepts symbols validated_symbols :
  Forall (fun symbol => well_formed_symbol (normalize symbol)) symbols ->
  validate_each symbols validated_symbols = Ok (validated_symbols ++ map normalize symbols).
Proof.
  intros Hall. revert validated_symbols.
  induction Hall as [| symbol symbols Hwf _ IH]; intros acc; cbn [validate_each map].
  - now rewrite app_nil_r.
  - rewrite (validate_crypto_symbol_accepts symbol Hwf), IH. now rewrite <- app_assoc.
Qed.

Lemma validate_each_Ok symbols validated_symbols result :
  validate_each symbols validated_symbols = Ok result ->
  Forall (fun symbol => well_formed_symbol (normalize symbol)) symbols /\
  result = validated_symbols ++ map normalize symbols.
Proof.
  revert validated_symbols.
  induction symbols as [| symbol symbols IH]; intros acc; cbn [validate_each map].
  - intros [= <-]. split; [constructor | now rewrite app_nil_r].
  - destruct (validate_crypto_symbol symbol) as [validated | e] eqn:Hv.
    + apply validate_crypto_symbol_shape in Hv. destruct Hv as [-> Hwf].
      intros Hrest. apply IH in Hrest. destruct Hrest as [Hall ->].
      split; [now constructor | now rewrite <- app_assoc].
    + now destruct e.
Qed.

Lemma validate_each_first_invalid good bad rest validated_symbols msg :
  Forall (fun symbol => well_formed_symbol (normalize symbol)) good ->
  validate_crypto_symbol bad = Raise (ValueError msg) ->
  validate_each (good ++ bad :: rest) validated_symbols
  = Raise (ValueError ("Invalid symbol '" +:+ bad +:+ "': " +:+ msg)).
Proof.
  intros Hgood Hbad. revert validated_symbols.
  induction Hgood as [| symbol good Hwf _ IH]; intros acc; cbn [validate_each app].
  - now rewrite Hbad.
  - now rewrite (validate_crypto_symbol_accepts symbol Hwf), IH.
Qed.

(** X9: [validate_crypto_symbols] accepts a list exactly when it has 1 to
    50 symbols and each of them is valid; it returns their normal forms, in
    order. *)
Theorem validate_crypto_symbols_spec (symbols result : list string) :
  validate_crypto_symbols symbols = Ok result <->
  (1 <= length symbols <= 50)%nat /\
  Forall (fun symbol => well_formed_symbol (normalize symbol)) symbols /\
  result = map normalize symbols.
Proof.
  unfold validate_crypto_symbols. destruct symbols as [| symbol symbols].
  - split; [now intros |]. intros [Hlen _]. cbn in Hlen. lia.
  - destruct (Z.gtb_spec (Z.of_nat (length (symbol :: symbols))) 50) as [Hlong | Hok].
    + split; [now intros |]. intros [Hlen _]. lia.
    + split.
      * intros Hv. apply validate_each_Ok in Hv. destruct Hv as [Hall ->].
        split; [cbn [length] in *; lia | now split].
      * intros [_ [Hall ->]]. now rewrite (validate_each_accepts _ [] Hall).
Qed.

Lemma validate_crypto_symbols_spec_witness :
  validate_crypto_symbols ["btc"; " Eth "] = Ok ["BTC"; "ETH"].
Proof.
  apply validate_crypto_symbols_spec. split; [cbn; lia |]. split; [| reflexivity].
  repeat constructor.
Defined.

(** X10: when a list of 1 to 50 symbols holds an invalid one, the error of
    [validate_crypto_symbols] names the first invalid symbol and carries the
    message of its rejection; an empty list and a list of more than 50
    symbols are rejected before any symbol is looked at. *)
Theorem validate_crypto_symbols_first_invalid
    (good : list string) (bad : string) (rest : list string) (msg : string) :
  Forall (fun symbol => well_formed_symbol (normalize symbol)) good ->
  validate_crypto_symbol bad = Raise (ValueError msg) ->
  ((length (good ++ bad :: rest) <= 50)%nat ->
   validate_crypto_symbols (good ++ bad :: rest)
   = Raise (ValueError ("Invalid symbol '" +:+ bad +:+ "': " +:+ msg))) /\
  ((50 < length (good ++ bad :: rest))%nat ->
   validate_crypto_symbols (good ++ bad :: rest)
   = Raise (ValueError "Cannot request more than 50 symbols at once")) /\
  validate_crypto_symbols [] = Raise (ValueError "Symbols must be a non-empty list").
Proof.
  intros Hgood Hbad. unfold validate_crypto_symbols.
  destruct (good ++ bad :: rest) as [| s l] eqn:Hl;
    [destruct good; discriminate |].
  rewrite <- Hl.
  destruct (Z.gtb_spec (Z.of_nat (length (good ++ bad :: rest))) 50) as [Hlong | Hok].
  - split; [intros ?; lia | now split].
  - split; [| split; [intros ?; lia | reflexivity]].
    intros _. now apply validate_each_first_invalid.
Qed.

Lemma validate_crypto_symbols_first_invalid_witness :
  validate_crypto_symbols ["btc"; "e-th"; "!"]
  = Raise (ValueError "Invalid symbol 'e-th': Symbol must contain only letters and numbers").
Proof.
  destruct (validate_crypto_symbols_first_invalid ["btc"] "e-th" ["!"]
              "Symbol must contain only letters and numbers") as [Hfirst _].
  - repeat constructor.
  - reflexivity.
  - apply Hfirst. cbn. lia.
Defined.

End ValidatorFacts.

(** ** More on the gateway: fetching, failing, keys *)

Module GatewayMore.

Import Upstream Proc Service Spec Requests.

Lemma str_in_app_r needle a b : str_in needle b = true -> str_in needle (a +:+ b) = true.
Proof.
  intros Hb. induction a as [| c a IH]; [exact Hb |].
  change (String c a +:+ b) with (String c (a +:+ b)). cbn [str_in].
  rewrite IH. apply orb_true_r.
Qed.

Lemma not_found_message symbol :
  str_in "not found" (lower ("Cryptocurrency '" +:+ symbol +:+ "' not found")) = true.
Proof.
  rewrite !MainFacts.lower_app. do 2 apply str_in_app_r. reflexivity.
Qed.

Lemma network_error_plain msg : plain msg -> plain ("Network error: " +:+ msg).
Proof.
  unfold plain, keywords. intros Hplain.
  inversion Hplain as [| ? ? Hnf Hrest]; subst.
  inversion Hrest as [| ? ? Hun Hrest']; subst.
  inversion Hrest' as [| ? ? Hrl _]; subst.
  rewrite MainFacts.lower_app.
  change (lower "Network error: ") with "network error: ".
  cbv beta iota delta [String.append].
  repeat constructor; cbn; assumption.
Qed.

Section WithLibrary.

Context `{Library}.

(** An operation other than the search, past its cache check: one request,
    then the payload stored and returned, or the exception let out. *)
Lemma direct_miss op w :
  direct op = true ->
  miss op w =
  match classify (outcome (provider w (sent w) (request_of op))) with
  | Ok result =>
      (Ok result,
       {| cache := Cache.set (clock (answered w (request_of op))) (cache w) (key_of op) result;
          clock := clock (answered w (request_of op));
          provider := provider w;
          sent := sent w ++ [request_of op] |})
  | Raise e => (Raise (surfaced op e), answered w (request_of op))
  end.
Proof.
  destruct op; try discriminate; intros _; unfold miss, request_of, key_of, surfaced.
  - unfold get_single_coin_miss, try_except, bind, cache_set, ret, lift, raise.
    rewrite GatewayFacts.make_request_run.
    destruct (classify _) as [result | e]; [reflexivity |].
    destruct e; try reflexivity.
    now destruct (str_in "not found" (lower msg)).
  - unfold get_coins_list_miss, bind, cache_set, ret, lift.
    rewrite GatewayFacts.make_request_run. now destruct (classify _).
  - unfold get_market_overview_miss, bind, cache_set, ret, lift.
    rewrite GatewayFacts.make_request_run. now destruct (classify _).
Qed.

(** The same from the call of the operation, when its check finds no hit. *)
Lemma direct_run op w :
  direct op = true ->
  if_truthy (Cache.visible (clock w) (cache w) (key_of op)) = None ->
  run op w =
  miss op {| cache := snd (Cache.get (clock w) (cache w) (key_of op)); clock := clock w;
             provider := provider w; sent := sent w |}.
Proof.
  intros _ Hmiss. rewrite GatewayFacts.run_check. unfold Cache.visible in Hmiss.
  now rewrite Hmiss.
Qed.

Lemma get_other_key now self key key' :
  key' <> key ->
  Cache._cache (snd (Cache.get now self key)) !! key' = Cache._cache self !! key'.
Proof.
  intros Hne. unfold Cache.get. destruct (Cache._cache self !! key) as [e |]; [| reflexivity].
  destruct (Cache.expired self now e); [| reflexivity].
  cbn. now apply lookup_delete_ne.
Qed.

Lemma expired_misses w key e :
  Cache._cache (cache w) !! key = Some e ->
  Cache.expired (cache w) (clock w) e = true ->
  Cache.get (clock w) (cache w) key
  = (None, {| Cache.ttl := Cache.ttl (cache w);
              Cache._cache := delete key (Cache._cache (cache w)) |}).
Proof. intros Hk Hexp. unfold Cache.get. now rewrite Hk, Hexp. Qed.

(** X11: an operation other than the search whose cache check finds no hit
    sends exactly one request, the one of its parameters; when the provider
    answers 200 with a JSON body, the operation returns that body as it is
    and stores it under its key, stamped with the time of the answer,
    without touching any other key. *)
Theorem miss_fetches_and_stores (op : operation) (w : World) (result : pyval) :
  direct op = true ->
  if_truthy (Cache.visible (clock w) (cache w) (key_of op)) = None ->
  outcome (provider w (sent w) (request_of op)) = Response 200 (Json result) ->
  fst (run op w) = Ok result /\
  sent (snd (run op w)) = sent w ++ [request_of op] /\
  clock (snd (run op w)) = clock w + elapsed (provider w (sent w) (request_of op)) /\
  Cache._cache (cache (snd (run op w))) !! key_of op
    = Some {| Cache.value := result; Cache.timestamp := clock (snd (run op w)) |} /\
  (forall key, key <> key_of op ->
     Cache._cache (cache (snd (run op w))) !! key = Cache._cache (cache w) !! key).
Proof.
  intros Hdirect Hmiss Hreply.
  rewrite (direct_run op w Hdirect Hmiss), (direct_miss _ _ Hdirect). cbn [sent provider].
  rewrite Hreply. cbn [classify Z.eqb Pos.eqb json fst snd sent clock cache].
  repeat split.
  - cbn. apply lookup_insert_eq.
  - intros key Hne. cbn. rewrite lookup_insert_ne by congruence.
    now apply get_other_key.
Qed.

(** X12: an entry whose TTL has run out counts as absent: an operation
    other than the search that finds one under its key sends exactly one
    request; a 200 with a JSON body replaces the entry by the new payload
    with a new timestamp, and any failure of the request leaves the key
    empty, the expired entry is not put back. *)
Theorem expired_entry_is_fetched_again (op : operation) (w : World) (e : Cache.CacheEntry) :
  direct op = true ->
  Cache._cache (cache w) !! key_of op = Some e ->
  Cache.expired (cache w) (clock w) e = true ->
  sent (snd (run op w)) = sent w ++ [request_of op] /\
  (forall result,
     outcome (provider w (sent w) (request_of op)) = Response 200 (Json result) ->
     fst (run op w) = Ok result /\
     Cache._cache (cache (snd (run op w))) !! key_of op
       = Some {| Cache.value := result;
                 Cache.timestamp := clock w + elapsed (provider w (sent w) (request_of op)) |}) /\
  (forall err, fst (run op w) = Raise err ->
     Cache._cache (cache (snd (run op w))) !! key_of op = None).
Proof.
  intros Hdirect Hk Hexp.
  assert (Hmiss : if_truthy (Cache.visible (clock w) (cache w) (key_of op)) = None)
    by (unfold Cache.visible; now rewrite (expired_misses _ _ _ Hk Hexp)).
  rewrite (direct_run op w Hdirect Hmiss), (direct_miss _ _ Hdirect).
  rewrite (expired_misses _ _ _ Hk Hexp). cbn [sent provider snd].
  split; [now destruct (classify _) |]. split.
  - intros result Hreply. rewrite Hreply.
    cbn [classify Z.eqb Pos.eqb json fst snd]. split; [reflexivity |].
    cbn. apply lookup_insert_eq.
  - intros err. destruct (classify _) as [result | e0]; [now intros |].
    intros _. cbn. apply lookup_delete_eq.
Qed.

(** X13: an upstream 404 is a "not found" for the caller: every operation
    other than the search, on a miss, raises a domain error that the
    exception handler answers with HTTP 404; the single lookup names the
    requested symbol in its message, whatever the upstream message was. *)
Theorem upstream_404_is_not_found (op : operation) (w : World) (content : Body) :
  direct op = true ->
  if_truthy (Cache.visible (clock w) (cache w) (key_of op)) = None ->
  outcome (provider w (sent w) (request_of op)) = Response 404 content ->
  Main.http_status (fst (run op w)) = 404 /\
  (forall symbol currency, op = SingleCoin symbol currency ->
     fst (run op w)
     = Raise (LiveCoinWatchError ("Cryptocurrency '" +:+ symbol +:+ "' not found"))) /\
  ((forall symbol currency, op <> SingleCoin symbol currency) ->
     fst (run op w) = Raise (LiveCoinWatchError "Endpoint not found")).
Proof.
  intros Hdirect Hmiss Hreply.
  rewrite (direct_run op w Hdirect Hmiss), (direct_miss _ _ Hdirect). cbn [sent provider].
  rewrite Hreply. cbn [classify Z.eqb Pos.eqb fst].
  destruct op as [symbol currency | | |]; try discriminate; cbn [surfaced].
  - change (str_in "not found" (lower "Endpoint not found")) with true. cbn iota.
    split; [| split].
    + cbn [Main.http_status]. unfold Main.livecoinwatch_exception_handler.
      now rewrite not_found_message.
    + now intros ? ? [= <- <-].
    + intros Hne. now destruct (Hne symbol currency).
  - split; [reflexivity |]. split; [now intros | reflexivity].
  - split; [reflexivity |]. split; [now intros | reflexivity].
Qed.

(** X14: a request that times out, or fails in the network with a message
    that contains none of the phrases the exception handler looks for, comes
    out of every operation other than the search as a domain error answered
    with HTTP 502, after exactly one request. *)
Theorem transport_failure_is_502 (op : operation) (w : World) :
  direct op = true ->
  if_truthy (Cache.visible (clock w) (cache w) (key_of op)) = None ->
  sent (snd (run op w)) = sent w ++ [request_of op] /\
  (outcome (provider w (sent w) (request_of op)) = TimeoutException ->
   fst (run op w) = Raise (LiveCoinWatchError "Request timeout - API may be unavailable") /\
   Main.http_status (fst (run op w)) = 502) /\
  (forall msg,
     outcome (provider w (sent w) (request_of op)) = RequestError msg -> plain msg ->
     fst (run op w) = Raise (LiveCoinWatchError ("Network error: " +:+ msg)) /\
     Main.http_status (fst (run op w)) = 502).
Proof.
  intros Hdirect Hmiss.
  rewrite (direct_run op w Hdirect Hmiss), (direct_miss _ _ Hdirect). cbn [sent provider].
  split; [now destruct (classify _) |]. split.
  - intros Hreply. rewrite Hreply. cbn [classify fst].
    destruct op; try discriminate; split; reflexivity.
  - intros msg Hreply Hplain. rewrite Hreply. cbn [classify fst].
    pose proof (network_error_plain msg Hplain) as Hfull.
    assert (Hnf : str_in "not found" (lower ("Network error: " +:+ msg)) = false)
      by now inversion Hfull.
    assert (Hsurf : surfaced op (LiveCoinWatchError ("Network error: " +:+ msg))
                    = LiveCoinWatchError ("Network error: " +:+ msg))
      by (destruct op; cbn [surfaced]; try reflexivity; now rewrite Hnf).
    rewrite Hsurf. split; [reflexivity |].
    cbn [Main.http_status]. now apply MainFacts.plain_status.
Qed.

End WithLibrary.

Import Run.

Lemma miss_fetches_and_stores_witness :
  let w := boot (always (Response 200 (Json (PyList []))) 2) 1000 in
  fst (run (CoinsList "USD" 20 100000) w) = Ok (PyList []) /\
  sent (snd (run (CoinsList "USD" 20 100000) w)) = [listing_request "USD" 20 100000] /\
  clock (snd (run (CoinsList "USD" 20 100000) w)) = 1002.
Proof.
  intros w.
  destruct (miss_fetches_and_stores (CoinsList "USD" 20 100000) w (PyList []))
    as [Hres [Hsent [Hclock _]]]; try reflexivity.
  split; [exact Hres | split; [exact Hsent | exact Hclock]].
Defined.

Lemma expired_entry_is_fetched_again_witness :
  sent (snd (run (SingleCoin "BTC" "USD") stale))
    = [request_of (SingleCoin "BTC" "USD")] /\
  Cache._cache (cache (snd (run (SingleCoin "BTC" "USD") stale)))
    !! key_of (SingleCoin "BTC" "USD") = None.
Proof.
  destruct (expired_entry_is_fetched_again (SingleCoin "BTC" "USD") stale
              {| Cache.value := btc; Cache.timestamp := 0 |})
    as [Hsent [_ Hfail]]; try reflexivity.
  split; [exact Hsent |].
  apply (Hfail (LiveCoinWatchError "API error (500): Unknown error")). reflexivity.
Defined.

Lemma upstream_404_is_not_found_witness :
  let w := boot (always (Response 404 NoContent) 1) 1000 in
  fst (run (SingleCoin "NOPE" "USD") w)
    = Raise (LiveCoinWatchError "Cryptocurrency 'NOPE' not found") /\
  Main.http_status (fst (run (SingleCoin "NOPE" "USD") w)) = 404.
Proof.
  intros w.
  destruct (upstream_404_is_not_found (SingleCoin "NOPE" "USD") w NoContent)
    as [Hstatus [Hname _]]; try reflexivity.
  split; [exact (Hname "NOPE" "USD" eq_refl) | exact Hstatus].
Defined.

Lemma transport_failure_is_502_witness :
  let w := boot (always TimeoutException 10) 1000 in
  Main.http_status (fst (run (MarketOverview "USD") w)) = 502 /\
  clock (snd (run (MarketOverview "USD") w)) = 1010.
Proof.
  intros w.
  destruct (transport_failure_is_502 (MarketOverview "USD") w) as [_ [Htimeout _]];
    try reflexivity.
  split; [exact (proj2 (Htimeout eq_refl)) | reflexivity].
Defined.

End GatewayMore.

(** ** More on the search *)

Module SearchMore.

Import Upstream Proc Service Spec Requests.

Lemma lower_upper_char c : lower_char (upper_char c) = lower_char c.
Proof. ValidatorFacts.each_char c. Qed.

Lemma lower_upper query : lower (upper query) = lower query.
Proof. unfold lower, upper. apply ValidatorFacts.map_string_compose, lower_upper_char. Qed.

Lemma str_in_empty hay : str_in "" hay = true.
Proof. now destruct hay. Qed.

(** Appending the same tail to two strings of the same length tells them
    apart as before. *)
Lemma append_same_length a a' r r' :
  String.length a = String.length a' -> a +:+ r = a' +:+ r' -> a = a'.
Proof.
  revert a'. induction a as [| c a IH]; intros [| c' a']; cbn [String.length]; try discriminate.
  - reflexivity.
  - intros Hlen Heq.
    change (String c (a +:+ r) = String c' (a' +:+ r')) in Heq.
    injection Heq as -> Heq. f_equal. apply IH; [lia | exact Heq].
Qed.

Section WithLibrary.

Context `{Library}.

(** The result of a search that finds no hit under its key is the result of
    its loop over the listing that [get_coins_list] returns in the world of
    the call. *)
Lemma search_coins_outcome query currency limit w coins :
  if_truthy (Cache.visible (clock w) (cache w) (search_key query currency limit)) = None ->
  fst (get_coins_list currency 200 0 w) = Ok (PyList coins) ->
  fst (search_coins query currency limit w)
  = match search_loop (lower query) limit coins [] with
    | Ok found => Ok (PyList found)
    | Raise e => Raise e
    end.
Proof.
  intros Hmiss Hlist.
  rewrite (GatewayFacts.search_coins_run query currency limit w Hmiss).
  destruct (GatewayFacts.get_coins_list_frame currency 200 0 w
              (snd (cache_get (search_key query currency limit) w)))
    as [Hfst _]; try (rewrite GatewayFacts.cache_get_run; reflexivity).
  { rewrite GatewayFacts.cache_get_run. cbn [snd cache]. apply GatewayFacts.get_after_get.
    apply GatewayFacts.search_key_not_coins_list_key. }
  rewrite Hlist in Hfst.
  unfold search_coins_miss, bind, lift, cache_set, ret.
  destruct (get_coins_list currency 200 0
              (snd (cache_get (search_key query currency limit) w))) as [r w1].
  cbn [fst] in Hfst. rewrite Hfst. cbn [iter].
  now destruct (search_loop (lower query) limit coins []).
Qed.

(** With a limit below 1 the loop still stops only after its first match. *)
Lemma search_loop_nonpositive query limit coins matching_coins :
  limit <= 0 -> Forall entry coins ->
  search_loop (lower query) limit coins matching_coins =
  Ok (matching_coins ++ take 1 (List.filter (entry_matches query) coins)).
Proof.
  intros Hlimit Hall. revert matching_coins.
  induction Hall as [| coin coins Hcoin _ IH]; intros acc; cbn [search_loop List.filter].
  - now rewrite app_nil_r.
  - rewrite (GatewayFacts.coin_matches_entry _ _ Hcoin). cbn [rbind].
    destruct (entry_matches query coin); [| apply IH].
    destruct (Z.geb_spec (Z.of_nat (length (acc ++ [coin]))) limit); [reflexivity | lia].
Qed.

(** X15: the limit is checked after a match has been appended, so a search
    with a limit of 0 or less does not return an empty result: it returns
    the first matching entry of the listing, if there is one. *)
Theorem search_with_nonpositive_limit
    (query currency : string) (limit : Z) (w : World) (coins : list pyval) :
  limit <= 0 ->
  if_truthy (Cache.visible (clock w) (cache w) (search_key query currency limit)) = None ->
  fst (get_coins_list currency 200 0 w) = Ok (PyList coins) ->
  Forall entry coins ->
  fst (search_coins query currency limit w)
  = Ok (PyList (take 1 (List.filter (entry_matches query) coins))).
Proof.
  intros Hlimit Hmiss Hlist Hall.
  rewrite (search_coins_outcome _ _ _ _ _ Hmiss Hlist).
  now rewrite (search_loop_nonpositive query limit coins [] Hlimit Hall).
Qed.

(** X16: the search does not depend on the letter case of a query of ASCII
    characters: the uppercased query gives the same result and sends the
    same requests; but the cache key is built from the query as typed, so
    the two searches are cached under different keys whenever the query has
    a lowercase letter. *)
Theorem search_ignores_case (query currency : string) (limit : Z) (w : World) :
  ascii_only query ->
  if_truthy (Cache.visible (clock w) (cache w) (search_key query currency limit)) = None ->
  if_truthy (Cache.visible (clock w) (cache w) (search_key (upper query) currency limit))
    = None ->
  fst (search_coins (upper query) currency limit w) = fst (search_coins query currency limit w) /\
  sent (snd (search_coins (upper query) currency limit w))
    = sent (snd (search_coins query currency limit w)) /\
  (upper query <> query ->
   search_key (upper query) currency limit <> search_key query currency limit).
Proof.
  intros _ Hmiss Hmiss'.
  rewrite (GatewayFacts.search_coins_run query currency limit w Hmiss).
  rewrite (GatewayFacts.search_coins_run (upper query) currency limit w Hmiss').
  assert (Hframe : forall q,
             fst (get_coins_list currency 200 0 (snd (cache_get (search_key q currency limit) w)))
               = fst (get_coins_list currency 200 0 w) /\
             sent (snd (get_coins_list currency 200 0
                          (snd (cache_get (search_key q currency limit) w))))
               = sent (snd (get_coins_list currency 200 0 w))).
  { intros q. apply GatewayFacts.get_coins_list_frame;
      try (rewrite GatewayFacts.cache_get_run; reflexivity).
    rewrite GatewayFacts.cache_get_run. cbn [snd cache]. apply GatewayFacts.get_after_get.
    apply GatewayFacts.search_key_not_coins_list_key. }
  destruct (Hframe query) as [Hfst Hsent]. destruct (Hframe (upper query)) as [Hfst' Hsent'].
  split; [| split].
  - unfold search_coins_miss, bind, lift, cache_set, ret. rewrite lower_upper.
    destruct (get_coins_list currency 200 0
                (snd (cache_get (search_key query currency limit) w))) as [r1 w1].
    destruct (get_coins_list currency 200 0
                (snd (cache_get (search_key (upper query) currency limit) w))) as [r2 w2].
    cbn [fst] in Hfst, Hfst'. rewrite Hfst, Hfst'.
    destruct (fst (get_coins_list currency 200 0 w)) as [coins_data | e]; [| reflexivity].
    destruct (iter coins_data) as [coins | e]; [| reflexivity].
    now destruct (search_loop (lower query) limit coins []).
  - rewrite !GatewayFacts.search_coins_miss_sent. congruence.
  - intros Hne Hkey. apply Hne. unfold search_key in Hkey.
    change ("search_" +:+ ?x) with (String "s" (String "e" (String "a" (String "r"
              (String "c" (String "h" (String "_" x))))))) in Hkey.
    injection Hkey as Hkey.
    apply (append_same_length _ _ _ _ (ValidatorFacts.map_string_length _ _) Hkey).
Qed.

(** X17: the empty query matches every entry, so a search for it returns
    the first [limit] entries of the listing. *)
Theorem search_for_empty_query
    (currency : string) (limit : Z) (w : World) (coins : list pyval) :
  1 <= limit ->
  if_truthy (Cache.visible (clock w) (cache w) (search_key "" currency limit)) = None ->
  fst (get_coins_list currency 200 0 w) = Ok (PyList coins) ->
  Forall entry coins ->
  fst (search_coins "" currency limit w) = Ok (PyList (take (Z.to_nat limit) coins)).
Proof.
  intros Hlimit Hmiss Hlist Hall.
  rewrite (search_coins_outcome _ _ _ _ _ Hmiss Hlist).
  rewrite (GatewayFacts.search_loop_spec "" limit coins [] Hall) by (cbn; lia).
  assert (Hevery : List.filter (entry_matches "") coins = coins).
  { clear. induction coins as [| coin coins IH]; [reflexivity |].
    cbn [List.filter]. unfold entry_matches at 1. cbn [lower map_string].
    rewrite str_in_empty. cbn [orb]. now rewrite IH. }
  rewrite Hevery. cbn [app length]. now rewrite Nat.sub_0_r.
Qed.

(** X18: a search fills two cache entries. When neither the search key nor
    the listing key gives a hit and the provider answers 200 with a listing
    that is not empty, the search sends the one listing request, stores the
    listing under the key of [get_coins_list(currency, 200, 0)] and its own
    matches under the search key; a listing call for the same currency, 200
    and 0 right after it is served from the cache and sends nothing. *)
Theorem search_warms_the_listing_cache
    (query currency : string) (limit : Z) (w : World) (coin : pyval) (coins : list pyval) :
  0 <= Cache.ttl (cache w) ->
  1 <= limit ->
  if_truthy (Cache.visible (clock w) (cache w) (search_key query currency limit)) = None ->
  if_truthy (Cache.visible (clock w) (cache w) (coins_list_key currency 200 0)) = None ->
  outcome (provider w (sent w) (listing_request currency 200 0))
    = Response 200 (Json (PyList (coin :: coins))) ->
  Forall entry (coin :: coins) ->
  sent (snd (search_coins query currency limit w)) = sent w ++ [listing_request currency 200 0] /\
  live (snd (search_coins query currency limit w)) (coins_list_key currency 200 0)
    (PyList (coin :: coins)) /\
  live (snd (search_coins query currency limit w)) (search_key query currency limit)
    (PyList (take (Z.to_nat limit) (List.filter (entry_matches query) (coin :: coins)))) /\
  get_coins_list currency 200 0 (snd (search_coins query currency limit w))
    = (Ok (PyList (coin :: coins)), snd (search_coins query currency limit w)).
Proof.
  intros Httl Hlimit Hmiss Hlmiss Hreply Hall.
  set (w0 := snd (cache_get (search_key query currency limit) w)).
  assert (Hw0 : clock w0 = clock w /\ provider w0 = provider w /\ sent w0 = sent w /\
                Cache.ttl (cache w0) = Cache.ttl (cache w))
    by (unfold w0; rewrite GatewayFacts.cache_get_run; cbn;
        repeat split; apply GatewayFacts.get_ttl).
  destruct Hw0 as [Hclock [Hprov [Hsent Httl0]]].
  assert (Hlmiss0 : if_truthy (Cache.visible (clock w0) (cache w0)
                                 (coins_list_key currency 200 0)) = None).
  { unfold Cache.visible, w0. rewrite GatewayFacts.cache_get_run. cbn [snd cache clock].
    rewrite GatewayFacts.get_after_get
      by apply GatewayFacts.search_key_not_coins_list_key.
    exact Hlmiss. }
  assert (Hreply0 : outcome (provider w0 (sent w0) (request_of (CoinsList currency 200 0)))
                    = Response 200 (Json (PyList (coin :: coins))))
    by (rewrite Hprov, Hsent; exact Hreply).
  assert (Hrun : search_coins query currency limit w
                 = search_coins_miss query currency limit w0)
    by now apply GatewayFacts.search_coins_run.
  assert (Hlist : get_coins_list currency 200 0 w0
                  = (Ok (PyList (coin :: coins)),
                     {| cache := Cache.set (clock (answered w0 (listing_request currency 200 0)))
                                   (snd (Cache.get (clock w0) (cache w0)
                                           (coins_list_key currency 200 0)))
                                   (coins_list_key currency 200 0) (PyList (coin :: coins));
                        clock := clock (answered w0 (listing_request currency 200 0));
                        provider := provider w0;
                        sent := sent w0 ++ [listing_request currency 200 0] |})).
  { change (get_coins_list currency 200 0 w0) with (run (CoinsList currency 200 0) w0).
    rewrite (GatewayMore.direct_run (CoinsList currency 200 0) w0 eq_refl Hlmiss0).
    rewrite (GatewayMore.direct_miss (CoinsList currency 200 0) _ eq_refl).
    cbn [sent provider clock cache].
    cbn [request_of] in Hreply0 |- *. rewrite Hreply0. reflexivity. }
  rewrite Hrun. unfold search_coins_miss, bind, lift, cache_set, ret.
  rewrite Hlist. cbn [iter].
  rewrite (GatewayFacts.search_loop_spec query limit (coin :: coins) [] Hall) by (cbn; lia).
  cbn [app length snd sent cache clock provider]. rewrite Nat.sub_0_r.
  set (t1 := clock (answered w0 (listing_request currency 200 0))).
  assert (Hlive : live
            {| cache := Cache.set t1
                          (Cache.set t1
                             (snd (Cache.get (clock w0) (cache w0)
                                     (coins_list_key currency 200 0)))
                             (coins_list_key currency 200 0) (PyList (coin :: coins)))
                          (search_key query currency limit)
                          (PyList (take (Z.to_nat limit)
                                     (List.filter (entry_matches query) (coin :: coins))));
               clock := t1; provider := provider w0;
               sent := sent w0 ++ [listing_request currency 200 0] |}
            (coins_list_key currency 200 0) (PyList (coin :: coins))).
  { exists {| Cache.value := PyList (coin :: coins); Cache.timestamp := t1 |}. cbn.
    split; [| split; [| reflexivity]].
    - rewrite lookup_insert_ne by apply GatewayFacts.search_key_not_coins_list_key.
      apply lookup_insert_eq.
    - unfold Cache.expired. cbn. rewrite Z.sub_diag, GatewayFacts.get_ttl.
      destruct (Z.gtb_spec 0 (Cache.ttl (cache w0))); [lia | reflexivity]. }
  split; [now rewrite Hsent |]. split; [exact Hlive |]. split.
  - exists {| Cache.value := PyList (take (Z.to_nat limit)
                                       (List.filter (entry_matches query) (coin :: coins)));
              Cache.timestamp := t1 |}. cbn.
    split; [apply lookup_insert_eq | split; [| reflexivity]].
    unfold Cache.expired. cbn. rewrite Z.sub_diag, GatewayFacts.get_ttl.
    destruct (Z.gtb_spec 0 (Cache.ttl (cache w0))); [lia | reflexivity].
  - apply (GatewayFacts.hit_returns (CoinsList currency 200 0)); [exact Hlive | reflexivity].
Qed.

End WithLibrary.

Import Run.

Lemma search_warms_the_listing_cache_witness :
  let w := boot (always (Response 200 (Json (PyList [btc]))) 1) 1000 in
  sent (snd (search_coins "zzz" "USD" 10 w)) = [listing_request "USD" 200 0] /\
  fst (get_coins_list "USD" 200 0 (snd (search_coins "zzz" "USD" 10 w))) = Ok (PyList [btc]).
Proof.
  intros w.
  destruct (search_warms_the_listing_cache "zzz" "USD" 10 w btc []) as [Hsent [_ [_ Hhit]]];
    try reflexivity; try (vm_compute; discriminate).
  - repeat constructor. exists [("code", PyStr "BTC"); ("name", PyStr "Bitcoin");
                               ("rate", PyFloat 45000.5); ("volume", PyFloat 2.5e10);
                               ("cap", PyFloat 8.5e11); ("rank", PyInt 1);
                               ("delta", PyDict [("day", PyFloat 0.975)])].
    split; [reflexivity |]. split; right; eexists; reflexivity.
  - split; [exact Hsent | now rewrite Hhit].
Defined.

Lemma search_with_nonpositive_limit_witness :
  let w := boot (always (Response 200 (Json (PyList listing200))) 1) 1000 in
  fst (search_coins "bit" "USD" 0 w) = Ok (PyList [coin "Bitcoin 5" "B5" 5]).
Proof.
  intros w.
  rewrite (search_with_nonpositive_limit "bit" "USD" 0 w listing200);
    [vm_compute; reflexivity | lia | reflexivity | vm_compute; reflexivity |].
  exact GatewayFacts.listing200_entries.
Defined.

Lemma search_ignores_case_witness :
  let w := boot (always (Response 200 (Json (PyList listing200))) 1) 1000 in
  fst (search_coins "BIT" "USD" 2 w) = fst (search_coins "bit" "USD" 2 w) /\
  search_key "BIT" "USD" 2 <> search_key "bit" "USD" 2.
Proof.
  intros w.
  destruct (search_ignores_case "bit" "USD" 2 w) as [Hres [_ Hkey]]; try reflexivity.
  split; [exact Hres | apply Hkey; discriminate].
Defined.

Lemma search_for_empty_query_witness :
  let w := boot (always (Response 200 (Json (PyList listing200))) 1) 1000 in
  fst (search_coins "" "USD" 1 w) = Ok (PyList [coin "Other 0" "X0" 0]).
Proof.
  intros w.
  rewrite (search_for_empty_query "USD" 1 w listing200);
    [vm_compute; reflexivity | lia | reflexivity | vm_compute; reflexivity |].
  exact GatewayFacts.listing200_entries.
Defined.

End SearchMore.

(** ** The cache keys *)

Module KeyFacts.

Import Service Spec Requests.

Lemma append_assoc a b c : (a +:+ b) +:+ c = a +:+ (b +:+ c).
Proof.
  induction a as [| x a IH]; [reflexivity |].
  change (String x ((a +:+ b) +:+ c) = String x (a +:+ (b +:+ c))). now rewrite IH.
Qed.

Lemma underscore_free_cons c s :
  underscore_free (String c s) <-> c <> "_"%char /\ underscore_free s.
Proof.
  unfold underscore_free. cbn [forallb_string]. rewrite andb_true_iff, negb_true_iff.
  now rewrite Ascii.eqb_neq.
Qed.

Lemma underscore_free_app a b :
  underscore_free a -> underscore_free b -> underscore_free (a +:+ b).
Proof.
  intros Ha Hb. induction a as [| c a IH]; [exact Hb |].
  change (underscore_free (String c (a +:+ b))).
  apply underscore_free_cons in Ha. destruct Ha as [Hc Ha].
  apply underscore_free_cons. split; [exact Hc | now apply IH].
Qed.

Lemma not_underscore_free a b : ~ underscore_free (a +:+ String "_" b).
Proof.
  induction a as [| c a IH].
  - intros Hf. change (underscore_free (String "_" b)) in Hf.
    apply underscore_free_cons in Hf. now destruct Hf.
  - intros Hf. change (underscore_free (String c (a +:+ String "_" b))) in Hf.
    apply underscore_free_cons in Hf. now destruct Hf.
Qed.

(** The last underscore of a key splits it: what follows, free of
    underscores, and what precedes are both determined. *)
Lemma split_at_last_underscore a a' b b' :
  underscore_free b -> underscore_free b' ->
  a +:+ String "_" b = a' +:+ String "_" b' -> a = a' /\ b = b'.
Proof.
  intros Hb Hb'. revert a'. induction a as [| c a IH]; intros [| c' a'].
  - now intros [= ->].
  - intros Heq. change (String "_" b = String c' (a' +:+ String "_" b')) in Heq.
    injection Heq as _ ->. now destruct (not_underscore_free a' b').
  - intros Heq. change (String c (a +:+ String "_" b) = String "_" b') in Heq.
    injection Heq as _ <-. now destruct (not_underscore_free a b).
  - intros Heq.
    change (String c (a +:+ String "_" b) = String c' (a' +:+ String "_" b')) in Heq.
    injection Heq as -> Heq. destruct (IH a' Heq) as [-> ->]. now split.
Qed.

(** A number is printed without underscores. *)
Lemma pretty_N_go_underscore_free (x : N) s :
  underscore_free s -> underscore_free (pretty_N_go x s).
Proof.
  revert s. induction (N.lt_wf_0 x) as [x _ IH]; intros s Hs.
  destruct (decide (x = 0)%N) as [-> | Hx]; [now rewrite pretty_N_go_0 |].
  rewrite pretty_N_go_step by lia. apply IH; [apply N.div_lt; lia |].
  apply underscore_free_cons. split; [| exact Hs].
  unfold pretty_N_char. now repeat case_match.
Qed.

Lemma pretty_Z_underscore_free (z : Z) : underscore_free (pretty z).
Proof.
  assert (Hpos : forall p : positive, underscore_free (pretty p)).
  { intros p. unfold pretty, pretty_positive, pretty, pretty_N.
    destruct (decide (N.pos p = 0)%N); [reflexivity |].
    now apply pretty_N_go_underscore_free. }
  destruct z as [| p | p]; unfold pretty, pretty_Z; [reflexivity | apply Hpos |].
  apply (underscore_free_app "-"); [reflexivity | apply Hpos].
Qed.

Lemma supported_currency_underscore_free currency :
  In currency Validators.supported_currencies -> underscore_free currency.
Proof.
  intros Hin. cbn in Hin.
  repeat (destruct Hin as [<- | Hin]; [reflexivity |]). contradiction.
Qed.

(** X19: the cache key determines the request. Keys of different operations
    never coincide, and two calls of the same operation have the same key
    only when they have the same parameters, as long as the currency has no
    underscore, which holds of every supported currency; so a hit under a
    key is always a result computed for the same parameters. *)
Theorem key_determines_request (op op' : operation) :
  separable op -> separable op' -> key_of op = key_of op' -> op = op'.
Proof.
  intros Hsep Hsep'.
  destruct op as [s c | c l o | q c l | c]; destruct op' as [s' c' | c' l' o' | q' c' l' | c'];
    unfold key_of, coin_key, coins_list_key, search_key, market_overview_key;
    intros Hkey; try (cbv beta iota delta [String.append] in Hkey; discriminate Hkey).
  - change (String "c" (String "o" (String "i" (String "n" (String "_" (s +:+ String "_" c)))))
            = String "c" (String "o" (String "i" (String "n" (String "_" (s' +:+ String "_" c'))))))
      in Hkey.
    injection Hkey as Hkey.
    destruct (split_at_last_underscore _ _ _ _ Hsep Hsep' Hkey) as [-> ->]. reflexivity.
  - apply (f_equal (fun k => match k with
                             | String _ (String _ (String _ (String _ (String _ (String _
                                 (String _ (String _ (String _ (String _ (String _ r))))))))))
                                 => r
                             | _ => ""
                             end)) in Hkey.
    cbv beta iota delta [String.append] in Hkey. fold String.append in Hkey.
    change (c +:+ String "_" (pretty l +:+ String "_" (pretty o))
            = c' +:+ String "_" (pretty l' +:+ String "_" (pretty o'))) in Hkey.
    change (String "_" (pretty l +:+ String "_" (pretty o)))
      with ((String "_" (pretty l)) +:+ String "_" (pretty o)) in Hkey.
    change (String "_" (pretty l' +:+ String "_" (pretty o')))
      with ((String "_" (pretty l')) +:+ String "_" (pretty o')) in Hkey.
    rewrite <- !append_assoc in Hkey.
    destruct (split_at_last_underscore _ _ _ _
                (pretty_Z_underscore_free o) (pretty_Z_underscore_free o') Hkey)
      as [Hkey' Ho].
    destruct (split_at_last_underscore _ _ _ _
                (pretty_Z_underscore_free l) (pretty_Z_underscore_free l') Hkey')
      as [-> Hl].
    apply (inj pretty) in Ho. apply (inj pretty) in Hl. now subst.
  - apply (f_equal (fun k => match k with
                             | String _ (String _ (String _ (String _ (String _ (String _
                                 (String _ r)))))) => r
                             | _ => ""
                             end)) in Hkey.
    cbv beta iota delta [String.append] in Hkey. fold String.append in Hkey.
    change (q +:+ String "_" (c +:+ String "_" (pretty l))
            = q' +:+ String "_" (c' +:+ String "_" (pretty l'))) in Hkey.
    change (String "_" (c +:+ String "_" (pretty l)))
      with ((String "_" c) +:+ String "_" (pretty l)) in Hkey.
    change (String "_" (c' +:+ String "_" (pretty l')))
      with ((String "_" c') +:+ String "_" (pretty l')) in Hkey.
    rewrite <- !append_assoc in Hkey.
    destruct (split_at_last_underscore _ _ _ _
                (pretty_Z_underscore_free l) (pretty_Z_underscore_free l') Hkey)
      as [Hkey' Hl].
    destruct (split_at_last_underscore _ _ _ _ Hsep Hsep' Hkey') as [-> ->].
    apply (inj pretty) in Hl. now subst.
  - cbv beta iota delta [String.append] in Hkey. fold String.append in Hkey.
    now injection Hkey as ->.
Qed.

(** The keys of two lookups with validated parameters differ; with a
    currency that has an underscore, as no supported one has, two different
    lookups would share a key. *)
Lemma key_determines_request_witness :
  key_of (SingleCoin "BTC" "USD") <> key_of (SingleCoin "BTC" "EUR") /\
  key_of (SingleCoin "A_B" "C") = key_of (SingleCoin "A" "B_C").
Proof.
  split; [| reflexivity].
  intros Hkey.
  assert (Hsame : SingleCoin "BTC" "USD" = SingleCoin "BTC" "EUR").
  { apply key_determines_request; [| | exact Hkey];
      apply supported_currency_underscore_free; vm_compute; tauto. }
  discriminate Hsame.
Defined.

End KeyFacts.

(** ** More on the routes *)

Module MainMore.

Import Upstream Proc Models Main Spec Requests.

Section WithLibrary.

Context `{Library}.

(** X20: invalid parameters never reach the gateway.  A symbol that is not
    valid is answered with an [HTTPException] of status 400 that carries the
    validator's [ValueError].  A limit outside 1..100 or a negative offset
    on the list route, and a limit outside 1..50 or an empty query on the
    search route, are turned down by the parameter validation of the route
    with status 422, before the body of the handler runs.  In each case the
    world is exactly as before: no cache entry read or evicted, no request
    sent. *)
Theorem invalid_parameters_never_reach_the_gateway (w : World) (currency : Currency) :
  (forall symbol, ~ well_formed_symbol (normalize symbol) ->
     exists msg,
       get_cryptocurrency symbol currency w = (Raise (HTTPException 400 (ValueError msg)), w)) /\
  (forall limit offset, ~ (1 <= limit <= 100 /\ 0 <= offset) ->
     get_cryptocurrencies limit offset currency w = (Raise RequestValidationError, w) /\
     http_status (fst (get_cryptocurrencies limit offset currency w)) = 422) /\
  (forall query limit, ~ (1 <= limit <= 50 /\ query <> "") ->
     search_cryptocurrencies query limit currency w = (Raise RequestValidationError, w) /\
     http_status (fst (search_cryptocurrencies query limit currency w)) = 422).
Proof.
  split; [| split].
  - intros symbol Hbad.
    destruct (Validators.validate_crypto_symbol symbol) as [validated | e] eqn:Hv.
    + apply ValidatorFacts.validate_crypto_symbol_shape in Hv.
      destruct Hv as [-> Hwf]. contradiction.
    + destruct (ValidatorFacts.validate_crypto_symbol_raises _ _ Hv) as [msg ->].
      exists msg. unfold get_cryptocurrency, try_except, bind, lift. now rewrite Hv.
  - intros limit offset Hbad.
    unfold get_cryptocurrencies, get_cryptocurrencies_query.
    destruct (Z.leb_spec 1 limit), (Z.leb_spec limit 100), (Z.leb_spec 0 offset);
      cbn [andb]; try (split; reflexivity).
    exfalso. apply Hbad. lia.
  - intros query limit Hbad.
    unfold search_cryptocurrencies, search_cryptocurrencies_query.
    destruct query as [| c query]; [split; reflexivity |].
    cbn [String.length Nat.leb].
    destruct (Z.leb_spec 1 limit), (Z.leb_spec limit 50);
      cbn [andb]; try (split; reflexivity).
    exfalso. apply Hbad. split; [lia | discriminate].
Qed.

(** *** What a route can raise *)

Lemma rbind_internal {A B : Type} (r : Result A) (k : A -> Result B) e :
  (forall e0, r = Raise e0 -> internal e0) ->
  (forall a e0, k a = Raise e0 -> internal e0) ->
  rbind r k = Raise e -> internal e.
Proof. intros Hr Hk. destruct r as [a | e0]; cbn; [apply Hk | intros [= <-]; now apply Hr]. Qed.

Lemma get_internal obj key default e : Py.get obj key default = Raise e -> internal e.
Proof. destruct obj; cbn; intros [= <-]; exact I. Qed.

Lemma percent_change_internal obj e : percent_change obj = Raise e -> internal e.
Proof.
  unfold percent_change.
  apply rbind_internal; [apply get_internal |]. intros delta e0.
  apply rbind_internal; [apply get_internal |]. intros day e1.
  apply rbind_internal; [| now intros].
  intros e2. unfold sub_float, float_of_int, rbind.
  destruct day; try (intros [= <-]; exact I).
  destruct (PrimFloat.is_infinity _); intros [= <-]; exact I.
Qed.

Lemma new_CryptocurrencyResponse_internal symbol name price change volume cap rank e :
  new_CryptocurrencyResponse symbol name price change volume cap rank = Raise e -> internal e.
Proof.
  unfold new_CryptocurrencyResponse. repeat case_match; intros [= <-]; exact I.
Qed.

Lemma new_CryptocurrencyListItem_internal symbol name price change rank e :
  new_CryptocurrencyListItem symbol name price change rank = Raise e -> internal e.
Proof.
  unfold new_CryptocurrencyListItem. repeat case_match; intros [= <-]; exact I.
Qed.

Lemma new_MarketOverview_internal cap volume dominance liquidity e :
  new_MarketOverview cap volume dominance liquidity = Raise e -> internal e.
Proof. unfold new_MarketOverview. repeat case_match; intros [= <-]; exact I. Qed.

Lemma single_response_internal data validated_symbol e :
  single_response data validated_symbol = Raise e -> internal e.
Proof.
  unfold single_response.
  repeat (apply rbind_internal;
          [first [apply get_internal | apply percent_change_internal] | intros ? ?]).
  apply new_CryptocurrencyResponse_internal.
Qed.

Lemma list_item_internal item e : list_item item = Raise e -> internal e.
Proof.
  unfold list_item.
  repeat (apply rbind_internal;
          [first [apply get_internal | apply percent_change_internal] | intros ? ?]).
  apply new_CryptocurrencyListItem_internal.
Qed.

Lemma transform_internal data crypto_items e :
  transform data crypto_items = Raise e -> internal e.
Proof.
  revert crypto_items e. induction data as [| item data IH]; intros acc e; cbn [transform];
    [now intros |].
  apply rbind_internal; [apply list_item_internal | intros ? ?; apply IH].
Qed.

Lemma list_response_internal data validated_currency e :
  list_response data validated_currency = Raise e -> internal e.
Proof.
  unfold list_response.
  apply rbind_internal; [intros e0 He; apply GatewayFacts.iter_raises in He; now subst |].
  intros items e0.
  apply rbind_internal; [apply transform_internal | now intros].
Qed.

Lemma market_overview_response_internal data e :
  market_overview_response data = Raise e -> internal e.
Proof.
  unfold market_overview_response.
  repeat (apply rbind_internal; [apply get_internal | intros ? ?]).
  apply new_MarketOverview_internal.
Qed.

Lemma json_internal content e : Service.json content = Raise e -> internal e.
Proof. destruct content; cbn; intros [= <-]; exact I. Qed.

Lemma error_msg_of_internal content e : Service.error_msg_of content = Raise e -> internal e.
Proof.
  unfold Service.error_msg_of.
  apply rbind_internal.
  - intros e0. destruct content; try apply json_internal. now intros.
  - intros error_data e0. apply rbind_internal; [apply get_internal |].
    intros error e1. apply get_internal.
Qed.

Lemma classify_internal o e : Service.classify o = Raise e -> internal e.
Proof.
  destruct o as [status_code content | | msg]; cbn [Service.classify];
    try (intros [= <-]; exact I).
  destruct (status_code =? 200); [apply json_internal |].
  destruct (status_code =? 401); [intros [= <-]; exact I |].
  destruct (status_code =? 404); [intros [= <-]; exact I |].
  destruct (status_code =? 429); [intros [= <-]; exact I |].
  apply rbind_internal; [apply error_msg_of_internal |].
  intros error_msg e0 [= <-]. exact I.
Qed.

Lemma surfaced_internal op e : internal e -> internal (surfaced op e).
Proof.
  destruct op, e; cbn; try tauto. now destruct (str_in "not found" (lower msg)).
Qed.

Lemma miss_internal op w e w' : miss op w = (Raise e, w') -> internal e.
Proof.
  destruct (direct op) eqn:Hdirect.
  - rewrite (GatewayMore.direct_miss op w Hdirect).
    destruct (Service.classify _) as [result | e0] eqn:Hclass; [now intros |].
    intros [= <- _]. apply surfaced_internal. now apply classify_internal in Hclass.
  - destruct op; try discriminate. unfold miss, Service.search_coins_miss, bind, lift.
    destruct (Service.get_coins_list currency 200 0 w) as [[coins_data | e0] w1] eqn:Hlist.
    + destruct (iter coins_data) as [coins | e1] eqn:Hiter.
      * destruct (Service.search_loop (lower query) limit coins []) as [found | e2] eqn:Hloop;
          [now intros |].
        intros [= <- _]. apply GatewayFacts.search_loop_raises in Hloop. now subst.
      * intros [= <- _]. apply GatewayFacts.iter_raises in Hiter. now subst.
    + intros [= <- _].
      change (run (CoinsList currency 200 0) w = (Raise e0, w1)) in Hlist.
      rewrite GatewayFacts.run_check in Hlist.
      destruct (Service.if_truthy _); [discriminate |].
      rewrite (GatewayMore.direct_miss (CoinsList currency 200 0) _ eq_refl) in Hlist.
      destruct (Service.classify _) as [result | e1] eqn:Hclass; [discriminate |].
      injection Hlist as <- _. cbn [surfaced]. now apply classify_internal in Hclass.
Qed.

Lemma run_internal op w e w' : run op w = (Raise e, w') -> internal e.
Proof.
  rewrite GatewayFacts.run_check. destruct (Service.if_truthy _); [now intros |].
  apply miss_internal.
Qed.

Lemma lift_internal {A : Type} (r : Result A) w e w' :
  (forall e0, r = Raise e0 -> internal e0) -> lift r w = (Raise e, w') -> internal e.
Proof. intros Hr. unfold lift. intros [= -> _]. now apply Hr. Qed.

Lemma bind_internal {A B : Type} (m : M A) (k : A -> M B) w e w' :
  (forall e0 w0, m w = (Raise e0, w0) -> internal e0) ->
  (forall a w1 e0 w0, k a w1 = (Raise e0, w0) -> internal e0) ->
  bind m k w = (Raise e, w') -> internal e.
Proof.
  intros Hm Hk. unfold bind. destruct (m w) as [[a | e0] w1].
  - apply Hk.
  - intros [= <- _]. now apply (Hm e0 w1).
Qed.

Lemma validator_internal {A : Type} (r : Result A) e :
  (forall e0, r = Raise e0 -> exists msg, e0 = ValueError msg) -> r = Raise e -> internal e.
Proof. intros Hr He. destruct (Hr e He) as [msg ->]. exact I. Qed.

Lemma validate_currency_raises currency e :
  Validators.validate_currency currency = Raise e -> exists msg, e = ValueError msg.
Proof.
  unfold Validators.validate_currency. repeat case_match; intros [= <-]; eauto.
Qed.

Lemma validate_limit_raises limit max_limit e :
  Validators.validate_limit limit max_limit = Raise e -> exists msg, e = ValueError msg.
Proof. unfold Validators.validate_limit. repeat case_match; intros [= <-]; eauto. Qed.

(** The [except ValueError] clause around a body that raises no
    [HTTPException] of its own. *)
Lemma guarded_status {A : Type} (m : M A) w :
  (forall e w', m w = (Raise e, w') -> internal e) ->
  In (http_status (fst (try_except m except_ValueError w))) statuses /\
  (forall e, fst (try_except m except_ValueError w) = Raise e -> is_ValueError e = false) /\
  (forall status_code cause,
     fst (try_except m except_ValueError w) = Raise (HTTPException status_code cause) ->
     status_code = 400 /\ is_ValueError cause = true).
Proof.
  intros Hm. unfold try_except, except_ValueError, raise, statuses.
  destruct (m w) as [[a | e] w'] eqn:Hrun; cbn [fst].
  - split; [cbn; tauto |]. split; now intros.
  - specialize (Hm e w' eq_refl).
    destruct (is_ValueError e) eqn:Hve; cbn [fst].
    + split; [cbn; tauto |]. split; [now intros ? [= <-] |].
      now intros ? ? [= <- <-].
    + split; [| split; [now intros ? [= <-] |]].
      * destruct e; try discriminate; try contradiction; cbn; try tauto.
        unfold livecoinwatch_exception_handler. cbn.
        repeat case_match; tauto.
      * intros ? ? [= ->]. contradiction.
Qed.

(** The answer of the parameter validation of a route. *)
Lemma turned_down_status {A : Type} :
  In (http_status (@Raise A RequestValidationError)) statuses /\
  (forall e, @Raise A RequestValidationError = Raise e -> is_ValueError e = false) /\
  (forall status_code cause,
     @Raise A RequestValidationError = Raise (HTTPException status_code cause) ->
     status_code = 400 /\ is_ValueError cause = true).
Proof.
  split; [cbn; tauto |]. split; [now intros e [= <-] | now intros].
Qed.

(** X21: whatever the parameters, the cache and the provider, each of the
    four routes answers with one of the statuses 200, 400, 401, 404, 422,
    429, 500 and 502; no [ValueError] leaves a route, since the [except]
    clause turns every one, the [JSONDecodeError] of a body that is not JSON
    and the validation error of a response model included, into an
    [HTTPException], and 400 is the only status of an [HTTPException]. *)
Theorem routes_answer_with_known_statuses (w : World) (currency : Currency) :
  (forall symbol,
     In (http_status (fst (get_cryptocurrency symbol currency w))) statuses /\
     (forall e, fst (get_cryptocurrency symbol currency w) = Raise e ->
        is_ValueError e = false) /\
     (forall status_code cause,
        fst (get_cryptocurrency symbol currency w) = Raise (HTTPException status_code cause) ->
        status_code = 400 /\ is_ValueError cause = true)) /\
  (forall limit offset,
     In (http_status (fst (get_cryptocurrencies limit offset currency w))) statuses /\
     (forall e, fst (get_cryptocurrencies limit offset currency w) = Raise e ->
        is_ValueError e = false) /\
     (forall status_code cause,
        fst (get_cryptocurrencies limit offset currency w)
          = Raise (HTTPException status_code cause) ->
        status_code = 400 /\ is_ValueError cause = true)) /\
  (forall query limit,
     In (http_status (fst (search_cryptocurrencies query limit currency w))) statuses /\
     (forall e, fst (search_cryptocurrencies query limit currency w) = Raise e ->
        is_ValueError e = false) /\
     (forall status_code cause,
        fst (search_cryptocurrencies query limit currency w)
          = Raise (HTTPException status_code cause) ->
        status_code = 400 /\ is_ValueError cause = true)) /\
  (In (http_status (fst (get_market_overview currency w))) statuses /\
   (forall e, fst (get_market_overview currency w) = Raise e -> is_ValueError e = false) /\
   (forall status_code cause,
      fst (get_market_overview currency w) = Raise (HTTPException status_code cause) ->
      status_code = 400 /\ is_ValueError cause = true)).
Proof.
  split; [| split; [| split]].
  - intros symbol. apply guarded_status. intros e w'.
    apply bind_internal;
      [intros ? ?; apply lift_internal; intros ?;
       apply validator_internal, ValidatorFacts.validate_crypto_symbol_raises |].
    intros validated_symbol w1 e1 w2.
    apply bind_internal;
      [intros ? ?; apply lift_internal; intros ?;
       apply validator_internal, validate_currency_raises |].
    intros validated_currency w3 e3 w4.
    apply bind_internal;
      [intros ? ?; apply (run_internal (SingleCoin validated_symbol validated_currency)) |].
    intros data w5 e5 w6. apply lift_internal. intros ?. apply single_response_internal.
  - intros limit offset. unfold get_cryptocurrencies.
    destruct (get_cryptocurrencies_query limit offset); [| apply turned_down_status].
    apply guarded_status. intros e w'.
    apply bind_internal;
      [intros ? ?; apply lift_internal; intros ?;
       apply validator_internal, validate_limit_raises |].
    intros validated_limit w1 e1 w2.
    apply bind_internal;
      [intros ? ?; apply lift_internal; intros ?;
       apply validator_internal, validate_currency_raises |].
    intros validated_currency w3 e3 w4.
    apply bind_internal;
      [intros ? ?; apply (run_internal (CoinsList validated_currency validated_limit offset)) |].
    intros data w5 e5 w6. apply lift_internal. intros ?. apply list_response_internal.
  - intros query limit. unfold search_cryptocurrencies.
    destruct (search_cryptocurrencies_query query limit); [| apply turned_down_status].
    apply guarded_status. intros e w'.
    apply bind_internal;
      [intros ? ?; apply lift_internal; intros ?;
       apply validator_internal, validate_limit_raises |].
    intros validated_limit w1 e1 w2.
    apply bind_internal;
      [intros ? ?; apply lift_internal; intros ?;
       apply validator_internal, validate_currency_raises |].
    intros validated_currency w3 e3 w4.
    apply bind_internal;
      [intros ? ?; apply (run_internal (SearchCoins query validated_currency validated_limit)) |].
    intros data w5 e5 w6. apply lift_internal. intros ?. apply list_response_internal.
  - apply guarded_status. intros e w'.
    apply bind_internal;
      [intros ? ?; apply lift_internal; intros ?;
       apply validator_internal, validate_currency_raises |].
    intros validated_currency w3 e3 w4.
    apply bind_internal;
      [intros ? ?; apply (run_internal (MarketOverview validated_currency)) |].
    intros data w5 e5 w6. apply lift_internal. intros ?. apply market_overview_response_internal.
Qed.

(** *** What the responses carry *)

Lemma get_field d key default : Py.get (PyDict d) key default = Ok (field d key default).
Proof. reflexivity. Qed.

Lemma list_item_projects item crypto_item :
  list_item item = Ok crypto_item -> projects item crypto_item.
Proof.
  unfold list_item. destruct item as [| | | | | | d]; try now intros.
  rewrite !get_field. cbn [rbind].
  destruct (percent_change (PyDict d)) as [change |] eqn:Hchange; [| now intros].
  cbn [rbind]. unfold new_CryptocurrencyListItem. rewrite as_float_float.
  destruct (as_str (field d "code" (PyStr ""))) as [symbol |] eqn:Hsymbol; [| now intros].
  destruct (as_str (field d "name" (PyStr ""))) as [name |] eqn:Hname; [| now intros].
  destruct (as_float (field d "rate" (PyFloat 0))) as [price |] eqn:Hprice; [| now intros].
  destruct (as_opt_int (field d "rank" PyNone)) as [rank |] eqn:Hrank; [| now intros].
  intros [= <-]. exists d, change. cbn.
  split; [reflexivity |]. do 3 (split; [assumption |]). split; [exact Hchange |].
  split; [reflexivity | assumption].
Qed.

Lemma transform_projects data crypto_items result :
  transform data crypto_items = Ok result ->
  exists items, result = crypto_items ++ items /\ Forall2 projects data items.
Proof.
  revert crypto_items. induction data as [| item data IH]; intros acc; cbn [transform].
  - intros [= <-]. exists []. split; [now rewrite app_nil_r | constructor].
  - destruct (list_item item) as [crypto_item |] eqn:Hitem; [| now intros].
    cbn [rbind]. intros Hrest. apply IH in Hrest. destruct Hrest as [items [-> Hall]].
    exists (crypto_item :: items). split; [now rewrite <- app_assoc |].
    constructor; [now apply list_item_projects | exact Hall].
Qed.

Lemma list_response_projects data validated_currency resp :
  list_response data validated_currency = Ok resp ->
  CryptocurrencyListResponse.currency resp = validated_currency /\
  exists items,
    iter data = Ok items /\ Forall2 projects items (CryptocurrencyListResponse.data resp).
Proof.
  unfold list_response. destruct (iter data) as [items |]; [| now intros].
  cbn [rbind]. destruct (transform items []) as [crypto_items |] eqn:Htr; [| now intros].
  intros [= <-]. cbn. split; [reflexivity |].
  exists items. split; [reflexivity |].
  apply transform_projects in Htr. now destruct Htr as [new [-> Hall]].
Qed.

(** X22: a response of the list route or of the search route carries the
    requested currency and, in the order of the gateway's result, one item
    per entry: the entry's code as symbol, its name, its rate as price, its
    day-over-day ratio as percent change and its rank; a missing code or
    name is the empty string, a missing rate 0.0, a missing rank absent. *)
Theorem list_responses_project_entries (currency : Currency) (limit : Z) (w w' : World)
    (resp : CryptocurrencyListResponse.t) :
  (forall offset,
     get_cryptocurrencies limit offset currency w = (Ok resp, w') ->
     CryptocurrencyListResponse.currency resp = Currency_value currency /\
     exists page items,
       Service.get_coins_list (Currency_value currency) limit offset w = (Ok page, w') /\
       iter page = Ok items /\
       Forall2 projects items (CryptocurrencyListResponse.data resp)) /\
  (forall query,
     search_cryptocurrencies query limit currency w = (Ok resp, w') ->
     CryptocurrencyListResponse.currency resp = Currency_value currency /\
     exists found items,
       Service.search_coins query (Currency_value currency) limit w = (Ok found, w') /\
       iter found = Ok items /\
       Forall2 projects items (CryptocurrencyListResponse.data resp)).
Proof.
  split.
  - intros offset Hrun. apply MainFacts.get_cryptocurrencies_Ok in Hrun.
    destruct Hrun as [data [Hdata Hresp]]. apply list_response_projects in Hresp.
    destruct Hresp as [Hcur [items [Hiter Hall]]]. split; [exact Hcur |].
    now exists data, items.
  - intros query Hrun. apply MainFacts.search_cryptocurrencies_Ok in Hrun.
    destruct Hrun as [data [Hdata Hresp]]. apply list_response_projects in Hresp.
    destruct Hresp as [Hcur [items [Hiter Hall]]]. split; [exact Hcur |].
    now exists data, items.
Qed.

Lemma get_market_overview_Ok currency w resp w' :
  get_market_overview currency w = (Ok resp, w') ->
  exists data,
    Service.get_market_overview (Currency_value currency) w = (Ok data, w') /\
    market_overview_response data = Ok resp.
Proof.
  intros Hrun. apply MainFacts.except_ValueError_Ok in Hrun. revert Hrun.
  unfold bind, lift. rewrite MainFacts.validate_currency_value.
  destruct (Service.get_market_overview _ w) as [[data | e] w0]; [| now intros].
  destruct (market_overview_response data) as [r |] eqn:Hresp; [| now intros].
  intros [= <- <-]. now exists data.
Qed.

(** X23: a response of the market overview route is a remap of the
    gateway's payload, which is a JSON object: [cap] becomes the total
    market capitalisation, [volume] the total volume, [btcDominance] the
    bitcoin dominance and [liquidity] the count of active currencies; a
    payload without [cap] or [volume] gives 0.0 for it. *)
Theorem market_overview_is_a_remap (currency : Currency) (w w' : World)
    (resp : MarketOverview.t) :
  get_market_overview currency w = (Ok resp, w') ->
  exists d,
    Service.get_market_overview (Currency_value currency) w = (Ok (PyDict d), w') /\
    as_float (field d "cap" (PyFloat 0.0)) = Some (MarketOverview.total_market_cap resp) /\
    as_float (field d "volume" (PyFloat 0.0)) = Some (MarketOverview.total_volume_24h resp) /\
    as_opt_float (field d "btcDominance" PyNone)
      = Some (MarketOverview.bitcoin_dominance resp) /\
    as_opt_int (field d "liquidity" PyNone)
      = Some (MarketOverview.active_cryptocurrencies resp) /\
    (forall cap, assoc "cap" d = Some (PyFloat cap) ->
       MarketOverview.total_market_cap resp = cap) /\
    (assoc "cap" d = None -> MarketOverview.total_market_cap resp = 0%float) /\
    (assoc "volume" d = None -> MarketOverview.total_volume_24h resp = 0%float).
Proof.
  intros Hrun. apply get_market_overview_Ok in Hrun. destruct Hrun as [data [Hdata Hresp]].
  unfold market_overview_response in Hresp.
  destruct data as [| | | | | | d]; try discriminate.
  rewrite !get_field in Hresp. cbn [rbind] in Hresp. unfold new_MarketOverview in Hresp.
  destruct (as_float (field d "cap" (PyFloat 0))) as [cap |] eqn:Hcap; [| discriminate].
  destruct (as_float (field d "volume" (PyFloat 0))) as [volume |] eqn:Hvolume;
    [| discriminate].
  destruct (as_opt_float (field d "btcDominance" PyNone)) as [dominance |] eqn:Hdominance;
    [| discriminate].
  destruct (as_opt_int (field d "liquidity" PyNone)) as [liquidity |] eqn:Hliquidity;
    [| discriminate].
  injection Hresp as <-. exists d. cbn.
  split; [exact Hdata |]. do 4 (split; [assumption || reflexivity |]).
  unfold field in Hcap, Hvolume. split; [| split].
  - intros x Hx. rewrite Hx, as_float_float in Hcap. now injection Hcap.
  - intros Hnone. rewrite Hnone, as_float_float in Hcap. now injection Hcap.
  - intros Hnone. rewrite Hnone, as_float_float in Hvolume. now injection Hvolume.
Qed.

(** X24: a response of the single-asset route maps the payload's [name],
    [rate], [volume], [cap] and [rank] to its name, price, volume, market
    capitalisation and rank; a payload without a name, a rate, a volume or
    a day-over-day ratio gives the empty name, the price 0.0, the volume 0.0
    and the percent change 0.0. *)
Theorem single_response_defaults (symbol : string) (currency : Currency) (w w' : World)
    (resp : CryptocurrencyResponse.t) :
  get_cryptocurrency symbol currency w = (Ok resp, w') ->
  exists d,
    Service.get_single_coin (normalize symbol) (Currency_value currency) w
      = (Ok (PyDict d), w') /\
    as_str (field d "name" (PyStr "")) = Some (CryptocurrencyResponse.name resp) /\
    as_float (field d "rate" (PyFloat 0.0)) = Some (CryptocurrencyResponse.price resp) /\
    as_float (field d "volume" (PyFloat 0.0)) = Some (CryptocurrencyResponse.volume_24h resp) /\
    as_opt_float (field d "cap" PyNone) = Some (CryptocurrencyResponse.market_cap resp) /\
    as_opt_int (field d "rank" PyNone) = Some (CryptocurrencyResponse.rank resp) /\
    (assoc "name" d = None -> CryptocurrencyResponse.name resp = "") /\
    (assoc "rate" d = None -> CryptocurrencyResponse.price resp = 0%float) /\
    (assoc "volume" d = None -> CryptocurrencyResponse.volume_24h resp = 0%float) /\
    (assoc "delta" d = None -> CryptocurrencyResponse.percent_change_24h resp = 0%float) /\
    (forall delta, assoc "delta" d = Some (PyDict delta) -> assoc "day" delta = None ->
       CryptocurrencyResponse.percent_change_24h resp = 0%float).
Proof.
  intros Hrun. apply MainFacts.get_cryptocurrency_Ok in Hrun.
  destruct Hrun as [_ [data [Hdata Hresp]]].
  unfold single_response in Hresp. destruct data as [| | | | | | d]; try discriminate.
  rewrite !get_field in Hresp. cbn [rbind] in Hresp.
  destruct (percent_change (PyDict d)) as [change |] eqn:Hchange; [| discriminate].
  cbn [rbind] in Hresp. unfold new_CryptocurrencyResponse in Hresp.
  rewrite as_float_float in Hresp.
  destruct (as_str (field d "symbol" _)) as [sym |]; [| discriminate].
  destruct (as_str (field d "name" (PyStr ""))) as [name |] eqn:Hname; [| discriminate].
  destruct (as_float (field d "rate" (PyFloat 0))) as [price |] eqn:Hprice; [| discriminate].
  destruct (as_float (field d "volume" (PyFloat 0))) as [volume |] eqn:Hvolume;
    [| discriminate].
  destruct (as_opt_float (field d "cap" PyNone)) as [cap |] eqn:Hcap; [| discriminate].
  destruct (as_opt_int (field d "rank" PyNone)) as [rank |] eqn:Hrank; [| discriminate].
  injection Hresp as <-. exists d. cbn.
  split; [exact Hdata |]. do 5 (split; [assumption || reflexivity |]).
  unfold field in Hname, Hprice, Hvolume. unfold percent_change in Hchange.
  rewrite get_field in Hchange. cbn [rbind] in Hchange. unfold field in Hchange.
  split; [| split; [| split; [| split]]].
  - intros Hnone. rewrite Hnone, as_str_str in Hname. now injection Hname.
  - intros Hnone. rewrite Hnone, as_float_float in Hprice. now injection Hprice.
  - intros Hnone. rewrite Hnone, as_float_float in Hvolume. now injection Hvolume.
  - intros Hnone. rewrite Hnone in Hchange. cbn in Hchange. now injection Hchange.
  - intros delta Hdelta Hday. rewrite Hdelta in Hchange. cbn in Hchange.
    rewrite Hday in Hchange. cbn in Hchange. now injection Hchange.
Qed.

Lemma sub_float_raises day c e :
  sub_float day c = Raise e -> e = TypeError \/ e = OverflowError.
Proof.
  unfold sub_float, float_of_int, rbind. destruct day; try (intros [= <-]; tauto).
  destruct (PrimFloat.is_infinity _); intros [= <-]; tauto.
Qed.

(** X25: a payload whose day-over-day ratio cannot be subtracted from is not
    caught by any handler: when [delta] is not a JSON object the single
    asset route fails with an [AttributeError], when [delta.day] is not a
    number (a JSON null, a string) with a [TypeError], and the application
    answers 500; the payload has been cached by then. *)
Theorem malformed_ratio_is_500 (symbol : string) (currency : Currency) (w w' : World)
    (d : list (string * pyval)) :
  well_formed_symbol (normalize symbol) ->
  Service.get_single_coin (normalize symbol) (Currency_value currency) w
    = (Ok (PyDict d), w') ->
  (forall v, assoc "delta" d = Some v -> (forall delta, v <> PyDict delta) ->
     get_cryptocurrency symbol currency w = (Raise AttributeError, w')) /\
  (forall delta day e,
     assoc "delta" d = Some (PyDict delta) -> assoc "day" delta = Some day ->
     sub_float day 1.0 = Raise e ->
     get_cryptocurrency symbol currency w = (Raise e, w') /\
     http_status (fst (get_cryptocurrency symbol currency w)) = 500) /\
  (forall delta,
     assoc "delta" d = Some (PyDict delta) -> assoc "day" delta = Some PyNone ->
     get_cryptocurrency symbol currency w = (Raise TypeError, w')).
Proof.
  intros Hwf Hdata.
  assert (Hgeneral : forall e, percent_change (PyDict d) = Raise e -> is_ValueError e = false ->
                                get_cryptocurrency symbol currency w = (Raise e, w')).
  { intros e Hchange Hve. unfold get_cryptocurrency, try_except, bind, lift.
    rewrite (ValidatorFacts.validate_crypto_symbol_accepts symbol Hwf).
    rewrite MainFacts.validate_currency_value, Hdata.
    unfold single_response. rewrite !get_field. cbn [rbind]. rewrite Hchange. cbn [rbind].
    unfold except_ValueError. now rewrite Hve. }
  assert (Hday : forall delta day e,
             assoc "delta" d = Some (PyDict delta) -> assoc "day" delta = Some day ->
             sub_float day 1.0 = Raise e ->
             percent_change (PyDict d) = Raise e).
  { intros delta day e Hdelta Hd Hsub. unfold percent_change. cbn. rewrite Hdelta. cbn.
    now rewrite Hd, Hsub. }
  split; [| split].
  - intros v Hdelta Hnot. apply Hgeneral; [| reflexivity].
    unfold percent_change. cbn. rewrite Hdelta.
    destruct v; try reflexivity. now destruct (Hnot d0).
  - intros delta day e Hdelta Hd Hsub.
    assert (Hrun : get_cryptocurrency symbol currency w = (Raise e, w')).
    { apply Hgeneral; [now apply (Hday delta day) |].
      destruct (sub_float_raises _ _ _ Hsub) as [-> | ->]; reflexivity. }
    split; [exact Hrun |]. rewrite Hrun.
    destruct (sub_float_raises _ _ _ Hsub) as [-> | ->]; reflexivity.
  - intros delta Hdelta Hd. apply Hgeneral; [| reflexivity].
    now apply (Hday delta PyNone).
Qed.

End WithLibrary.

Import Run.

Lemma malformed_ratio_is_500_witness :
  let payload := [("name", PyStr "New coin"); ("delta", PyDict [("day", PyNone)])] in
  let w := boot (always (Response 200 (Json (PyDict payload))) 1) 1000 in
  fst (get_cryptocurrency "new" USD w) = Raise TypeError /\
  http_status (fst (get_cryptocurrency "new" USD w)) = 500 /\
  Service.if_truthy (Cache.visible 1001 (cache (snd (get_cryptocurrency "new" USD w)))
                       (Service.coin_key "NEW" "USD")) = Some (PyDict payload).
Proof.
  intros payload w.
  destruct (malformed_ratio_is_500 "new" USD w
              (snd (Service.get_single_coin "NEW" "USD" w)) payload)
    as [_ [Hday _]]; try reflexivity.
  { split; [reflexivity | vm_compute; lia]. }
  destruct (Hday [("day", PyNone)] PyNone TypeError eq_refl eq_refl eq_refl) as [Hrun Hstatus].
  split; [now rewrite Hrun |]. split; [exact Hstatus |]. now rewrite Hrun.
Defined.

Lemma routes_answer_with_known_statuses_witness :
  let w := boot (always (Response 200 NotJson) 1) 1000 in
  fst (get_cryptocurrencies 20 0 USD w) = Raise (HTTPException 400 JSONDecodeError) /\
  In (http_status (fst (get_cryptocurrencies 20 0 USD w))) statuses /\
  http_status (fst (get_cryptocurrencies 0 0 USD w)) = 422 /\
  In (http_status (fst (get_cryptocurrencies 0 0 USD w))) statuses /\
  In (http_status (fst (get_market_overview USD w))) statuses.
Proof.
  intros w.
  destruct (routes_answer_with_known_statuses w USD) as [_ [Hlist [_ [Hoverview _]]]].
  split; [reflexivity |]. split; [exact (proj1 (Hlist 20 0)) |].
  split; [reflexivity |]. split; [exact (proj1 (Hlist 0 0)) | exact Hoverview].
Defined.

Lemma invalid_parameters_never_reach_the_gateway_witness :
  let w := boot (always (Response 200 (Json btc)) 1) 1000 in
  (exists msg,
     get_cryptocurrency "TOOLONGSYMBOL123" USD w
     = (Raise (HTTPException 400 (ValueError msg)), w)) /\
  http_status (fst (get_cryptocurrencies 101 0 USD w)) = 422 /\
  http_status (fst (get_cryptocurrencies 20 (-1) USD w)) = 422 /\
  http_status (fst (search_cryptocurrencies "btc" 0 USD w)) = 422 /\
  search_cryptocurrencies "" 10 USD w = (Raise RequestValidationError, w).
Proof.
  intros w.
  destruct (invalid_parameters_never_reach_the_gateway w USD) as [Hsymbol [Hlist Hsearch]].
  split; [| split; [| split; [| split]]].
  - apply Hsymbol. intros [_ Hlen]. vm_compute in Hlen. lia.
  - apply Hlist. lia.
  - apply Hlist. lia.
  - apply Hsearch. lia.
  - apply Hsearch. intros [_ Hquery]. now apply Hquery.
Defined.

Lemma list_responses_project_entries_witness :
  let w := boot (always (Response 200 (Json (PyList [coin "Bitcoin" "BTC" 1;
                                                      coin "Ether" "ETH" 2]))) 1) 1000 in
  exists resp,
    fst (get_cryptocurrencies 2 0 EUR w) = Ok resp /\
    CryptocurrencyListResponse.currency resp = "EUR" /\
    map CryptocurrencyListItem.symbol (CryptocurrencyListResponse.data resp) = ["BTC"; "ETH"].
Proof.
  intros w.
  destruct (get_cryptocurrencies 2 0 EUR w) as [[resp | e] w'] eqn:Hrun;
    [| vm_compute in Hrun; discriminate].
  exists resp. split; [reflexivity |].
  destruct (list_responses_project_entries EUR 2 w w' resp) as [Hlist _].
  destruct (Hlist 0 Hrun) as [Hcur _]. split; [exact Hcur |].
  vm_compute in Hrun. injection Hrun as <- _. reflexivity.
Defined.

Lemma market_overview_is_a_remap_witness :
  let w := boot (always (Response 200 (Json (PyDict [("cap", PyFloat 2.5e12)]))) 1) 1000 in
  exists resp,
    fst (get_market_overview USD w) = Ok resp /\
    MarketOverview.total_market_cap resp = 2.5e12%float /\
    MarketOverview.total_volume_24h resp = 0%float.
Proof.
  intros w.
  destruct (get_market_overview USD w) as [[resp | e] w'] eqn:Hrun;
    [| vm_compute in Hrun; discriminate].
  exists resp. split; [reflexivity |].
  destruct (market_overview_is_a_remap USD w w' resp Hrun)
    as [d [Hdata [_ [_ [_ [_ [Hcap [_ Hvolume]]]]]]]].
  vm_compute in Hdata. injection Hdata as <- _.
  split; [apply Hcap; reflexivity | apply Hvolume; reflexivity].
Defined.

Lemma single_response_defaults_witness :
  let w := boot (always (Response 200 (Json (PyDict [("rank", PyInt 7)]))) 1) 1000 in
  exists resp,
    fst (get_cryptocurrency "doge" USD w) = Ok resp /\
    CryptocurrencyResponse.name resp = "" /\
    CryptocurrencyResponse.price resp = 0%float /\
    CryptocurrencyResponse.percent_change_24h resp = 0%float.
Proof.
  intros w.
  destruct (get_cryptocurrency "doge" USD w) as [[resp | e] w'] eqn:Hrun;
    [| vm_compute in Hrun; discriminate].
  exists resp. split; [reflexivity |].
  destruct (single_response_defaults "doge" USD w w' resp Hrun)
    as [d [Hdata [_ [_ [_ [_ [_ [Hname [Hprice [_ [Hchange _]]]]]]]]]]].
  vm_compute in Hdata. injection Hdata as <- _.
  split; [apply Hname; reflexivity |].
  split; [apply Hprice; reflexivity | apply Hchange; reflexivity].
Defined.

End MainMore.
